(** * task_do_list: the task store, the profile store, the session accessor,
      the AI route and the page controller, embedded from the TypeScript
      sources and checked against the specification.

    The hosted backend (authentication, PostgreSQL behind PostgREST with
    row-level security) is outside the repository.  It appears here the way
    the code consumes it: a table of rows with the columns, defaults, policies
    and trigger of the SQL migrations, and calls that either return a
    [{data, error}] object or throw. *)

From Stdlib Require Import String Ascii List Bool Arith NArith ZArith Lia.
From Stdlib Require Import Permutation Sorted RelationClasses.
From Stdlib Require Import DecimalString.
Import ListNotations.
Local Open Scope string_scope.

(* ================================================================== *)
(** ** JavaScript values shared by all modules *)
(* ================================================================== *)

Module Js.

(** An error object as the code inspects it: [instanceof Error], [.message],
    [.code] (PostgREST / PostgreSQL code) and [.status] (HTTP status of an
    auth error).  A missing property is [None]. *)
Record Error := mkError {
  instance_of_Error : bool;
  message : option string;
  code : option string;
  status : option nat
}.

(** [new Error(msg)] *)
Definition new_Error (msg : string) : Error :=
  mkError true (Some msg) None None.

(** The outcome of an [async] function: it resolves or it rejects. *)
Inductive Result (A : Type) : Type :=
| Ok (a : A)
| Throw (e : Error).
Arguments Ok {A} a.
Arguments Throw {A} e.

Definition bind {A B} (r : Result A) (k : A -> Result B) : Result B :=
  match r with
  | Ok a => k a
  | Throw e => Throw e
  end.

(** [try { body } catch (error) { handler }] *)
Definition try_catch {A} (body : Result A) (handler : Error -> Result A)
  : Result A :=
  match body with
  | Ok a => Ok a
  | Throw e => handler e
  end.

(** A call into a client library: it returns a value or throws. *)
Inductive Call (A : Type) : Type :=
| Returns (a : A)
| Throws (e : Error).
Arguments Returns {A} a.
Arguments Throws {A} e.

(** [await call] inside an [async] function *)
Definition await {A} (c : Call A) : Result A :=
  match c with
  | Returns a => Ok a
  | Throws e => Throw e
  end.

(** Strings are sequences of code units below 256. *)

(** [s.includes(needle)] *)
Fixpoint includes (needle s : string) : bool :=
  String.prefix needle s ||
  match s with
  | EmptyString => false
  | String _ s' => includes needle s'
  end.

(** [s.startsWith(p)] *)
Definition startsWith (p s : string) : bool := String.prefix p s.

(** White space of [String.prototype.trim] among the code units below 256:
    TAB, LF, VT, FF, CR, SPACE and NBSP. *)
Definition is_white_space (c : ascii) : bool :=
  let n := nat_of_ascii c in
  Nat.eqb n 9 || Nat.eqb n 10 || Nat.eqb n 11 || Nat.eqb n 12
  || Nat.eqb n 13 || Nat.eqb n 32 || Nat.eqb n 160.

Fixpoint trimStart (s : string) : string :=
  match s with
  | EmptyString => EmptyString
  | String c s' => if is_white_space c then trimStart s' else s
  end.

Fixpoint trimEnd (s : string) : string :=
  match s with
  | EmptyString => EmptyString
  | String c s' =>
      match trimEnd s' with
      | EmptyString =>
          if is_white_space c then EmptyString else String c EmptyString
      | r => String c r
      end
  end.

(** [s.trim()] *)
Definition trim (s : string) : string := trimEnd (trimStart s).

(** [e.message?.includes(needle)], as a condition *)
Definition message_includes (needle : string) (e : Error) : bool :=
  match message e with
  | Some m => includes needle m
  | None => false
  end.

(** [e.code === c] *)
Definition code_is (c : string) (e : Error) : bool :=
  match code e with
  | Some c' => String.eqb c' c
  | None => false
  end.

(** [e.status === n] *)
Definition status_is (n : nat) (e : Error) : bool :=
  match status e with
  | Some n' => Nat.eqb n' n
  | None => false
  end.

(** [`${e.message}`] *)
Definition message_text (e : Error) : string :=
  match message e with
  | Some m => m
  | None => "undefined"
  end.

(** [error instanceof Error ? error.message : 'Unknown error'], in a
    template string *)
Definition message_or_unknown (e : Error) : string :=
  if instance_of_Error e then message_text e else "Unknown error".

(** Truthiness of an optional string: [undefined], [null] and the empty
    string are falsy. *)
Definition truthy_string (s : option string) : bool :=
  match s with
  | Some EmptyString | None => false
  | Some _ => true
  end.

End Js.

Import Js.

Declare Scope js_scope.
Notation "x <- r ;; k" := (Js.bind r (fun x => k))
  (at level 61, r at next level, right associativity) : js_scope.
Local Open Scope js_scope.

(* ================================================================== *)
(** ** lib/tasks.ts and the [tasks] table of the migration *)
(* ================================================================== *)

Module Tasks.

Inductive Priority := High | Medium | Low.

(** A row of [tasks] ([export type Task]).  Dates and timestamps are the
    texts the client writes and reads ("2024-01-02",
    "2024-01-02T10:00:00.000Z"). *)
Record Task := mkTask {
  id : string;
  user_id : string;
  title : string;
  description : option string;
  priority : Priority;
  date : string;
  completed : bool;
  completed_at : option string;
  created_at : string;
  updated_at : string
}.

(** The backend as one client sees it: the identity its session token
    carries ([auth.uid()], [None] when signed out) and the table. *)
Record World := mkWorld {
  auth_uid : option string;
  tasks : list Task
}.

(** What the outside contributes to one call: the client clock (read twice
    by [updateTask]), the server clock [NOW()], the id [gen_random_uuid()]
    hands out, and whether the auth or the data request fails in transit
    or inside the backend. *)
Record Env := mkEnv {
  client_now : string;
  client_now' : string;
  server_now : string;
  new_uuid : string;
  auth_fault : option Error;
  fault : option Error
}.

(** A [{ data, error }] response. *)
Definition Response (A : Type) : Type := (option A * option Error)%type.

(** [supabase.auth.getUser()]: [{ data: { user }, error }] *)
Definition auth_session_missing : Error :=
  mkError true (Some "Auth session missing!") None (Some 400).

Definition auth_getUser (e : Env) (w : World) : Response string :=
  match auth_fault e with
  | Some err => (None, Some err)
  | None =>
      match auth_uid w with
      | Some u => (Some u, None)
      | None => (None, Some auth_session_missing)
      end
  end.

(** Row-level security: every policy of the migration is
    [auth.uid() = user_id]. *)
Definition owned_by (uid : option string) (t : Task) : bool :=
  match uid with
  | Some u => String.eqb u (user_id t)
  | None => false
  end.

(** PostgREST and PostgreSQL errors the table operations can answer with. *)
Definition pg_error (c msg : string) : Error :=
  mkError false (Some msg) (Some c) None.

Definition rls_violation : Error :=
  pg_error "42501" "new row violates row-level security policy for table tasks".

Definition unique_violation : Error :=
  pg_error "23505" "duplicate key value violates unique constraint tasks_pkey".

Definition not_a_single_row : Error :=
  pg_error "PGRST116" "JSON object requested, multiple (or no) rows returned".

(** *** The queries the module sends *)

(** The object [createTask] inserts. *)
Record InsertData := mkInsertData {
  i_title : string;
  i_description : option string;
  i_priority : Priority;
  i_date : string;
  i_completed : bool;
  i_user_id : string
}.

(** [.insert([insertData]).select().single()].  Columns the object leaves
    out take their defaults: [id] a fresh uuid, [completed_at] NULL,
    [created_at] and [updated_at] NOW().  The insert policy checks the
    owner and the primary key rejects an id already present. *)
Definition insert_single (e : Env) (w : World) (d : InsertData)
  : Response Task * World :=
  match fault e with
  | Some err => ((None, Some err), w)
  | None =>
      let row :=
        mkTask (new_uuid e) (i_user_id d) (i_title d) (i_description d)
               (i_priority d) (i_date d) (i_completed d) None
               (server_now e) (server_now e) in
      if negb (owned_by (auth_uid w) row) then
        ((None, Some rls_violation), w)
      else if existsb (fun t => String.eqb (id t) (new_uuid e)) (tasks w) then
        ((None, Some unique_violation), w)
      else
        ((Some row, None), mkWorld (auth_uid w) (tasks w ++ [row]))
  end.

(** The object [updateTask] sends: a property that is absent is [None];
    [completed_at] can be absent, [null] or a timestamp. *)
Record UpdateData := mkUpdateData {
  u_title : option string;
  u_description : option string;
  u_priority : option Priority;
  u_date : option string;
  u_completed : option bool;
  u_updated_at : option string;
  u_completed_at : option (option string)
}.

Definition or_keep {A} (new : option A) (old : A) : A :=
  match new with
  | Some v => v
  | None => old
  end.

(** SET of the columns present in the object. *)
Definition set_columns (d : UpdateData) (t : Task) : Task :=
  mkTask (id t) (user_id t)
         (or_keep (u_title d) (title t))
         (match u_description d with
          | Some s => Some s
          | None => description t
          end)
         (or_keep (u_priority d) (priority t))
         (or_keep (u_date d) (date t))
         (or_keep (u_completed d) (completed t))
         (or_keep (u_completed_at d) (completed_at t))
         (created_at t)
         (or_keep (u_updated_at d) (updated_at t)).

(** Trigger [update_tasks_updated_at]: [NEW.updated_at = NOW()]. *)
Definition update_updated_at_column (e : Env) (t : Task) : Task :=
  mkTask (id t) (user_id t) (title t) (description t) (priority t) (date t)
         (completed t) (completed_at t) (created_at t) (server_now e).

(** [.update(updateData).eq('id', id).select().single()]: the rows the
    update policy lets the caller touch and whose id matches are rewritten;
    unless exactly one row comes back the request is an error and nothing
    is written. *)
Definition update_single (e : Env) (w : World) (d : UpdateData)
           (target : string) : Response Task * World :=
  match fault e with
  | Some err => ((None, Some err), w)
  | None =>
      let hit t := String.eqb (id t) target && owned_by (auth_uid w) t in
      let rewrite t := update_updated_at_column e (set_columns d t) in
      match filter hit (tasks w) with
      | [t] =>
          ((Some (rewrite t), None),
           mkWorld (auth_uid w)
                   (map (fun r => if hit r then rewrite r else r) (tasks w)))
      | _ => ((None, Some not_a_single_row), w)
      end
  end.

(** [.delete().eq('id', id)]: [{ error }] *)
Definition delete_eq_id (e : Env) (w : World) (target : string)
  : option Error * World :=
  match fault e with
  | Some err => (Some err, w)
  | None =>
      let hit t := String.eqb (id t) target && owned_by (auth_uid w) t in
      (None, mkWorld (auth_uid w) (filter (fun t => negb (hit t)) (tasks w)))
  end.

(** ORDER BY: a stable insertion sort by a boolean "comes no later than". *)
Fixpoint insert_row {A} (le : A -> A -> bool) (x : A) (l : list A) : list A :=
  match l with
  | [] => [x]
  | y :: l' => if le x y then x :: l else y :: insert_row le x l'
  end.

Definition order_by {A} (le : A -> A -> bool) (l : list A) : list A :=
  fold_right (insert_row le) [] l.

(** The DATE column.  The client writes and reads a date as text: year,
    month and day in decimal with hyphens between ("2024-01-02"), followed
    by " BC" for a year before the common era.  The column holds the calendar
    date, and PostgreSQL compares and orders dates, not texts: "2024-1-2" is
    the same date as "2024-01-02", and year 10000 comes after year 9999.  The
    rows of the model keep the text; where the backend compares dates, the
    model reads the date off the text, as a number that grows with the date
    (yyyymmdd in the common era).  Other spellings PostgreSQL accepts (month
    names, "today") are not read. *)

(** The value of a decimal digit. *)
Definition digit (c : ascii) : option N :=
  let n := N_of_ascii c in
  if N.leb 48 n && N.leb n 57 then Some (n - 48)%N else None.

(** The number a text of decimal digits writes. *)
Fixpoint decimal_from (acc : N) (s : string) : option N :=
  match s with
  | EmptyString => Some acc
  | String c s' =>
      match digit c with
      | Some d => decimal_from (10 * acc + d)%N s'
      | None => None
      end
  end.

Definition decimal (s : string) : option N :=
  match s with
  | EmptyString => None
  | _ => decimal_from 0 s
  end.

(** The fields of a text, between its hyphens. *)
Fixpoint fields (s : string) : list string :=
  match s with
  | EmptyString => [EmptyString]
  | String c s' =>
      if Ascii.eqb c "-"%char then EmptyString :: fields s'
      else
        match fields s' with
        | f :: fs => String c f :: fs
        | [] => [String c EmptyString]
        end
  end.

(** A text without its " BC", and whether it had one. *)
Fixpoint era (s : string) : string * bool :=
  match s with
  | EmptyString => (EmptyString, false)
  | String c s' =>
      if String.eqb s " BC" then (EmptyString, true)
      else let '(r, bc) := era s' in (String c r, bc)
  end.

(** Leap years of the Gregorian calendar, which PostgreSQL extends
    backwards with 1 BC as year 0. *)
Definition leap_year (y : N) : bool :=
  N.eqb (y mod 4) 0 && (negb (N.eqb (y mod 100) 0) || N.eqb (y mod 400) 0).

Definition days_in_month (leap : bool) (m : N) : N :=
  if N.eqb m 2 then (if leap then 29 else 28)%N
  else if N.eqb m 4 || N.eqb m 6 || N.eqb m 9 || N.eqb m 11 then 30%N
  else 31%N.

(** The dates a DATE holds: from 4714-11-24 BC to 5874897-12-31. *)
Definition in_range (bc : bool) (y m d : N) : bool :=
  if bc then
    N.ltb y 4714
    || (N.eqb y 4714 && (N.eqb m 12 || (N.eqb m 11 && N.leb 24 d)))
  else N.leb y 5874897.

(** The date a text writes: a year of four to seven digits, a month and a
    day of one or two, and a day that the calendar has. *)
Definition date_in (s : string) : option Z :=
  let '(text, bc) := era s in
  match fields text with
  | [y; m; d] =>
      if Nat.leb 4 (String.length y) && Nat.leb (String.length y) 7
         && Nat.leb (String.length m) 2 && Nat.leb (String.length d) 2
      then
        match decimal y, decimal m, decimal d with
        | Some y, Some m, Some d =>
            if N.leb 1 y && N.leb 1 m && N.leb m 12 && N.leb 1 d
               && N.leb d (days_in_month
                             (leap_year (if bc then y - 1 else y)%N) m)
               && in_range bc y m d
            then
              Some (if bc then Z.of_N (m * 100 + d) - Z.of_N (y * 10000)
                    else Z.of_N (y * 10000 + m * 100 + d))%Z
            else None
        | _, _, _ => None
        end
      else None
  | _ => None
  end.

(** ORDER BY date, ascending: the earlier date first.  A text that writes no
    date, which the column cannot hold, comes before all. *)
Definition date_before (s s' : string) : bool :=
  match date_in s, date_in s' with
  | Some x, Some y => Z.ltb x y
  | None, Some _ => true
  | _, None => false
  end.

Definition same_date (s s' : string) : bool :=
  match date_in s, date_in s' with
  | Some x, Some y => Z.eqb x y
  | None, None => true
  | _, _ => false
  end.

(** The UUID column.  [gen_random_uuid()] hands out, and PostgREST prints,
    32 hexadecimal digits in lower case, grouped 8-4-4-4-12 by hyphens.
    With a text that is no UUID, [.eq('id', text)] fails inside the backend
    (22P02), which is one of the failures [fault] stands for; what a request
    does with an id no row has is therefore stated of texts of this form. *)
Definition lower_hex (c : ascii) : bool :=
  let n := N_of_ascii c in
  (N.leb 48 n && N.leb n 57) || (N.leb 97 n && N.leb n 102).

Fixpoint uuid_from (i : nat) (s : string) : bool :=
  match s with
  | EmptyString => Nat.eqb i 36
  | String c s' =>
      (if Nat.eqb i 8 || Nat.eqb i 13 || Nat.eqb i 18 || Nat.eqb i 23
       then Ascii.eqb c "-"%char
       else lower_hex c)
      && uuid_from (S i) s'
  end.

Definition uuid_text (s : string) : bool := uuid_from 0 s.

(** [.order('date', { ascending: true }).order('created_at', { ascending:
    true })]: by date, ties by creation time.  Timestamps are ISO-8601 texts
    in UTC with four-digit years, whose chronological order is the order of
    the code units. *)
Definition date_then_created (a b : Task) : bool :=
  date_before (date a) (date b)
  || (same_date (date a) (date b)
      && String.leb (created_at a) (created_at b)).

(** [.select('*').eq('completed', false).order(...).order(...)] *)
Definition select_incomplete (e : Env) (w : World) : Response (list Task) :=
  match fault e with
  | Some err => (None, Some err)
  | None =>
      (Some (order_by date_then_created
               (filter (fun t => owned_by (auth_uid w) t
                                 && Bool.eqb (completed t) false)
                       (tasks w))),
       None)
  end.

(** *** The exported functions *)

(** [getCurrentUserId] *)
Definition getCurrentUserId (e : Env) (w : World) : Result string :=
  let '(user, error) := auth_getUser e w in
  match error, user with
  | Some _, _ | None, None => Throw (new_Error "User not authenticated")
  | None, Some u => Ok u
  end.

(** [getTasks] *)
Definition getTasks (e : Env) (w : World) : Result (list Task) :=
  let '(data, error) := select_incomplete e w in
  match error with
  | Some error => Throw error
  | None =>
      match data with
      | Some data => Ok data
      | None => Ok []
      end
  end.

(** The argument of [createTask]. *)
Record NewTask := mkNewTask {
  n_title : string;
  n_description : option string;
  n_priority : Priority;
  n_date : string
}.

(** [error.code || 'unknown'] *)
Definition code_or_unknown (error : Error) : string :=
  if truthy_string (code error) then
    match code error with Some c => c | None => "unknown" end
  else "unknown".

(** [`${error.code}`] *)
Definition code_text (error : Error) : string :=
  match code error with
  | Some c => c
  | None => "undefined"
  end.

(** [createTask] *)
Definition createTask (e : Env) (w : World) (task : NewTask)
  : Result Task * World :=
  match getCurrentUserId e w with
  | Throw err => (Throw err, w)
  | Ok userId =>
      let insertData :=
        mkInsertData (n_title task)
                     (if truthy_string (n_description task)
                      then n_description task else None)
                     (n_priority task) (n_date task)
                     false
                     userId in
      let '((data, error), w') := insert_single e w insertData in
      match error with
      | Some error =>
          (Throw (new_Error ("Failed to create task: " ++ message_text error
                             ++ " (Code: " ++ code_or_unknown error ++ ")")),
           w')
      | None =>
          match data with
          | None =>
              (Throw (new_Error
                        "Task creation succeeded but no data was returned"),
               w')
          | Some data => (Ok data, w')
          end
      end
  end.

(** The [updates] argument of [updateTask]. *)
Record Updates := mkUpdates {
  p_title : option string;
  p_description : option string;
  p_priority : option Priority;
  p_date : option string;
  p_completed : option bool
}.

(** [updateTask] *)
Definition updateTask (e : Env) (w : World) (target : string)
           (updates : Updates) : Result Task * World :=
  let updateData :=
    mkUpdateData (p_title updates) (p_description updates)
                 (p_priority updates) (p_date updates) (p_completed updates)
                 (Some (client_now e))
                 None in
  let updateData :=
    match p_completed updates with
    | Some true =>
        mkUpdateData (u_title updateData) (u_description updateData)
                     (u_priority updateData) (u_date updateData)
                     (u_completed updateData) (u_updated_at updateData)
                     (Some (Some (client_now' e)))
    | Some false =>
        mkUpdateData (u_title updateData) (u_description updateData)
                     (u_priority updateData) (u_date updateData)
                     (u_completed updateData) (u_updated_at updateData)
                     (Some None)
    | None => updateData
    end in
  let '((data, error), w') := update_single e w updateData target in
  match error with
  | Some error =>
      (Throw (new_Error ("Failed to update task: " ++ message_text error
                         ++ " (Code: " ++ code_text error ++ ")")),
       w')
  | None =>
      match data with
      | None =>
          (Throw (new_Error "Task update succeeded but no data was returned"),
           w')
      | Some data => (Ok data, w')
      end
  end.

(** [deleteTask] *)
Definition deleteTask (e : Env) (w : World) (target : string)
  : Result unit * World :=
  let '(error, w') := delete_eq_id e w target in
  match error with
  | Some error =>
      (Throw (new_Error ("Failed to delete task: " ++ message_text error
                         ++ " (Code: " ++ code_text error ++ ")")),
       w')
  | None => (Ok tt, w')
  end.

(** *** Histories of the store *)

(** What a client can do to the backend through this module, and the
    session changing hands in between. *)
Inductive Op :=
| Create (e : Env) (task : NewTask)
| Update (e : Env) (target : string) (updates : Updates)
| Delete (e : Env) (target : string)
| SignIn (uid : string)
| SignOut.

Definition step (w : World) (o : Op) : World :=
  match o with
  | Create e task => snd (createTask e w task)
  | Update e target updates => snd (updateTask e w target updates)
  | Delete e target => snd (deleteTask e w target)
  | SignIn uid => mkWorld (Some uid) (tasks w)
  | SignOut => mkWorld None (tasks w)
  end.

Definition run (ops : list Op) (w : World) : World := fold_left step ops w.

(** A freshly migrated backend: no session, no rows. *)
Definition initial : World := mkWorld None [].

(** *** Notions the properties are stated with *)

(** The update object of [updateTask] in closed form: its three shapes, by
    the [completed] property of the argument. *)
Definition sent_by_updateTask (e : Env) (updates : Updates) : UpdateData :=
  mkUpdateData (p_title updates) (p_description updates) (p_priority updates)
               (p_date updates) (p_completed updates) (Some (client_now e))
               (match p_completed updates with
                | Some true => Some (Some (client_now' e))
                | Some false => Some None
                | None => None
                end).

(** The row [updateTask] writes in place of [t]. *)
Definition rewritten (e : Env) (updates : Updates) (t : Task) : Task :=
  update_updated_at_column e (set_columns (sent_by_updateTask e updates) t).

(** The rows a caller's requests can see and touch. *)
Definition visible (w : World) (t : Task) : bool := owned_by (auth_uid w) t.

(** An update that only flips the completion flag of [t]. *)
Definition flip (t : Task) : Updates :=
  mkUpdates None None None None (Some (negb (completed t))).

(** Two rows agree on everything but the timestamps [completed_at] and
    [updated_at]. *)
Definition same_but_timestamps (a b : Task) : Prop :=
  id a = id b /\ user_id a = user_id b /\ title a = title b
  /\ description a = description b /\ priority a = priority b
  /\ date a = date b /\ completed a = completed b
  /\ created_at a = created_at b.

(** No two rows share an id (the primary key). *)
Definition primary_key (w : World) : Prop := NoDup (map id (tasks w)).

(** [a] may stand before [b] in a list that is in ascending order of date
    and, within a date, of creation time: the date of [a] is earlier, or it
    is the same and [a] was not created later. *)
Definition in_date_then_creation_order (a b : Task) : Prop :=
  forall x y, date_in (date a) = Some x -> date_in (date b) = Some y ->
    (x < y)%Z \/ (x = y /\ String.leb (created_at a) (created_at b) = true).

(** The data-model invariant on one row. *)
Definition completed_at_matches (t : Task) : Prop :=
  completed_at t <> None <-> completed t = true.

End Tasks.

(* ================================================================== *)
(** ** lib/auth.ts *)
(* ================================================================== *)

Module Auth.

(** [signOut].  Its argument is what
    [supabase.auth.signOut({ scope: 'local' })] does: it returns
    [{ error }] or it throws. *)
Definition signOut (call : Call (option Error)) : Result unit :=
  try_catch
    (r <- await call ;;
     match r with
     | Some error =>
         if message_includes "session" error
            || message_includes "Session" error
            || message_includes "403" error
            || status_is 403 error
         then Ok tt
         else Throw error
     | None => Ok tt
     end)
    (fun error =>
       if message_includes "session" error
          || message_includes "Session" error
          || status_is 403 error
          || message_includes "403" error
       then Ok tt
       else Throw error).

(** The condition both branches of [signOut] test: the backend says the
    session is already gone. *)
Definition session_already_invalid (error : Error) : bool :=
  message_includes "session" error
  || message_includes "Session" error
  || message_includes "403" error
  || status_is 403 error.

End Auth.

(* ================================================================== *)
(** ** lib/profile.ts and the [profiles] table of the migration *)
(* ================================================================== *)

Module Profiles.

(** [export type Profile] *)
Record Profile := mkProfile {
  id : string;
  user_id : string;
  full_name : string;
  avatar_id : option nat;
  created_at : string;
  updated_at : string
}.

Definition Response (A : Type) : Type := (option A * option Error)%type.

(** The two calls [getProfile] makes: [supabase.auth.getUser()], and the
    query for the row of a given user,
    [.from('profiles').select('*').eq('user_id', user.id).single()]. *)
Record Backend := mkBackend {
  auth_getUser : Call (Response string);
  select_single : string -> Call (Response Profile)
}.

(** [getProfile] *)
Definition getProfile (b : Backend) : Result (option Profile) :=
  try_catch
    (r <- await (auth_getUser b) ;;
     let '(user, userError) := r in
     match userError, user with
     | Some _, _ | None, None => Throw (new_Error "User not authenticated")
     | None, Some user_id =>
         q <- await (select_single b user_id) ;;
         let '(data, error) := q in
         match error with
         | Some error =>
             if code_is "PGRST116" error then Ok None
             else if code_is "42P01" error
                     || message_includes "does not exist" error
             then Ok None
             else Throw error
         | None => Ok data
         end
     end)
    (fun error =>
       if message_includes "does not exist" error || code_is "42P01" error
       then Ok None
       else Throw error).

(** [hasProfile] *)
Definition hasProfile (b : Backend) : Result bool :=
  try_catch
    (profile <- getProfile b ;;
     Ok (match profile with
         | Some _ => true
         | None => false
         end))
    (fun _ => Ok false).

(** The condition under which the code reads an error as "the row is not
    there": PostgREST's code for [.single()] finding no row. *)
Definition row_not_found (error : Error) : bool := code_is "PGRST116" error.

(** The condition under which the code reads an error as "the table is not
    there": PostgreSQL's undefined_table code, or its message text. *)
Definition table_missing (error : Error) : bool :=
  code_is "42P01" error || message_includes "does not exist" error.

(** *** The table behind [select_single]

    [.eq('user_id', uid).single()] over the rows the select policy shows
    the caller: one row is the data, none (or several) is PGRST116. *)
Definition not_a_single_row : Error :=
  mkError false (Some "JSON object requested, multiple (or no) rows returned")
          (Some "PGRST116") None.

Definition select_single_from (caller : option string)
           (profiles : list Profile) (uid : string)
  : Call (Response Profile) :=
  let visible p :=
    match caller with
    | Some u => String.eqb u (user_id p)
    | None => false
    end in
  match filter (fun p => visible p && String.eqb (user_id p) uid) profiles with
  | [p] => Returns (Some p, None)
  | _ => Returns (None, Some not_a_single_row)
  end.

(** A backend that answers every request: the session of [caller] (if any)
    and the rows of [profiles]. *)
Definition healthy (caller : option string) (profiles : list Profile)
  : Backend :=
  mkBackend
    (match caller with
     | Some u => Returns (Some u, None)
     | None => Returns (None, Some Tasks.auth_session_missing)
     end)
    (select_single_from caller profiles).

End Profiles.

(* ================================================================== *)
(** ** lib/supabase-server.ts and the route POST /api/ai *)
(* ================================================================== *)

Module AiRoute.

(** [body.message] as the validation observes it: its type, whether it is
    falsy, and its text when it is a string. *)
Inductive MessageValue :=
| Undefined
| Null
| Boolean (b : bool)
| Number (nonzero : bool)
| Str (s : string)
| Object.

(** What [await request.json()] followed by [const { message } = body]
    makes of the request body: the text is not JSON (the parse throws), the
    JSON is [null] (the destructuring throws), or [message] is read. *)
Inductive Body :=
| Malformed
| JsonNull
| WithMessage (message : MessageValue).

Record Request := mkRequest {
  authorization : option string;
  body : Body
}.

Definition Response (A : Type) : Type := (option A * option Error)%type.

(** The server's surroundings during one request: its environment
    variables, the auth provider (asked with the Authorization header),
    the task query for a user id, and the upstream completion, whose
    [choices[0]?.message?.content] is the [option string]. *)
Record Server := mkServer {
  NEXT_PUBLIC_SUPABASE_URL : option string;
  NEXT_PUBLIC_SUPABASE_ANON_KEY : option string;
  OPENAI_API_KEY : option string;
  auth_getUser : string -> Call (Response string);
  select_tasks : string -> Call (Response (list Tasks.Task));
  chat_completions_create : Call (option string)
}.

(** [NextResponse.json(body, { status })] *)
Inductive Payload :=
| ErrorPayload (error : string)
| ReplyPayload (reply : string).

Record HttpResponse := mkHttpResponse {
  status : nat;
  payload : Payload
}.

(** [createServerClient]: only whether it throws matters to the route. *)
Definition createServerClient (srv : Server) : Result unit :=
  if negb (truthy_string (NEXT_PUBLIC_SUPABASE_URL srv))
     || negb (truthy_string (NEXT_PUBLIC_SUPABASE_ANON_KEY srv))
  then Throw (new_Error "Missing Supabase environment variables")
  else Ok tt.

(** [getServerUser] *)
Definition getServerUser (srv : Server) (req : Request)
  : Result (option string) :=
  try_catch
    (let authHeader := authorization req in
     if negb (truthy_string authHeader)
        || negb (match authHeader with
                 | Some h => startsWith "Bearer " h
                 | None => false
                 end)
     then Ok None
     else
       _ <- createServerClient srv ;;
       r <- await (auth_getUser srv
                     (match authHeader with Some h => h | None => EmptyString end)) ;;
       let '(user, error) := r in
       match error, user with
       | Some _, _ | None, None => Ok None
       | None, Some user => Ok (Some user)
       end)
    (fun _ => Ok None).

(** [await request.json()] and the destructuring *)
Definition read_message (req : Request) : Result MessageValue :=
  match body req with
  | Malformed =>
      Throw (mkError true (Some "Unexpected token in JSON") None None)
  | JsonNull =>
      Throw (mkError true
               (Some "Cannot destructure property 'message' of 'body' as it is null.")
               None None)
  | WithMessage message => Ok message
  end.

(** [!message] *)
Definition falsy (message : MessageValue) : bool :=
  match message with
  | Undefined | Null => true
  | Boolean b => negb b
  | Number nonzero => negb nonzero
  | Str s => Nat.eqb (String.length s) 0
  | Object => false
  end.

(** [typeof message !== 'string'] *)
Definition not_a_string (message : MessageValue) : bool :=
  match message with
  | Str _ => false
  | _ => true
  end.

(** [message.trim().length === 0], reached for strings only *)
Definition blank (message : MessageValue) : bool :=
  match message with
  | Str s => Nat.eqb (String.length (trim s)) 0
  | _ => false
  end.

Definition json (st : nat) (p : Payload) : HttpResponse := mkHttpResponse st p.

(** [POST] *)
Definition POST (srv : Server) (req : Request) : HttpResponse :=
  match
    (user <- getServerUser srv req ;;
     match user with
     | None => Ok (json 401 (ErrorPayload "Unauthorized. Please log in."))
     | Some user =>
         let openaiApiKey := OPENAI_API_KEY srv in
         if negb (truthy_string openaiApiKey) then
           Ok (json 500 (ErrorPayload
                 "Server configuration error. Please contact support."))
         else
           message <- read_message req ;;
           if falsy message || not_a_string message || blank message then
             Ok (json 400 (ErrorPayload
                   "Message is required and must be a non-empty string"))
           else
             _ <- createServerClient srv ;;
             _ <- await (select_tasks srv user) ;;
             aiReply <- await (chat_completions_create srv) ;;
             if negb (truthy_string aiReply) then
               Ok (json 500 (ErrorPayload "Failed to get response from AI"))
             else
               Ok (json 200 (ReplyPayload
                     (match aiReply with Some r => r | None => EmptyString end)))
     end)
  with
  | Ok response => response
  | Throw _ =>
      json 500 (ErrorPayload
        "An error occurred while processing your request. Please try again.")
  end.

(** [GET] *)
Definition GET : HttpResponse :=
  json 405 (ErrorPayload "Method not allowed. Use POST to send a message.").

(** The auth provider, asked with this Authorization header, names a user
    and reports no error. *)
Definition provider_accepts (srv : Server) (header : string) : bool :=
  match auth_getUser srv header with
  | Returns (Some _, None) => true
  | _ => false
  end.

(** The request carries [Authorization: Bearer <token>] with a token the
    auth provider accepts. *)
Definition valid_bearer_token (srv : Server) (req : Request) : bool :=
  match authorization req with
  | Some header => startsWith "Bearer " header && provider_accepts srv header
  | None => false
  end.

(** Both Supabase variables of the deployment are set. *)
Definition supabase_configured (srv : Server) : bool :=
  truthy_string (NEXT_PUBLIC_SUPABASE_URL srv)
  && truthy_string (NEXT_PUBLIC_SUPABASE_ANON_KEY srv).

(** The message the validation turns away: read from the body and found
    missing, null, not a string, empty or white space only. *)
Definition empty_message (req : Request) : bool :=
  match body req with
  | WithMessage message => falsy message || not_a_string message || blank message
  | _ => false
  end.




(** The three messages of the route's error responses. *)
Definition unauthorized : HttpResponse :=
  json 401 (ErrorPayload "Unauthorized. Please log in.").

Definition message_required : HttpResponse :=
  json 400 (ErrorPayload "Message is required and must be a non-empty string").

Definition generic_failure : HttpResponse :=
  json 500 (ErrorPayload
    "An error occurred while processing your request. Please try again.").


End AiRoute.


(* ================================================================== *)
(** ** app/page.tsx: the state of [AppPage] and its task handlers *)
(* ================================================================== *)

Module AppPage.

(** The UI task ([badge] is the priority). *)
Record Task := mkTask {
  id : string;
  title : string;
  description : option string;
  badge : Tasks.Priority;
  date : string;
  completed : option bool;
  completedAt : option string
}.

(** [x || undefined] on an optional string *)
Definition or_undefined (x : option string) : option string :=
  if truthy_string x then x else None.

(** [dbTaskToUITask] *)
Definition dbTaskToUITask (dbTask : Tasks.Task) : Task :=
  mkTask (Tasks.id dbTask)
         (Tasks.title dbTask)
         (or_undefined (Tasks.description dbTask))
         (Tasks.priority dbTask)
         (Tasks.date dbTask)
         (Some (Tasks.completed dbTask))
         (or_undefined (Tasks.completed_at dbTask)).

(** [connectionStatus]: empty, or the warning banner
    "Failed to load tasks: <detail>". *)
Inductive Banner :=
| NoBanner
| FailedToLoad (detail : string).

(** The [useState] cells the task handlers read and write, the [alert]s
    shown so far, and the animation timeouts still pending (by task id). *)
Record View := mkView {
  tasks : list Task;
  animatingTasks : list string;
  completedTasksHistory : list Task;
  loading : bool;
  connectionStatus : Banner;
  alerts : list string;
  timeouts : list string
}.

(** [new Set(prev).add(id)] and [newSet.delete(id)], the set kept in
    insertion order *)
Definition set_add (x : string) (s : list string) : list string :=
  if existsb (String.eqb x) s then s else s ++ [x].

Definition set_delete (x : string) (s : list string) : list string :=
  filter (fun y => negb (String.eqb y x)) s.

(** The timeout that fired leaves the pending ones. *)
Fixpoint remove_first (x : string) (l : list string) : list string :=
  match l with
  | [] => []
  | y :: l' => if String.eqb y x then l' else y :: remove_first x l'
  end.

(** [!task.completed] *)
Definition not_completed (task : Task) : bool :=
  match completed task with
  | Some b => negb b
  | None => true
  end.

(** [loadTasks].  [timed_out] says that the ten-second timer of
    [Promise.race] fires before [getTasks] settles. *)
Definition loadTasks (e : Tasks.Env) (timed_out : bool) (v : View)
           (w : Tasks.World) : View :=
  let raced :=
    if timed_out then
      Throw (new_Error "Request timeout: Database connection took too long")
    else Tasks.getTasks e w in
  match raced with
  | Ok dbTasks =>
      mkView (map dbTaskToUITask dbTasks) (animatingTasks v)
             (completedTasksHistory v) false (connectionStatus v)
             (alerts v) (timeouts v)
  | Throw error =>
      mkView (tasks v) (animatingTasks v) (completedTasksHistory v) false
             (FailedToLoad (message_or_unknown error))
             (alerts v) (timeouts v)
  end.

(** [toggleTask], up to the point where it returns: the [setTimeout]
    callback is recorded in [timeouts] and runs as [animation_done]. *)
Definition toggleTask (e : Tasks.Env) (v : View) (w : Tasks.World)
           (target : string) : View * Tasks.World :=
  match find (fun t => String.eqb (id t) target) (tasks v) with
  | None => (v, w)
  | Some task =>
      let newCompletedStatus := not_completed task in
      let '(r, w') :=
        Tasks.updateTask e w target
          (Tasks.mkUpdates None None None None (Some newCompletedStatus)) in
      match r with
      | Ok updatedDBTask =>
          let updatedTask := dbTaskToUITask updatedDBTask in
          let replaced :=
            map (fun t => if String.eqb (id t) target then updatedTask else t)
                (tasks v) in
          if newCompletedStatus then
            (mkView replaced
                    (set_add target (animatingTasks v))
                    (completedTasksHistory v ++ [updatedTask])
                    (loading v) (connectionStatus v) (alerts v)
                    (timeouts v ++ [target]),
             w')
          else
            (mkView replaced
                    (animatingTasks v)
                    (filter (fun t => negb (String.eqb (id t) target))
                            (completedTasksHistory v))
                    (loading v) (connectionStatus v) (alerts v)
                    (timeouts v),
             w')
      | Throw error =>
          (mkView (tasks v) (animatingTasks v) (completedTasksHistory v)
                  (loading v) (connectionStatus v)
                  (alerts v ++
                     ["Failed to update task: " ++ message_or_unknown error
                      ++ ". Check console for details."])
                  (timeouts v),
           w')
      end
  end.

(** The callback [toggleTask] hands to [setTimeout]: one second later the
    row leaves the list and the animating set, then the list is reloaded. *)
Definition animation_done (e : Tasks.Env) (timed_out : bool) (v : View)
           (w : Tasks.World) (target : string) : View :=
  let v1 :=
    mkView (filter (fun t => negb (String.eqb (id t) target)) (tasks v))
           (set_delete target (animatingTasks v))
           (completedTasksHistory v) (loading v) (connectionStatus v)
           (alerts v)
           (remove_first target (timeouts v)) in
  loadTasks e timed_out v1 w.

End AppPage.


(* ================================================================== *)
(** ** Sample data the properties are run on *)
(* ================================================================== *)

Module Samples.

Import Tasks.

Definition alice : string := "7b1e-alice".
Definition bob : string := "93c4-bob".

(** The three tasks of the specification's example, C created after B. *)
Definition taskA : Task :=
  mkTask "a" alice "A" None Medium "2024-01-02" false None
         "2023-12-30T08:00:00.000Z" "2023-12-30T08:00:00.000Z".

Definition taskB : Task :=
  mkTask "b" alice "B" None High "2024-01-01" false None
         "2023-12-30T09:00:00.000Z" "2023-12-30T09:00:00.000Z".

Definition taskC : Task :=
  mkTask "c" alice "C" (Some "third") Low "2024-01-01" false None
         "2023-12-30T10:00:00.000Z" "2023-12-30T10:00:00.000Z".

(** A task alice has finished, and a task of somebody else. *)
Definition taskD : Task :=
  mkTask "d" alice "D" None Low "2023-12-31" true
         (Some "2024-01-01T12:00:00.000Z")
         "2023-12-29T10:00:00.000Z" "2024-01-01T12:00:00.000Z".

Definition taskE : Task :=
  mkTask "e" bob "E" None High "2023-12-25" false None
         "2023-12-20T10:00:00.000Z" "2023-12-20T10:00:00.000Z".

(** Alice is signed in. *)
Definition world : World :=
  mkWorld (Some alice) [taskA; taskB; taskC; taskD; taskE].

(** Nobody is signed in. *)
Definition signed_out : World :=
  mkWorld None [taskA; taskB; taskC; taskD; taskE].

(** The same rows, C standing before B in the table. *)
Definition shuffled : World :=
  mkWorld (Some alice) [taskA; taskC; taskB; taskD; taskE].

(** Two tasks far ahead: the first day of year 10000, entered first, and the
    last day of year 9999. *)
Definition taskX : Task :=
  mkTask "x" alice "X" None Low "10000-01-01" false None
         "2023-12-30T11:00:00.000Z" "2023-12-30T11:00:00.000Z".

Definition taskY : Task :=
  mkTask "y" alice "Y" None Low "9999-12-31" false None
         "2023-12-30T12:00:00.000Z" "2023-12-30T12:00:00.000Z".

Definition far_ahead : World :=
  mkWorld (Some alice) [taskX; taskY; taskA].

(** Two moments at which every request goes through. *)
Definition monday : Env :=
  mkEnv "2024-01-08T10:00:00.000Z" "2024-01-08T10:00:00.001Z"
        "2024-01-08T10:00:00.120Z" "f" None None.

Definition tuesday : Env :=
  mkEnv "2024-01-09T10:00:00.000Z" "2024-01-09T10:00:00.001Z"
        "2024-01-09T10:00:00.120Z" "g" None None.

(** A moment at which the data request fails in transit. *)
Definition offline : Env :=
  mkEnv "2024-01-10T10:00:00.000Z" "2024-01-10T10:00:00.001Z"
        "2024-01-10T10:00:00.120Z" "h" None
        (Some (mkError true (Some "TypeError: Failed to fetch") None None)).

Definition buy_milk : NewTask :=
  mkNewTask "Buy milk" (Some EmptyString) High "2024-01-08".

(** What the page shows alice after a reload. *)
Definition view : AppPage.View :=
  AppPage.mkView (map AppPage.dbTaskToUITask [taskB; taskC; taskA])
                 [] [] false AppPage.NoBanner [] [].

(** Profiles: alice has one, bob has none. *)
Definition alice_profile : Profiles.Profile :=
  Profiles.mkProfile "p1" alice "Alice" (Some 3)
                     "2023-12-01T10:00:00.000Z" "2023-12-01T10:00:00.000Z".

(** A backend whose [profiles] table was never created. *)
Definition undefined_table : Error :=
  mkError false (Some "relation public.profiles does not exist")
          (Some "42P01") None.

Definition not_migrated : Profiles.Backend :=
  Profiles.mkBackend (Returns (Some alice, None))
                     (fun _ => Returns (None, Some undefined_table)).

(** A backend that refuses the query for another reason. *)
Definition permission_denied : Error :=
  mkError false (Some "permission denied for table profiles")
          (Some "42501") None.

Definition locked_out : Profiles.Backend :=
  Profiles.mkBackend (Returns (Some alice, None))
                     (fun _ => Returns (None, Some permission_denied)).

(** A backend whose [profiles] table lacks a column the query names. *)
Definition undefined_column : Error :=
  mkError false (Some "column profiles.user_id does not exist")
          (Some "42703") None.

Definition schema_drift : Profiles.Backend :=
  Profiles.mkBackend (Returns (Some alice, None))
                     (fun _ => Returns (None, Some undefined_column)).

(** A backend that cannot be reached at all. *)
Definition failed_to_fetch : Error :=
  mkError true (Some "TypeError: Failed to fetch") None None.

Definition unreachable : Profiles.Backend :=
  Profiles.mkBackend (Throws failed_to_fetch) (fun _ => Throws failed_to_fetch).

(** Errors [supabase.auth.signOut] reports. *)
Definition session_missing : Error :=
  mkError true (Some "Auth session missing!") None (Some 400).

Definition forbidden : Error :=
  mkError true (Some "invalid JWT") None (Some 403).

Definition server_down : Error :=
  mkError true (Some "Internal Server Error") None (Some 500).

(** The AI route: a deployment with all three variables set, whose auth
    provider knows alice's token and whose upstream answers; the same with
    the upstream failing; the same without the OpenAI key. *)
Definition knows_alice (header : string)
  : Call (AiRoute.Response string) :=
  if String.eqb header "Bearer alice-token" then Returns (Some alice, None)
  else Returns (None, Some (mkError true (Some "invalid JWT") None (Some 401))).

Definition server : AiRoute.Server :=
  AiRoute.mkServer (Some "https://project.supabase.co") (Some "anon-key")
                   (Some "sk-test")
                   knows_alice
                   (fun _ => Returns (Some [taskA; taskB], None))
                   (Returns (Some "You have two tasks.")).

Definition upstream_error : Error :=
  mkError true (Some "429 You exceeded your current quota (org-1234)")
          None (Some 429).

Definition server_upstream_down : AiRoute.Server :=
  AiRoute.mkServer (Some "https://project.supabase.co") (Some "anon-key")
                   (Some "sk-test")
                   knows_alice
                   (fun _ => Returns (Some [taskA; taskB], None))
                   (Throws upstream_error).

Definition server_without_key : AiRoute.Server :=
  AiRoute.mkServer (Some "https://project.supabase.co") (Some "anon-key")
                   None
                   knows_alice
                   (fun _ => Returns (Some [taskA; taskB], None))
                   (Returns (Some "You have two tasks.")).

Definition ask : AiRoute.Request :=
  AiRoute.mkRequest (Some "Bearer alice-token")
                    (AiRoute.WithMessage (AiRoute.Str "What is due today?")).






End Samples.


(* ================================================================== *)
(** ** lib/tasks.ts: the other queries and the connection test *)
(* ================================================================== *)

Module TaskQueries.

Import Tasks.

(** [.order('created_at', { ascending: true })] and its descending twin. *)
Definition created_asc (a b : Task) : bool :=
  String.leb (created_at a) (created_at b).

Definition created_desc (a b : Task) : bool :=
  String.leb (created_at b) (created_at a).

(** [.order('completed_at', { ascending: false })]: PostgreSQL sorts NULL
    before every value when descending. *)
Definition completed_at_desc (a b : Task) : bool :=
  match completed_at a, completed_at b with
  | None, _ => true
  | Some _, None => false
  | Some x, Some y => String.leb y x
  end.

(** A [.select('*')] with one filter and one order, through the select
    policy. *)
Definition select_where (keep : Task -> bool) (le : Task -> Task -> bool)
           (e : Env) (w : World) : Response (list Task) :=
  match fault e with
  | Some err => (None, Some err)
  | None =>
      (Some (order_by le
               (filter (fun t => owned_by (auth_uid w) t && keep t) (tasks w))),
       None)
  end.

(** [if (error) throw error; return data || []] *)
Definition rows_or_throw (r : Response (list Task)) : Result (list Task) :=
  let '(data, error) := r in
  match error with
  | Some error => Throw error
  | None =>
      match data with
      | Some data => Ok data
      | None => Ok []
      end
  end.

(** [getAllTasks] *)
Definition getAllTasks (e : Env) (w : World) : Result (list Task) :=
  rows_or_throw (select_where (fun _ => true) created_desc e w).

(** [.eq('date', date)]: the row's date is the date the text writes.  With
    a text that writes no date the request fails inside the backend (22007),
    one of the failures [fault] stands for; what the query returns is
    therefore stated of texts that write a date. *)
Definition on_date (d : string) (t : Task) : bool :=
  match date_in d, date_in (date t) with
  | Some x, Some y => Z.eqb x y
  | _, _ => false
  end.

(** [getTasksByDate] *)
Definition getTasksByDate (e : Env) (w : World) (d : string)
  : Result (list Task) :=
  rows_or_throw (select_where (on_date d) created_asc e w).

(** [getCompletedTasks] *)
Definition getCompletedTasks (e : Env) (w : World) : Result (list Task) :=
  rows_or_throw
    (select_where (fun t => Bool.eqb (completed t) true) completed_at_desc e w).

(** [a] may stand before [b] in a list that has the most recently completed
    first, a row without completion time before all. *)
Definition latest_completed_first (a b : Task) : Prop :=
  match completed_at b with
  | Some y => forall x, completed_at a = Some x -> String.leb y x = true
  | None => completed_at a = None
  end.

(** *** [testSupabaseConnection] *)

(** [{ success, message, details }] *)
Record TestResult := mkTestResult {
  success : bool;
  test_message : string;
  details : option Error
}.

(** [.select('id').limit(1)] *)
Definition select_id_limit_1 (e : Env) (w : World) : Response (list string) :=
  match fault e with
  | Some err => (None, Some err)
  | None =>
      (Some (firstn 1 (map id (filter (owned_by (auth_uid w)) (tasks w)))),
       None)
  end.

(** [s.split('T')[0]] *)
Fixpoint split_T_0 (s : string) : string :=
  match s with
  | EmptyString => EmptyString
  | String c s' =>
      if Ascii.eqb c "T"%char then EmptyString else String c (split_T_0 s')
  end.

(** What the outside contributes to the six requests of the test, in the
    order the code makes them; [at_cleanup] is the delete after a failed
    update. *)
Record TestEnv := mkTestEnv {
  at_read : Env;
  at_getUser : Env;
  at_insert : Env;
  at_update : Env;
  at_cleanup : Env;
  at_delete : Env
}.

(** [userError?.message || 'No user found'] *)
Definition message_or_no_user (userError : option Error) : string :=
  match userError with
  | Some err =>
      if truthy_string (message err) then message_text err else "No user found"
  | None => "No user found"
  end.

(** [testSupabaseConnection] *)
Definition testSupabaseConnection (te : TestEnv) (w : World)
  : TestResult * World :=
  let '(_, readError) := select_id_limit_1 (at_read te) w in
  match readError with
  | Some readError =>
      (mkTestResult false
         ("Failed to read from tasks table: " ++ message_text readError)
         (Some readError),
       w)
  | None =>
      let '(user, userError) := auth_getUser (at_getUser te) w in
      match userError, user with
      | Some _, _ | None, None =>
          (mkTestResult false
             ("User not authenticated: " ++ message_or_no_user userError)
             userError,
           w)
      | None, Some user =>
          let testTask :=
            mkInsertData "Test Connection Task"
              (Some "This is a test task to verify database connection")
              Low
              (split_T_0 (client_now (at_insert te)))
              false
              user in
          let '((insertData, insertError), w1) :=
            insert_single (at_insert te) w testTask in
          match insertError with
          | Some insertError =>
              (mkTestResult false
                 ("Failed to insert into tasks table: "
                  ++ message_text insertError)
                 (Some insertError),
               w1)
          | None =>
              match insertData with
              | None =>
                  let thrown :=
                    mkError true
                      (Some "Cannot read properties of null (reading 'id')")
                      None None in
                  (mkTestResult false
                     ("Connection test failed: " ++ message_or_unknown thrown)
                     (Some thrown),
                   w1)
              | Some insertData =>
                  let testTaskId := id insertData in
                  let '((_, updateError), w2) :=
                    update_single (at_update te) w1
                      (mkUpdateData (Some "Updated Test Task")
                                    None None None None None None)
                      testTaskId in
                  match updateError with
                  | Some updateError =>
                      let '(_, w3) :=
                        delete_eq_id (at_cleanup te) w2 testTaskId in
                      (mkTestResult false
                         ("Failed to update tasks table: "
                          ++ message_text updateError)
                         (Some updateError),
                       w3)
                  | None =>
                      let '(deleteError, w3) :=
                        delete_eq_id (at_delete te) w2 testTaskId in
                      match deleteError with
                      | Some deleteError =>
                          (mkTestResult false
                             ("Failed to delete from tasks table: "
                              ++ message_text deleteError)
                             (Some deleteError),
                           w3)
                      | None =>
                          (mkTestResult true
                             "All database operations are working correctly!"
                             None,
                           w3)
                      end
                  end
              end
          end
      end
  end.

(** Every request of the test goes through. *)
Definition all_answer (te : TestEnv) : Prop :=
  fault (at_read te) = None /\ auth_fault (at_getUser te) = None
  /\ fault (at_insert te) = None /\ fault (at_update te) = None
  /\ fault (at_delete te) = None.

End TaskQueries.


(* ================================================================== *)
(** ** lib/profile.ts: [upsertProfile], and the setup-profile page *)
(* ================================================================== *)

Module ProfileWrites.

Import Profiles.

(** The backend as one client sees it: the identity of its session and the
    [profiles] table. *)
Record Store := mkStore {
  auth_uid : option string;
  profiles : list Profile
}.

(** The object [upsertProfile] sends. *)
Record ProfileData := mkProfileData {
  d_user_id : string;
  d_full_name : string;
  d_avatar_id : nat;
  d_updated_at : string
}.

Definition auth_getUser (e : Tasks.Env) (s : Store) : Response string :=
  match Tasks.auth_fault e with
  | Some err => (None, Some err)
  | None =>
      match auth_uid s with
      | Some u => (Some u, None)
      | None => (None, Some Tasks.auth_session_missing)
      end
  end.

Definition rls_violation : Error :=
  mkError false
          (Some "new row violates row-level security policy for table profiles")
          (Some "42501") None.

Definition unique_violation : Error :=
  mkError false
          (Some "duplicate key value violates unique constraint profiles_pkey")
          (Some "23505") None.

(** [.upsert(profileData, { onConflict: 'user_id' }).select().single()].
    The insert policy checks the owner.  Without a row of that user the object
    is inserted, [id] and [created_at] taking their defaults; the row of that
    user (UNIQUE leaves at most one) is otherwise overwritten in the columns
    of the object, and the update trigger sets [updated_at = NOW()]. *)
Definition upsert_single (e : Tasks.Env) (s : Store) (d : ProfileData)
  : Response Profile * Store :=
  match Tasks.fault e with
  | Some err => ((None, Some err), s)
  | None =>
      let allowed :=
        match auth_uid s with
        | Some u => String.eqb u (d_user_id d)
        | None => false
        end in
      if negb allowed then ((None, Some rls_violation), s)
      else
        let conflicts p := String.eqb (user_id p) (d_user_id d) in
        match filter conflicts (profiles s) with
        | [] =>
            let row :=
              mkProfile (Tasks.new_uuid e) (d_user_id d) (d_full_name d)
                        (Some (d_avatar_id d)) (Tasks.server_now e)
                        (d_updated_at d) in
            if existsb (fun p => String.eqb (id p) (Tasks.new_uuid e))
                       (profiles s)
            then ((None, Some unique_violation), s)
            else ((Some row, None), mkStore (auth_uid s) (profiles s ++ [row]))
        | [old] =>
            let row :=
              mkProfile (id old) (user_id old) (d_full_name d)
                        (Some (d_avatar_id d)) (created_at old)
                        (Tasks.server_now e) in
            ((Some row, None),
             mkStore (auth_uid s)
                     (map (fun p => if conflicts p then row else p)
                          (profiles s)))
        | _ => ((None, Some not_a_single_row), s)
        end
  end.

(** [avatarId || 1] *)
Definition avatar_or_1 (avatarId : option nat) : nat :=
  match avatarId with
  | Some (S n) => S n
  | _ => 1
  end.

(** [upsertProfile] *)
Definition upsertProfile (e : Tasks.Env) (s : Store) (fullName : string)
           (avatarId : option nat) : Result Profile * Store :=
  let '(user, userError) := auth_getUser e s in
  match userError, user with
  | Some _, _ | None, None => (Throw (new_Error "User not authenticated"), s)
  | None, Some user =>
      let profileData :=
        mkProfileData user (trim fullName) (avatar_or_1 avatarId)
                      (Tasks.client_now e) in
      let '((data, error), s') := upsert_single e s profileData in
      match error with
      | Some error =>
          (Throw (new_Error ("Failed to save profile: " ++ message_text error)),
           s')
      | None =>
          match data with
          | None =>
              (Throw (new_Error
                        "Profile creation succeeded but no data was returned"),
               s')
          | Some data => (Ok data, s')
          end
      end
  end.

(** The backend [getProfile] and [hasProfile] read, when it answers. *)
Definition reads (s : Store) : Backend := healthy (auth_uid s) (profiles s).

(** A string that does not begin with white space. *)
Definition starts_clean (s : string) : Prop :=
  match s with
  | EmptyString => True
  | String c _ => is_white_space c = false
  end.

(** At most one profile per user (the UNIQUE constraint). *)
Definition one_profile_per_user (s : Store) : Prop :=
  NoDup (map user_id (profiles s)).

End ProfileWrites.

Module SetupProfilePage.

(** Where [router.push] sends the browser; the text of [Login] is the
    [error] query parameter before [encodeURIComponent]. *)
Inductive Route :=
| App
| Login (error : option string)
| SetupProfile.

Inductive Navigation :=
| Push (r : Route)
| Refresh.

Inductive Step := NameStep | AvatarStep.

(** The [useState] cells of the page and what it asked of the router. *)
Record State := mkState {
  fullName : string;
  avatarId : nat;
  step : Step;
  loading : bool;
  error : option string;
  navigation : list Navigation
}.

(** [handleNameSubmit] *)
Definition handleNameSubmit (st : State) : State :=
  if Nat.eqb (String.length (trim (fullName st))) 0 then
    mkState (fullName st) (avatarId st) (step st) (loading st)
            (Some "Please enter your full name") (navigation st)
  else if Nat.ltb (String.length (trim (fullName st))) 2 then
    mkState (fullName st) (avatarId st) (step st) (loading st)
            (Some "Name must be at least 2 characters") (navigation st)
  else
    mkState (fullName st) (avatarId st) AvatarStep (loading st) None
            (navigation st).

(** [handleAvatarSelect] *)
Definition handleAvatarSelect (selectedAvatarId : nat) (st : State) : State :=
  mkState (fullName st) selectedAvatarId (step st) (loading st) (error st)
          (navigation st).

(** [err.message || 'An error occurred while saving your profile'] *)
Definition message_or_default (err : Error) : string :=
  if truthy_string (message err) then message_text err
  else "An error occurred while saving your profile".

(** [handleFinalSubmit] *)
Definition handleFinalSubmit (e : Tasks.Env) (st : State)
           (s : ProfileWrites.Store) : State * ProfileWrites.Store :=
  let '(r, s') :=
    ProfileWrites.upsertProfile e s (trim (fullName st)) (Some (avatarId st)) in
  match r with
  | Ok _ =>
      (mkState (fullName st) (avatarId st) (step st) false None
               (navigation st ++ [Push App; Refresh]),
       s')
  | Throw err =>
      (mkState (fullName st) (avatarId st) (step st) false
               (Some (message_or_default err)) (navigation st),
       s')
  end.

End SetupProfilePage.


(* ================================================================== *)
(** ** More sample data *)
(* ================================================================== *)

Module MoreSamples.

(** The [profiles] table with alice's profile, alice signed in; the same
    table with bob signed in, who has none. *)
Definition alice_store : ProfileWrites.Store :=
  ProfileWrites.mkStore (Some Samples.alice) [Samples.alice_profile].

Definition bob_store : ProfileWrites.Store :=
  ProfileWrites.mkStore (Some Samples.bob) [Samples.alice_profile].

Definition nobody_store : ProfileWrites.Store :=
  ProfileWrites.mkStore None [Samples.alice_profile].

(** A task alice finished after D, standing behind D in the table. *)
Definition taskG : Tasks.Task :=
  Tasks.mkTask "g" Samples.alice "G" None Tasks.High "2024-01-02" true
               (Some "2024-01-03T09:30:00.000Z")
               "2023-12-28T10:00:00.000Z" "2024-01-03T09:30:00.000Z".

Definition two_done : Tasks.World :=
  Tasks.mkWorld (Some Samples.alice)
                [Samples.taskD; Samples.taskA; taskG; Samples.taskE].

(** A table whose rows carry ids as the backend hands them out: A and B of
    alice, E of bob; and an id no row has. *)
Definition id_a : string := "3f2a9c1e-5b7d-4e2a-9c41-0a1b2c3d4e5a".
Definition id_b : string := "8d4e1f6a-2c3b-4a5d-8e7f-9a0b1c2d3e4b".
Definition id_e : string := "c7b6a5d4-e3f2-4c1b-b0a9-8f7e6d5c4b3e".
Definition id_unknown : string := "00000000-0000-4000-8000-000000000000".

Definition with_id (i : string) (t : Tasks.Task) : Tasks.Task :=
  Tasks.mkTask i (Tasks.user_id t) (Tasks.title t) (Tasks.description t)
               (Tasks.priority t) (Tasks.date t) (Tasks.completed t)
               (Tasks.completed_at t) (Tasks.created_at t) (Tasks.updated_at t).

Definition registry : Tasks.World :=
  Tasks.mkWorld (Some Samples.alice)
                [with_id id_a Samples.taskA; with_id id_b Samples.taskB;
                 with_id id_e Samples.taskE].

(** The setup page with a name typed in, surrounded by blanks. *)
Definition typed_bob : SetupProfilePage.State :=
  SetupProfilePage.mkState "  Bob Builder " 4 SetupProfilePage.NameStep
                           false None [].

(** The setup page with a single letter typed in. *)
Definition typed_b : SetupProfilePage.State :=
  SetupProfilePage.mkState " B  " 1 SetupProfilePage.NameStep false None [].

End MoreSamples.


(* ================================================================== *)
(** ** components/ai-chat.tsx *)
(* ================================================================== *)

Module AiChat.

Inductive Role := User | Ai.

(** [type Message] *)
Record Message := mkMessage {
  id : string;
  role : Role;
  content : string;
  timestamp : nat
}.

(** The [useState] cells of [AIChat]. *)
Record State := mkState {
  messages : list Message;
  input : string;
  isLoading : bool
}.

(** [n.toString()] of a non-negative integer *)
Definition toString (n : nat) : string :=
  NilZero.string_of_uint (Nat.to_uint n).

(** The session of [supabase.auth.getSession()], as far as the chat reads
    it. *)
Record Session := mkSession {
  access_token : string
}.

(** What [response.json()] gives the chat: the [error] and [reply]
    properties of the parsed object. *)
Record Json := mkJson {
  j_error : option string;
  j_reply : option string
}.

(** A [Response] of [fetch]: its status and what [response.json()] does. *)
Record Fetched := mkFetched {
  f_status : nat;
  f_json : Call Json
}.

(** [response.ok] *)
Definition ok (response : Fetched) : bool :=
  Nat.leb 200 (f_status response) && Nat.leb (f_status response) 299.

(** What the outside contributes to one exchange: the session call, the
    POST to /api/ai (by Authorization header and message), and the four
    readings of the clock. *)
Record Env := mkEnv {
  getSession : Call (option Session);
  fetch_api_ai : string -> string -> Call Fetched;
  now_id_sent : nat;
  now_sent : nat;
  now_id_answered : nat;
  now_answered : nat
}.

(** [x || fallback] on an optional string *)
Definition or_else (x : option string) (fallback : string) : string :=
  match x with
  | Some EmptyString | None => fallback
  | Some s => s
  end.

(** The [try] block shared by [sendMessage] and [handleSuggestionClick]: it
    yields the content of the AI's message or throws. *)
Definition exchange (env : Env) (messageText : string) : Result string :=
  session <- await (getSession env) ;;
  match session with
  | None => Throw (new_Error "Not authenticated. Please log in.")
  | Some session =>
      response <- await (fetch_api_ai env
                           ("Bearer " ++ access_token session) messageText) ;;
      if negb (ok response) then
        let errorData :=
          match f_json response with
          | Returns parsed => parsed
          | Throws _ => mkJson (Some "Unknown error") None
          end in
        Throw (new_Error
                 (or_else (j_error errorData)
                          ("API error: " ++ toString (f_status response))))
      else
        data <- await (f_json response) ;;
        Ok (or_else (j_reply data) "Sorry, I could not generate a response.")
  end.

(** The AI's message, from the reply or from the [catch] block. *)
Definition answer (env : Env) (messageText : string) : Message :=
  match exchange env messageText with
  | Ok reply =>
      mkMessage (toString (now_id_answered env + 1)) Ai reply (now_answered env)
  | Throw error =>
      mkMessage (toString (now_id_answered env + 1)) Ai
                ("Error: " ++
                 (if instance_of_Error error then message_text error
                  else "Failed to get response. Please try again."))
                (now_answered env)
  end.

(** [sendMessage] *)
Definition sendMessage (env : Env) (st : State) : State :=
  let messageText := trim (input st) in
  if Nat.eqb (String.length messageText) 0 || isLoading st then st
  else
    let userMessage :=
      mkMessage (toString (now_id_sent env)) User messageText (now_sent env) in
    mkState (messages st ++ [userMessage] ++ [answer env messageText])
            EmptyString false.

(** [handleSuggestionClick] *)
Definition handleSuggestionClick (env : Env) (suggestion : string) (st : State)
  : State :=
  let userMessage :=
    mkMessage (toString (now_id_sent env)) User suggestion (now_sent env) in
  mkState (messages st ++ [userMessage] ++ [answer env suggestion])
          (input st) false.

(** The route of this repository behind [fetch('/api/ai')]: the request
    carries the header and [JSON.stringify({ message })], the response is
    what [NextResponse.json] wrote. *)
Definition served_by (srv : AiRoute.Server) (authorization message : string)
  : Call Fetched :=
  let r :=
    AiRoute.POST srv
      (AiRoute.mkRequest (Some authorization)
                         (AiRoute.WithMessage (AiRoute.Str message))) in
  Returns
    (mkFetched (AiRoute.status r)
       (Returns
          (match AiRoute.payload r with
           | AiRoute.ErrorPayload text => mkJson (Some text) None
           | AiRoute.ReplyPayload text => mkJson None (Some text)
           end))).

(** A chat whose session carries [token], talking to [srv]. *)
Definition talking_to (srv : AiRoute.Server) (token : string)
           (t1 t2 t3 t4 : nat) : Env :=
  mkEnv (Returns (Some (mkSession token))) (served_by srv) t1 t2 t3 t4.

End AiChat.

Module ChatSamples.

(** Alice has typed a question; the panel is idle. *)
Definition typing : AiChat.State :=
  AiChat.mkState [] "  What is due today? " false.

Definition alice_chat (srv : AiRoute.Server) : AiChat.Env :=
  AiChat.talking_to srv "alice-token" 1000 1001 3000 3001.

(** A gateway in front of the route answers 503 with an HTML page. *)
Definition gateway_down : AiChat.Env :=
  AiChat.mkEnv (Returns (Some (AiChat.mkSession "alice-token")))
               (fun _ _ =>
                  Returns (AiChat.mkFetched 503
                             (Throws (mkError true
                                        (Some "Unexpected token < in JSON")
                                        None None))))
               1 2 3 4.

End ChatSamples.


(* ================================================================== *)
(** ** app/page.tsx: the form and the other handlers of [AppPage] *)
(* ================================================================== *)

Module AppPageHandlers.

Import AppPage.

(** What [AddTaskForm] hands to [onCreate]. *)
Record FormData := mkFormData {
  f_title : string;
  f_description : option string;
  f_badge : Tasks.Priority;
  f_date : option string
}.

(** The [useState] cells of [AddTaskForm]. *)
Record Form := mkForm {
  title_field : string;
  description_field : string;
  badge_field : Tasks.Priority;
  date_field : string
}.

(** [s || undefined] on a string *)
Definition or_undefined_string (s : string) : option string :=
  match s with
  | EmptyString => None
  | _ => Some s
  end.

(** The click handler of the save button: what it hands to [onCreate], if
    anything, and the form it leaves. *)
Definition save_click (form : Form) : option FormData * Form :=
  if Nat.eqb (String.length (trim (title_field form))) 0 then (None, form)
  else
    (Some (mkFormData (trim (title_field form))
                      (or_undefined_string (trim (description_field form)))
                      (badge_field form)
                      (or_undefined_string (date_field form))),
     mkForm EmptyString EmptyString Tasks.Medium EmptyString).

(** The cells of [AppPage] the handlers below share with the task list, and
    what the page asked of the router. *)
Record Page := mkPage {
  view : View;
  activeMenu : string;
  showAdd : bool;
  showHistory : bool;
  editingTask : option Task;
  navigation : list SetupProfilePage.Navigation
}.

Definition with_view (pg : Page) (v : View) : Page :=
  mkPage v (activeMenu pg) (showAdd pg) (showHistory pg) (editingTask pg)
         (navigation pg).

(** [alert(text)] *)
Definition alert (text : string) (v : View) : View :=
  mkView (tasks v) (animatingTasks v) (completedTasksHistory v) (loading v)
         (connectionStatus v) (alerts v ++ [text]) (timeouts v).

Definition set_tasks (l : list Task) (v : View) : View :=
  mkView l (animatingTasks v) (completedTasksHistory v) (loading v)
         (connectionStatus v) (alerts v) (timeouts v).

Definition set_history (l : list Task) (v : View) : View :=
  mkView (tasks v) (animatingTasks v) l (loading v) (connectionStatus v)
         (alerts v) (timeouts v).

(** What the outside contributes to one [addTask]: the store request, the
    reload that follows ([reload_timed_out] as in [loadTasks]) and the two
    readings of [toLocalISODate()]. *)
Record AddEnv := mkAddEnv {
  at_save : Tasks.Env;
  at_reload : Tasks.Env;
  reload_timed_out : bool;
  today : string;
  todayDate : string
}.

(** [data.date && data.date.length > 0 ? data.date : toLocalISODate()] *)
Definition date_or_today (ae : AddEnv) (data : FormData) : string :=
  match f_date data with
  | Some d => if Nat.ltb 0 (String.length d) then d else today ae
  | None => today ae
  end.

(** The end of [addTask] once the store call went through. *)
Definition close_form (ae : AddEnv) (date : string) (pg : Page) (v : View)
  : Page :=
  mkPage v
         (if negb (String.eqb date (todayDate ae)) then "All Tasks"
          else activeMenu pg)
         false (showHistory pg) None (navigation pg).

(** [addTask] *)
Definition addTask (ae : AddEnv) (pg : Page) (w : Tasks.World)
           (data : FormData) : Page * Tasks.World :=
  let date := date_or_today ae data in
  match editingTask pg with
  | Some editing =>
      let '(r, w1) :=
        Tasks.updateTask (at_save ae) w (id editing)
          (Tasks.mkUpdates (Some (f_title data)) (f_description data)
                           (Some (f_badge data)) (Some date) None) in
      match r with
      | Ok updatedDBTask =>
          let updatedTask := dbTaskToUITask updatedDBTask in
          let v1 :=
            set_tasks (map (fun t => if String.eqb (id t) (id editing)
                                     then updatedTask else t)
                           (tasks (view pg)))
                      (view pg) in
          let v2 := loadTasks (at_reload ae) (reload_timed_out ae) v1 w1 in
          (close_form ae date pg v2, w1)
      | Throw error =>
          (with_view pg
             (alert ("Failed to save task: " ++ message_or_unknown error
                     ++ ". Check console for details.")
                    (view pg)),
           w1)
      end
  | None =>
      let '(r, w1) :=
        Tasks.createTask (at_save ae) w
          (Tasks.mkNewTask (f_title data) (f_description data)
                           (f_badge data) date) in
      match r with
      | Ok newDBTask =>
          let newTask := dbTaskToUITask newDBTask in
          let v1 := set_tasks (tasks (view pg) ++ [newTask]) (view pg) in
          let v2 := loadTasks (at_reload ae) (reload_timed_out ae) v1 w1 in
          (close_form ae date pg v2, w1)
      | Throw error =>
          (with_view pg
             (alert ("Failed to save task: " ++ message_or_unknown error
                     ++ ". Check console for details.")
                    (view pg)),
           w1)
      end
  end.

(** [editTask] *)
Definition editTask (pg : Page) (target : string) : Page :=
  match find (fun t => String.eqb (id t) target) (tasks (view pg)) with
  | Some task =>
      mkPage (view pg) (activeMenu pg) true (showHistory pg) (Some task)
             (navigation pg)
  | None => pg
  end.

(** [handleCancel] *)
Definition handleCancel (pg : Page) : Page :=
  mkPage (view pg) (activeMenu pg) false (showHistory pg) None (navigation pg).

(** [deleteTask] of the page *)
Definition deleteTask (e : Tasks.Env) (pg : Page) (w : Tasks.World)
           (target : string) : Page * Tasks.World :=
  let '(r, w1) := Tasks.deleteTask e w target in
  match r with
  | Ok _ =>
      let keep t := negb (String.eqb (id t) target) in
      (with_view pg
         (set_history (filter keep (completedTasksHistory (view pg)))
                      (set_tasks (filter keep (tasks (view pg))) (view pg))),
       w1)
  | Throw error =>
      (with_view pg
         (alert ("Failed to delete task: " ++ message_or_unknown error
                 ++ ". Check console for details.")
                (view pg)),
       w1)
  end.

(** [handleShowHistory] *)
Definition handleShowHistory (e : Tasks.Env) (pg : Page) (w : Tasks.World)
  : Page :=
  let shown :=
    mkPage (view pg) (activeMenu pg) (showAdd pg) true (editingTask pg)
           (navigation pg) in
  match TaskQueries.getCompletedTasks e w with
  | Ok dbCompletedTasks =>
      with_view shown
        (set_history (map dbTaskToUITask dbCompletedTasks) (view pg))
  | Throw _ => shown
  end.

(** [handleSignOut] *)
Definition handleSignOut (call : Call (option Error)) (pg : Page) : Page :=
  match Auth.signOut call with
  | Ok _ =>
      mkPage (view pg) (activeMenu pg) (showAdd pg) (showHistory pg)
             (editingTask pg)
             (navigation pg
              ++ [SetupProfilePage.Push (SetupProfilePage.Login None);
                  SetupProfilePage.Refresh])
  | Throw _ =>
      with_view pg (alert "Failed to sign out. Please try again." (view pg))
  end.

(** [todayTasks] *)
Definition todayTasks (todayStr : string) (v : View) : list Task :=
  filter (fun t => String.eqb (date t) todayStr) (tasks v).

End AppPageHandlers.

Module PageSamples.

Import AppPageHandlers.

(** The page alice sees, nothing open. *)
Definition page : Page :=
  mkPage Samples.view "Today" false false None [].

(** Alice fills in the form, with blanks around the title and no date. *)
Definition form : Form :=
  mkForm "  Call the plumber " "   " Tasks.High EmptyString.

(** A Monday on which the save and the reload go through. *)
Definition monday : AddEnv :=
  mkAddEnv Samples.monday Samples.tuesday false "2024-01-08" "2024-01-08".

(** The same Monday with the reload timing out. *)
Definition monday_slow : AddEnv :=
  mkAddEnv Samples.monday Samples.tuesday true "2024-01-08" "2024-01-08".

(** The same Monday with the store out of reach. *)
Definition monday_offline : AddEnv :=
  mkAddEnv Samples.offline Samples.tuesday false "2024-01-08" "2024-01-08".

(** A form with a blank title. *)
Definition blank_form : Form :=
  mkForm "   " "note" Tasks.Low EmptyString.

(** What the save button hands on from [form], and the row the store makes
    of it that Monday. *)
Definition call_the_plumber : FormData :=
  mkFormData "Call the plumber" None Tasks.High None.

Definition plumber : Tasks.Task :=
  Tasks.mkTask "f" Samples.alice "Call the plumber" None Tasks.High
               "2024-01-08" false None
               "2024-01-08T10:00:00.120Z" "2024-01-08T10:00:00.120Z".

End PageSamples.


(* ================================================================== *)
(** ** lib/auth.ts: [getSession], [getUser]; the pages that gate on them *)
(* ================================================================== *)

Module AuthPages.

Import SetupProfilePage.

(** The user of [supabase.auth.getUser()], as far as the pages read it. *)
Record User := mkUser {
  user_id : string;
  email : option string
}.

Definition Response (A : Type) : Type := (option A * option Error)%type.

(** [getSession] of lib/auth.ts; its argument is what
    [supabase.auth.getSession()] does. *)
Definition getSession (call : Call (Response AiChat.Session))
  : Result (option AiChat.Session) :=
  r <- await call ;;
  let '(session, error) := r in
  match error with
  | Some _ => Ok None
  | None => Ok session
  end.

(** [getUser] of lib/auth.ts *)
Definition getUser (call : Call (Response User)) : Result (option User) :=
  r <- await call ;;
  let '(user, error) := r in
  match error with
  | Some _ => Ok None
  | None => Ok user
  end.

(** *** app/page.tsx: [HomePage] *)

(** [checkAuthAndRedirect]: what it asks of the router; when the session
    call throws the promise rejects and nothing is asked. *)
Definition home_checkAuthAndRedirect (call : Call (Response AiChat.Session))
  : list Navigation :=
  match getSession call with
  | Ok (Some _) => [Push App]
  | Ok None => [Push (Login None)]
  | Throw _ => []
  end.

(** *** auth/setup-profile/page.tsx: [checkAuthAndProfile] *)

(** What it asks of the router, and whether the page is still checking. *)
Definition setup_checkAuthAndProfile (call : Call (Response AiChat.Session))
           (b : Profiles.Backend) : list Navigation * bool :=
  match getSession call with
  | Throw _ => ([], true)
  | Ok None => ([Push (Login None)], true)
  | Ok (Some _) =>
      match Profiles.hasProfile b with
      | Throw _ => ([], true)
      | Ok true => ([Push App], true)
      | Ok false => ([], false)
      end
  end.

(** *** app/app/page.tsx: [checkAuth] *)

(** The cells [checkAuth] writes and what it asks of the router. *)
Record Shell := mkShell {
  checkingAuth : bool;
  userName : option string;
  userEmail : option string;
  userAvatarId : nat;
  navigation : list Navigation
}.

(** The page as it mounts. *)
Definition mounted : Shell := mkShell true None None 1 [].

(** What the outside does during [checkAuth]: the session call, the backend
    at the [hasProfile] call, the backend at the [getProfile] call, and the
    user call. *)
Record CheckEnv := mkCheckEnv {
  session_call : Call (Response AiChat.Session);
  at_hasProfile : Profiles.Backend;
  at_getProfile : Profiles.Backend;
  user_call : Call (Response User)
}.

(** [profile.avatar_id || 1] *)
Definition avatar_id_or_1 (a : option nat) : nat :=
  match a with
  | Some (S n) => S n
  | _ => 1
  end.

Definition push (r : Route) (sh : Shell) : Shell :=
  mkShell (checkingAuth sh) (userName sh) (userEmail sh) (userAvatarId sh)
          (navigation sh ++ [Push r]).

(** The inner [try] block: load the profile, then the user's email. *)
Definition load_profile (env : CheckEnv) (sh : Shell) : Shell :=
  match Profiles.getProfile (at_getProfile env) with
  | Throw _ => sh
  | Ok profile =>
      let sh1 :=
        match profile with
        | Some p =>
            mkShell (checkingAuth sh) (Some (Profiles.full_name p))
                    (userEmail sh) (avatar_id_or_1 (Profiles.avatar_id p))
                    (navigation sh)
        | None => sh
        end in
      match getUser (user_call env) with
      | Throw _ => sh1
      | Ok user =>
          match user with
          | Some u =>
              if truthy_string (email u) then
                mkShell (checkingAuth sh1) (userName sh1) (email u)
                        (userAvatarId sh1) (navigation sh1)
              else sh1
          | None => sh1
          end
      end
  end.

(** [checkAuth] *)
Definition checkAuth (env : CheckEnv) (sh : Shell) : Shell :=
  match getSession (session_call env) with
  | Throw _ => sh
  | Ok None => push (Login None) sh
  | Ok (Some _) =>
      match Profiles.hasProfile (at_hasProfile env) with
      | Throw _ => push SetupProfile sh
      | Ok false => push SetupProfile sh
      | Ok true =>
          load_profile env
            (mkShell false (userName sh) (userEmail sh) (userAvatarId sh)
                     (navigation sh))
      end
  end.

(** *** auth/callback/page.tsx: [handleAuthCallback] *)

(** The query parameters of the callback URL. *)
Record SearchParams := mkSearchParams {
  code : option string;
  error : option string;
  error_description : option string
}.

(** What the outside does during the callback:
    [supabase.auth.exchangeCodeForSession(code)], the
    [supabase.auth.getSession()] of the branch without a code, and the
    backend [hasProfile] reads. *)
Record CallbackEnv := mkCallbackEnv {
  exchangeCodeForSession : string -> Call (Response AiChat.Session);
  auth_getSession : Call (option AiChat.Session);
  profiles_backend : Profiles.Backend
}.

(** [x || y] on optional strings, as a string *)
Definition first_truthy (x y : option string) : string :=
  if truthy_string x then match x with Some s => s | None => EmptyString end
  else match y with Some s => s | None => EmptyString end.

(** The block both branches run once there is a session. *)
Definition route_by_profile (env : CallbackEnv) : list Navigation :=
  match Profiles.hasProfile (profiles_backend env) with
  | Ok true => [Push App; Refresh]
  | Ok false => [Push SetupProfile; Refresh]
  | Throw _ => [Push SetupProfile; Refresh]
  end.

(** [err.message || 'An unexpected error occurred'] *)
Definition message_or_unexpected (err : Error) : string :=
  if truthy_string (message err) then message_text err
  else "An unexpected error occurred".

(** [handleAuthCallback] *)
Definition handleAuthCallback (env : CallbackEnv) (params : SearchParams)
  : list Navigation :=
  if truthy_string (error params) then
    [Push (Login (Some (first_truthy (error_description params)
                                     (error params))))]
  else if truthy_string (code params) then
    match exchangeCodeForSession env
            (match code params with Some c => c | None => EmptyString end) with
    | Throws err => [Push (Login (Some (message_or_unexpected err)))]
    | Returns (session, exchangeError) =>
        match exchangeError with
        | Some exchangeError =>
            [Push (Login (Some (message_text exchangeError)))]
        | None =>
            match session with
            | Some _ => route_by_profile env
            | None => [Push (Login (Some "No session created"))]
            end
        end
    end
  else
    match auth_getSession env with
    | Throws err => [Push (Login (Some (message_or_unexpected err)))]
    | Returns session =>
        match session with
        | Some _ => route_by_profile env
        | None => [Push (Login (Some "No authorization code received"))]
        end
    end.

End AuthPages.

Module GateSamples.

Import AuthPages.

Definition alice_session : AiChat.Session := AiChat.mkSession "alice-token".

(** Alice arrives signed in, with her profile; the auth server answers. *)
Definition alice_arrives : CheckEnv :=
  mkCheckEnv (Returns (Some alice_session, None))
             (Profiles.healthy (Some Samples.alice) [Samples.alice_profile])
             (Profiles.healthy (Some Samples.alice) [Samples.alice_profile])
             (Returns (Some (mkUser Samples.alice (Some "alice@example.org")),
                       None)).

(** The same, with the profile query failing on the second call. *)
Definition alice_arrives_flaky : CheckEnv :=
  mkCheckEnv (Returns (Some alice_session, None))
             (Profiles.healthy (Some Samples.alice) [Samples.alice_profile])
             Samples.locked_out
             (Returns (Some (mkUser Samples.alice (Some "alice@example.org")),
                       None)).

(** The provider sends alice back with a code that exchanges. *)
Definition alice_returns : CallbackEnv :=
  mkCallbackEnv (fun _ => Returns (Some alice_session, None))
                (Returns None)
                (Profiles.healthy (Some Samples.alice) [Samples.alice_profile]).

End GateSamples.


(* ================================================================== *)
(** ** Properties of the task store *)
(* ================================================================== *)

Module TaskStoreProps.

Import Tasks.

(** *** The object [updateTask] sends *)

Lemma updateTask_sends e w target updates :
  updateTask e w target updates =
  let '((data, error), w') :=
    update_single e w (sent_by_updateTask e updates) target in
  match error with
  | Some error =>
      (Throw (new_Error ("Failed to update task: " ++ message_text error
                         ++ " (Code: " ++ code_text error ++ ")")),
       w')
  | None =>
      match data with
      | None =>
          (Throw (new_Error "Task update succeeded but no data was returned"),
           w')
      | Some data => (Ok data, w')
      end
  end.
Proof.
  unfold updateTask, sent_by_updateTask.
  destruct (p_completed updates) as [[|]|]; reflexivity.
Qed.

Lemma rewritten_keeps_invariant e updates t :
  completed_at_matches t -> completed_at_matches (rewritten e updates t).
Proof.
  unfold completed_at_matches, rewritten, sent_by_updateTask; simpl.
  destruct (p_completed updates) as [[|]|]; simpl; intros H.
  - split; [reflexivity | discriminate].
  - split; [intros F; now elim F | discriminate].
  - exact H.
Qed.

(** What [update_single] answers, case by case. *)
Lemma update_single_cases e w d target :
  (exists err, fault e = Some err
               /\ update_single e w d target = ((None, Some err), w))
  \/ (fault e = None
      /\ exists t,
          filter (fun r => String.eqb (id r) target && owned_by (auth_uid w) r)
                 (tasks w) = [t]
          /\ update_single e w d target =
             ((Some (update_updated_at_column e (set_columns d t)), None),
              mkWorld (auth_uid w)
                (map (fun r =>
                        if String.eqb (id r) target && owned_by (auth_uid w) r
                        then update_updated_at_column e (set_columns d r)
                        else r)
                     (tasks w))))
  \/ (fault e = None
      /\ update_single e w d target = ((None, Some not_a_single_row), w)).
Proof.
  unfold update_single.
  destruct (fault e) as [err|].
  - left; eauto.
  - destruct (filter _ (tasks w)) as [|t [|t' l]] eqn:F.
    + right; right; auto.
    + right; left; split; [reflexivity|]. exists t; auto.
    + right; right; auto.
Qed.

Lemma updateTask_keeps_invariant e w target updates :
  Forall completed_at_matches (tasks w) ->
  Forall completed_at_matches (tasks (snd (updateTask e w target updates))).
Proof.
  intros H. rewrite updateTask_sends.
  destruct (update_single_cases e w (sent_by_updateTask e updates) target)
    as [(err & _ & ->) | [(_ & t & _ & ->) | (_ & ->)]]; simpl; auto.
  rewrite Forall_forall in *. intros r Hr.
  apply in_map_iff in Hr. destruct Hr as (r0 & <- & Hr0).
  destruct (_ && _); auto.
  apply (rewritten_keeps_invariant e updates), H, Hr0.
Qed.

Lemma updateTask_returns_invariant e w target updates t :
  Forall completed_at_matches (tasks w) ->
  fst (updateTask e w target updates) = Ok t ->
  completed_at_matches t.
Proof.
  intros H. rewrite updateTask_sends.
  destruct (update_single_cases e w (sent_by_updateTask e updates) target)
    as [(err & _ & ->) | [(_ & r & F & ->) | (_ & ->)]]; simpl;
    try discriminate.
  intros [= <-].
  apply (rewritten_keeps_invariant e updates).
  rewrite Forall_forall in H. apply H.
  assert (In r [r]) as Hin by (left; reflexivity).
  rewrite <- F in Hin. apply filter_In in Hin. tauto.
Qed.

(** *** [createTask] *)

(** What [createTask] does, case by case: it throws and writes nothing, or
    it appends the row it returns. *)
Lemma createTask_cases e w task :
  (exists err, createTask e w task = (Throw err, w))
  \/ (exists u,
        auth_fault e = None /\ auth_uid w = Some u /\ fault e = None
        /\ existsb (fun t => String.eqb (id t) (new_uuid e)) (tasks w) = false
        /\ let row :=
             mkTask (new_uuid e) u (n_title task)
                    (if truthy_string (n_description task)
                     then n_description task else None)
                    (n_priority task) (n_date task) false None
                    (server_now e) (server_now e) in
           createTask e w task = (Ok row, mkWorld (auth_uid w) (tasks w ++ [row]))).
Proof.
  unfold createTask, getCurrentUserId, auth_getUser.
  destruct (auth_fault e) as [err|]; [left; eauto|].
  destruct (auth_uid w) as [u|] eqn:U; [|left; eauto].
  unfold insert_single.
  destruct (fault e) as [err|]; [left; eauto|].
  rewrite U; simpl. rewrite String.eqb_refl; simpl.
  destruct (existsb _ (tasks w)) eqn:X; [left; eauto|].
  right. exists u. repeat split; auto.
Qed.

Lemma createTask_keeps_invariant e w task :
  Forall completed_at_matches (tasks w) ->
  Forall completed_at_matches (tasks (snd (createTask e w task))).
Proof.
  intros H.
  destruct (createTask_cases e w task) as [(err & ->) | (u & _ & _ & _ & _ & ->)];
    simpl; auto.
  apply Forall_app; split; auto.
  constructor; [|constructor].
  unfold completed_at_matches; simpl. split; [intros F; now elim F | discriminate].
Qed.

Lemma createTask_returns_invariant e w task t :
  fst (createTask e w task) = Ok t -> completed_at_matches t.
Proof.
  destruct (createTask_cases e w task) as [(err & ->) | (u & _ & _ & _ & _ & ->)];
    simpl; [discriminate|].
  intros [= <-]. unfold completed_at_matches; simpl.
  split; [intros F; now elim F | discriminate].
Qed.

(** *** [deleteTask] and whole histories *)

Lemma deleteTask_tasks e w target :
  tasks (snd (deleteTask e w target)) = tasks w
  \/ tasks (snd (deleteTask e w target)) =
     filter (fun t => negb (String.eqb (id t) target && owned_by (auth_uid w) t))
            (tasks w).
Proof.
  unfold deleteTask, delete_eq_id.
  destruct (fault e); simpl; auto.
Qed.

Lemma filter_keeps_Forall {A} (P : A -> Prop) (f : A -> bool) l :
  Forall P l -> Forall P (filter f l).
Proof.
  induction 1 as [|x l Hx _ IH]; simpl; [constructor|].
  destruct (f x); auto.
Qed.

Lemma step_keeps_invariant w o :
  Forall completed_at_matches (tasks w) ->
  Forall completed_at_matches (tasks (step w o)).
Proof.
  intros H. destruct o as [e task | e target updates | e target | uid | ]; simpl.
  - now apply createTask_keeps_invariant.
  - now apply updateTask_keeps_invariant.
  - destruct (deleteTask_tasks e w target) as [-> | ->]; auto.
    now apply filter_keeps_Forall.
  - exact H.
  - exact H.
Qed.

Lemma run_keeps_invariant ops : forall w,
  Forall completed_at_matches (tasks w) ->
  Forall completed_at_matches (tasks (run ops w)).
Proof.
  unfold run.
  induction ops as [|o ops IH]; intros w H; simpl; auto.
  apply IH, step_keeps_invariant, H.
Qed.

(** C1.  After any history of createTask, updateTask and deleteTask calls
    (under any sessions, clocks and backend failures), every row of the store
    has [completed_at] non-null if and only if [completed] is true; and so
    does the task a further createTask or updateTask call returns. *)
Theorem completed_at_non_null_iff_completed :
  forall (ops : list Op) (e : Env),
    Forall completed_at_matches (tasks (run ops initial))
    /\ (forall task t,
          fst (createTask e (run ops initial) task) = Ok t ->
          completed_at t <> None <-> completed t = true)
    /\ (forall target updates t,
          fst (updateTask e (run ops initial) target updates) = Ok t ->
          completed_at t <> None <-> completed t = true).
Proof.
  intros ops e.
  assert (Forall completed_at_matches (tasks (run ops initial))) as Inv
      by (apply run_keeps_invariant; constructor).
  split; [exact Inv|]. split.
  - intros task t H. exact (createTask_returns_invariant _ _ _ _ H).
  - intros target updates t H.
    exact (updateTask_returns_invariant _ _ _ _ _ Inv H).
Qed.

(** *** The order of [getTasks] *)

Lemma ascii_compare_refl c : Ascii.compare c c = Eq.
Proof. unfold Ascii.compare. apply N.compare_refl. Qed.

Lemma ascii_lt_trans x y z :
  Ascii.compare x y = Lt -> Ascii.compare y z = Lt -> Ascii.compare x z = Lt.
Proof.
  unfold Ascii.compare. rewrite !N.compare_lt_iff. lia.
Qed.

Lemma string_compare_refl s : String.compare s s = Eq.
Proof.
  induction s as [|c s IH]; simpl; auto.
  now rewrite ascii_compare_refl.
Qed.

Lemma string_lt_trans a : forall b c,
  String.compare a b = Lt -> String.compare b c = Lt -> String.compare a c = Lt.
Proof.
  induction a as [|x a IH]; intros [|y b] [|z c]; simpl; try discriminate; auto.
  destruct (Ascii.compare x y) eqn:XY; try discriminate.
  - apply Ascii.compare_eq_iff in XY; subst y.
    destruct (Ascii.compare x z); try discriminate; auto. apply IH.
  - intros _.
    destruct (Ascii.compare y z) eqn:YZ; try discriminate.
    + apply Ascii.compare_eq_iff in YZ; subst z. now rewrite XY.
    + intros _. now rewrite (ascii_lt_trans _ _ _ XY YZ).
Qed.

Lemma string_leb_trans a b c :
  String.leb a b = true -> String.leb b c = true -> String.leb a c = true.
Proof.
  unfold String.leb.
  destruct (String.compare a b) eqn:AB; try discriminate;
    destruct (String.compare b c) eqn:BC; try discriminate; intros _ _.
  - apply String.compare_eq_iff in AB, BC; subst. now rewrite string_compare_refl.
  - apply String.compare_eq_iff in AB; subst. now rewrite BC.
  - apply String.compare_eq_iff in BC; subst. now rewrite AB.
  - now rewrite (string_lt_trans _ _ _ AB BC).
Qed.

(** [date_then_created] read off the two comparisons. *)
Lemma date_then_created_spec a b :
  date_then_created a b = true <->
  match date_in (date a), date_in (date b) with
  | Some x, Some y =>
      (x < y)%Z \/ (x = y /\ String.leb (created_at a) (created_at b) = true)
  | None, Some _ => True
  | Some _, None => False
  | None, None => String.leb (created_at a) (created_at b) = true
  end.
Proof.
  unfold date_then_created, date_before, same_date.
  destruct (date_in (date a)) as [x|], (date_in (date b)) as [y|]; simpl.
  - rewrite orb_true_iff, andb_true_iff, Z.ltb_lt, Z.eqb_eq. tauto.
  - split; [discriminate | tauto].
  - tauto.
  - tauto.
Qed.

Lemma date_then_created_total a b :
  date_then_created a b = true \/ date_then_created b a = true.
Proof.
  rewrite !date_then_created_spec.
  pose proof (String.leb_total (created_at a) (created_at b)) as T.
  destruct (date_in (date a)) as [x|], (date_in (date b)) as [y|]; auto.
  destruct (Z.lt_trichotomy x y) as [L | [E | G]]; auto.
  destruct T; auto.
Qed.

Lemma date_then_created_trans a b c :
  date_then_created a b = true -> date_then_created b c = true ->
  date_then_created a c = true.
Proof.
  rewrite !date_then_created_spec.
  pose proof (string_leb_trans (created_at a) (created_at b) (created_at c))
    as T.
  destruct (date_in (date a)) as [x|], (date_in (date b)) as [y|],
           (date_in (date c)) as [z|]; try tauto.
  intros [AB | [AB L1]] [BC | [BC L2]].
  - left. lia.
  - left. lia.
  - left. lia.
  - right. split; [congruence | auto].
Qed.

(** What [date_then_created] sorts by is the order of the dates, then of the
    creation times. *)
Lemma date_then_created_in_order a b :
  date_then_created a b = true -> in_date_then_creation_order a b.
Proof.
  rewrite date_then_created_spec. intros H x y X Y.
  now rewrite X, Y in H.
Qed.

Lemma StronglySorted_weaken {A} (R R' : A -> A -> Prop) l :
  (forall a b, R a b -> R' a b) -> StronglySorted R l -> StronglySorted R' l.
Proof.
  intros Sub. induction 1 as [|x l _ IH Hx]; constructor; auto.
  rewrite Forall_forall in *. auto.
Qed.

(** [order_by] rearranges its argument and leaves it in order, for any
    comparison that is total. *)
Section OrderBy.

Context {A : Type} (le : A -> A -> bool).
Hypothesis le_total : forall a b, le a b = true \/ le b a = true.
Hypothesis le_trans : forall a b c, le a b = true -> le b c = true -> le a c = true.

Let leP (a b : A) : Prop := le a b = true.

Lemma insert_row_perm x l : Permutation (x :: l) (insert_row le x l).
Proof.
  induction l as [|y l IH]; simpl; auto.
  destruct (le x y); auto.
  rewrite perm_swap. now constructor.
Qed.

Lemma order_by_perm l : Permutation l (order_by le l).
Proof.
  induction l as [|x l IH]; simpl; auto.
  rewrite <- insert_row_perm. now constructor.
Qed.

Lemma insert_row_sorted x l :
  StronglySorted leP l -> StronglySorted leP (insert_row le x l).
Proof.
  induction 1 as [|y l Hs IH Hy]; simpl.
  - repeat constructor.
  - destruct (le x y) eqn:XY.
    + constructor; [now constructor|].
      constructor; [exact XY|].
      rewrite Forall_forall in *. intros z Hz. eapply le_trans; eauto.
      now apply Hy.
    + constructor; auto.
      rewrite Forall_forall in *. intros z Hz.
      apply (Permutation_in _ (Permutation_sym (insert_row_perm x l))) in Hz.
      destruct Hz as [<- | Hz]; [|now apply Hy].
      destruct (le_total x y) as [F | T]; [congruence | exact T].
Qed.

Lemma order_by_sorted l : StronglySorted leP (order_by le l).
Proof.
  induction l as [|x l IH]; simpl; [constructor|].
  now apply insert_row_sorted.
Qed.

End OrderBy.

(** C2.  While the backend answers, getTasks returns a list that holds
    exactly the rows of the store that the caller's session may read and
    whose [completed] is false (each as often as the store does), none of them
    completed, in ascending order of date and, within a date, of creation
    time: of two rows of the list, the one standing first has the earlier
    date, or the same date and a creation time that is not later.  While the
    backend does not answer, getTasks throws its error.  When every row is
    the caller's, these are all the rows whose [completed] is false.
    This holds of every store, so of the store after any create, update and
    delete calls.  On the store holding A (2024-01-02), B (2024-01-01) and C
    (2024-01-01, created after B) next to a completed task and a task of
    another user, the list is [B, C, A], also when C stands before B in the
    table; and a task of the last day of year 9999 comes before a task of the
    first day of year 10000. *)
Theorem getTasks_incomplete_by_date_then_creation :
  (forall (e : Env) (w : World),
      match fault e with
      | Some err => getTasks e w = Throw err
      | None =>
          exists l,
            getTasks e w = Ok l
            /\ Permutation l
                 (filter (fun t => visible w t && negb (completed t)) (tasks w))
            /\ Forall (fun t => completed t = false) l
            /\ StronglySorted in_date_then_creation_order l
      end)
  /\ (forall (e : Env) (w : World) (l : list Task),
        Forall (fun t => visible w t = true) (tasks w) ->
        getTasks e w = Ok l ->
        Permutation l (filter (fun t => negb (completed t)) (tasks w)))
  /\ (forall (ops : list Op) (e : Env) (l : list Task),
        getTasks e (run ops initial) = Ok l ->
        Forall (fun t => completed t = false) l)
  /\ getTasks Samples.monday Samples.world
     = Ok [Samples.taskB; Samples.taskC; Samples.taskA]
  /\ getTasks Samples.monday Samples.shuffled
     = Ok [Samples.taskB; Samples.taskC; Samples.taskA]
  /\ getTasks Samples.monday Samples.far_ahead
     = Ok [Samples.taskA; Samples.taskY; Samples.taskX].
Proof.
  assert (forall e w,
      match fault e with
      | Some err => getTasks e w = Throw err
      | None =>
          exists l,
            getTasks e w = Ok l
            /\ Permutation l
                 (filter (fun t => visible w t && negb (completed t)) (tasks w))
            /\ Forall (fun t => completed t = false) l
            /\ StronglySorted in_date_then_creation_order l
      end) as General.
  { intros e w. unfold getTasks, select_incomplete.
    destruct (fault e) as [err|]; [reflexivity|].
    eexists; split; [reflexivity|].
    assert (forall t, owned_by (auth_uid w) t && Bool.eqb (completed t) false
                      = visible w t && negb (completed t)) as Same
        by (intros t; unfold visible; now destruct (completed t)).
    rewrite (filter_ext _ _ Same).
    split; [|split].
    - apply Permutation_sym, order_by_perm.
    - rewrite Forall_forall. intros t Ht.
      apply (Permutation_in _ (Permutation_sym (order_by_perm _ _))) in Ht.
      apply filter_In in Ht. destruct Ht as [_ Ht].
      apply andb_true_iff in Ht. now destruct (completed t).
    - apply (StronglySorted_weaken
               (fun a b => date_then_created a b = true)).
      + exact date_then_created_in_order.
      + apply order_by_sorted.
        * exact date_then_created_total.
        * exact date_then_created_trans. }
  split; [exact General|].
  split; [|split; [|split; [vm_compute; reflexivity|
                             split; vm_compute; reflexivity]]].
  - intros e w l Mine H.
    specialize (General e w).
    destruct (fault e) as [err|].
    + rewrite General in H. discriminate.
    + destruct General as (l' & E & P & _). rewrite E in H.
      injection H as <-. rewrite P.
      rewrite Forall_forall in Mine.
      assert (forall t, In t (tasks w) ->
                        visible w t && negb (completed t) = negb (completed t))
        as Same by (intros t Ht; now rewrite (Mine t Ht)).
      clear - Same. induction (tasks w) as [|x l IH]; simpl; auto.
      rewrite (Same x) by now left.
      destruct (negb (completed x)); [constructor|];
        apply IH; intros t Ht; apply Same; now right.
  - intros ops e l H.
    specialize (General e (run ops initial)).
    destruct (fault e) as [err|].
    + rewrite General in H. discriminate.
    + destruct General as (l' & E & _ & F & _). rewrite E in H.
      injection H as <-. exact F.
Qed.

(** *** [updateTask], case by case *)

(** The rows an update of [target] reaches. *)
Lemma updateTask_cases e w target updates :
  (exists err, updateTask e w target updates = (Throw err, w))
  \/ (fault e = None
      /\ exists t0,
          filter (fun r => String.eqb (id r) target && visible w r) (tasks w)
          = [t0]
          /\ updateTask e w target updates =
             (Ok (rewritten e updates t0),
              mkWorld (auth_uid w)
                (map (fun r => if String.eqb (id r) target && visible w r
                               then rewritten e updates r else r)
                     (tasks w)))).
Proof.
  rewrite updateTask_sends.
  destruct (update_single_cases e w (sent_by_updateTask e updates) target)
    as [(err & _ & ->) | [(F & t & Hf & ->) | (_ & ->)]]; simpl; eauto.
Qed.

Lemma filter_nothing {A} (f : A -> bool) l :
  (forall x, In x l -> f x = false) -> filter f l = [].
Proof.
  induction l as [|x l IH]; simpl; auto.
  intros H. rewrite (H x) by now left. apply IH. intros y Hy. apply H. now right.
Qed.

(** Under the primary key, the id of a visible row selects that row alone. *)
Lemma id_selects_one_row uid (l : list Task) t :
  NoDup (map id l) -> In t l -> owned_by uid t = true ->
  filter (fun r => String.eqb (id r) (id t) && owned_by uid r) l = [t].
Proof.
  intros ND Hin Hv.
  induction l as [|x l IH]; [destruct Hin|].
  simpl in ND. inversion ND as [|? ? Hx ND']; subst.
  assert (forall r, In r l -> id r = id x -> False) as Fresh.
  { intros r Hr E. apply Hx. rewrite <- E. now apply in_map. }
  simpl. destruct Hin as [-> | Hin].
  - rewrite String.eqb_refl, Hv; simpl. f_equal.
    apply filter_nothing. intros r Hr.
    destruct (String.eqb_spec (id r) (id t)) as [E|_]; simpl; auto.
    exfalso. exact (Fresh r Hr E).
  - destruct (String.eqb_spec (id x) (id t)) as [E|_]; simpl.
    + exfalso. apply (Fresh t Hin). now symmetry.
    + now apply IH.
Qed.

Lemma updateTask_succeeds e w t updates :
  primary_key w -> In t (tasks w) -> visible w t = true -> fault e = None ->
  updateTask e w (id t) updates =
  (Ok (rewritten e updates t),
   mkWorld (auth_uid w)
     (map (fun r => if String.eqb (id r) (id t) && visible w r
                    then rewritten e updates r else r)
          (tasks w))).
Proof.
  intros PK Hin Hv F.
  pose proof (id_selects_one_row (auth_uid w) (tasks w) t PK Hin Hv) as One.
  rewrite updateTask_sends. unfold update_single. rewrite F, One. reflexivity.
Qed.

Lemma rewritten_id e updates t : id (rewritten e updates t) = id t.
Proof. reflexivity. Qed.

Lemma rewritten_user_id e updates t : user_id (rewritten e updates t) = user_id t.
Proof. reflexivity. Qed.

Lemma update_keeps_ids (hit : Task -> bool) e updates l :
  map id (map (fun r => if hit r then rewritten e updates r else r) l) = map id l.
Proof.
  rewrite map_map. apply map_ext. intros r. now destruct (hit r).
Qed.

(** *** The primary key over histories *)

Lemma existsb_id_false l x :
  existsb (fun t => String.eqb (id t) x) l = false -> ~ In x (map id l).
Proof.
  induction l as [|y l IH]; simpl; [tauto|].
  rewrite orb_false_iff. intros [N R] [E | Hin].
  - rewrite E, String.eqb_refl in N. discriminate.
  - now apply IH.
Qed.

Lemma NoDup_map_filter {A B} (f : A -> B) (p : A -> bool) l :
  NoDup (map f l) -> NoDup (map f (filter p l)).
Proof.
  induction l as [|x l IH]; simpl; auto.
  intros ND. inversion ND as [|? ? Hx ND']; subst.
  destruct (p x); simpl; auto.
  constructor; auto.
  intros Hin. apply Hx.
  apply in_map_iff in Hin. destruct Hin as (y & E & Hy).
  apply filter_In in Hy. rewrite <- E. apply in_map. tauto.
Qed.

Lemma step_keeps_primary_key w o : primary_key w -> primary_key (step w o).
Proof.
  unfold primary_key. intros PK.
  destruct o as [e task | e target updates | e target | uid | ]; simpl; auto.
  - destruct (createTask_cases e w task)
      as [(err & ->) | (u & _ & _ & _ & X & ->)]; simpl; auto.
    rewrite map_app; simpl.
    apply Permutation_NoDup with (l := new_uuid e :: map id (tasks w)).
    + apply Permutation_cons_append.
    + constructor; auto. now apply existsb_id_false.
  - destruct (updateTask_cases e w target updates)
      as [(err & ->) | (_ & t0 & _ & ->)]; simpl; auto.
    now rewrite update_keeps_ids.
  - destruct (deleteTask_tasks e w target) as [-> | ->]; auto.
    now apply NoDup_map_filter.
Qed.

Lemma run_keeps_primary_key ops : forall w,
  primary_key w -> primary_key (run ops w).
Proof.
  unfold run.
  induction ops as [|o ops IH]; intros w H; simpl; auto.
  apply IH, step_keeps_primary_key, H.
Qed.

(** Every store a history of calls leaves behind keeps the primary key and
    the completion invariant. *)
Lemma history_is_well_formed ops :
  primary_key (run ops initial)
  /\ Forall completed_at_matches (tasks (run ops initial)).
Proof.
  split.
  - apply run_keeps_primary_key. constructor.
  - apply run_keeps_invariant. constructor.
Qed.

(** C5.  Without a session createTask throws "User not authenticated" and
    writes nothing.  A task it returns is owned by the user of the current
    session and is not completed.  With a session, a backend that answers and
    an unused id, it does return a task. *)
Theorem createTask_needs_session_and_stamps_owner :
  forall (e : Env) (w : World) (task : NewTask),
    (auth_uid w = None ->
     createTask e w task = (Throw (new_Error "User not authenticated"), w))
    /\ (forall t w',
          createTask e w task = (Ok t, w') ->
          auth_uid w = Some (user_id t)
          /\ completed t = false /\ completed_at t = None
          /\ In t (tasks w'))
    /\ (forall u,
          auth_uid w = Some u -> auth_fault e = None -> fault e = None ->
          existsb (fun t => String.eqb (id t) (new_uuid e)) (tasks w) = false ->
          exists t w', createTask e w task = (Ok t, w') /\ user_id t = u).
Proof.
  intros e w task. split; [|split].
  - intros U. unfold createTask, getCurrentUserId, auth_getUser. rewrite U.
    now destruct (auth_fault e).
  - intros t w' H.
    destruct (createTask_cases e w task)
      as [(err & E) | (u & _ & U & _ & _ & E)]; rewrite E in H.
    + discriminate.
    + injection H as <- <-. simpl. repeat split; auto.
      apply in_or_app. right. now left.
  - intros u U AF F X.
    destruct (createTask_cases e w task)
      as [(err & E) | (u' & _ & U' & _ & _ & E)].
    + exfalso. revert E.
      unfold createTask, getCurrentUserId, auth_getUser, insert_single.
      rewrite AF, U, F; simpl. rewrite String.eqb_refl; simpl. rewrite X.
      discriminate.
    + rewrite E. do 2 eexists. split; [reflexivity|]. simpl. congruence.
Qed.

Lemma createTask_needs_session_and_stamps_owner_sample :
  createTask Samples.monday Samples.signed_out Samples.buy_milk
  = (Throw (new_Error "User not authenticated"), Samples.signed_out)
  /\ exists t w',
      createTask Samples.monday Samples.world Samples.buy_milk = (Ok t, w')
      /\ user_id t = Samples.alice.
Proof.
  split.
  - apply (createTask_needs_session_and_stamps_owner
             Samples.monday Samples.signed_out Samples.buy_milk).
    reflexivity.
  - apply (proj2 (proj2 (createTask_needs_session_and_stamps_owner
                           Samples.monday Samples.world Samples.buy_milk))
             Samples.alice);
      reflexivity.
Defined.

(** C4 as the specification words it fails: an update carrying
    [completed = true] on the already completed task D replaces its
    completion timestamp by the time of the call. *)
Lemma updateTask_restamps_a_completed_task :
  completed Samples.taskD = true
  /\ completed_at Samples.taskD = Some "2024-01-01T12:00:00.000Z"
  /\ exists t w',
      updateTask Samples.monday Samples.world "d"
                 (mkUpdates None None None None (Some true)) = (Ok t, w')
      /\ completed_at t = Some "2024-01-08T10:00:00.001Z"
      /\ completed_at t <> completed_at Samples.taskD.
Proof.
  split; [reflexivity|]. split; [reflexivity|].
  do 2 eexists. split; [reflexivity|]. split; [reflexivity|].
  simpl. discriminate.
Qed.

(** C4, amended.  The task a successful updateTask call returns is the row
    of that id visible to the caller, rewritten and stored; its completion
    timestamp is the time of the call whenever the update carries
    [completed = true] (whether or not the row was completed before), null
    whenever it carries [completed = false], and the row's previous one when
    the update carries no [completed]. *)
Theorem completed_at_follows_the_update :
  forall (e : Env) (w : World) (target : string) (updates : Updates)
         (t : Task) (w' : World),
    updateTask e w target updates = (Ok t, w') ->
    exists t0,
      In t0 (tasks w) /\ id t0 = target /\ visible w t0 = true
      /\ In t (tasks w')
      /\ completed t = match p_completed updates with
                       | Some b => b
                       | None => completed t0
                       end
      /\ completed_at t = match p_completed updates with
                          | Some true => Some (client_now' e)
                          | Some false => None
                          | None => completed_at t0
                          end.
Proof.
  intros e w target updates t w' H.
  destruct (updateTask_cases e w target updates)
    as [(err & E) | (_ & t0 & F & E)]; rewrite E in H; [discriminate|].
  injection H as <- <-.
  assert (In t0 [t0]) as Hin by now left.
  rewrite <- F in Hin. apply filter_In in Hin. destruct Hin as [Hin Hit].
  pose proof Hit as Hit'.
  apply andb_true_iff in Hit'. destruct Hit' as [Hid Hv].
  apply String.eqb_eq in Hid.
  exists t0. repeat split; auto.
  - simpl. apply in_map_iff. exists t0. now rewrite Hit.
  - unfold rewritten, sent_by_updateTask, or_keep; simpl.
    now destruct (p_completed updates) as [[|]|].
Qed.

Lemma completed_at_follows_the_update_sample :
  exists t0,
    In t0 (tasks Samples.world) /\ id t0 = "d"
    /\ visible Samples.world t0 = true
    /\ In (rewritten Samples.monday
             (mkUpdates None None None None (Some true)) Samples.taskD)
          (tasks (snd (updateTask Samples.monday Samples.world "d"
                         (mkUpdates None None None None (Some true)))))
    /\ completed (rewritten Samples.monday
                    (mkUpdates None None None None (Some true)) Samples.taskD)
       = true
    /\ completed_at (rewritten Samples.monday
                       (mkUpdates None None None None (Some true)) Samples.taskD)
       = Some (client_now' Samples.monday).
Proof.
  exact (completed_at_follows_the_update
           Samples.monday Samples.world "d"
           (mkUpdates None None None None (Some true))
           _ _ eq_refl).
Defined.

(** C3.  Take a row the caller can see, in a store that respects the
    primary key, with [completed_at] non-null exactly when [completed] is
    true.  While the backend answers, two updateTask calls in succession,
    each flipping the current [completed], both succeed; the first inverts
    the flag; the task the second returns, which is the stored row, agrees
    with the original on every column but the timestamps, in particular on
    [completed]; its [completed_at] is null exactly when the original's was:
    equal to it (null) when the task was not completed, the time of the
    second call when it was. *)
Theorem toggling_twice_restores_completion :
  forall (e1 e2 : Env) (w : World) (t : Task),
    primary_key w ->
    In t (tasks w) ->
    visible w t = true ->
    completed_at_matches t ->
    fault e1 = None ->
    fault e2 = None ->
    exists t1 w1 t2 w2,
      updateTask e1 w (id t) (flip t) = (Ok t1, w1)
      /\ updateTask e2 w1 (id t) (flip t1) = (Ok t2, w2)
      /\ completed t1 = negb (completed t)
      /\ same_but_timestamps t t2
      /\ In t2 (tasks w2)
      /\ (completed_at t2 = None <-> completed_at t = None)
      /\ (completed t = false -> completed_at t2 = completed_at t)
      /\ (completed t = true -> completed_at t2 = Some (client_now' e2)).
Proof.
  intros e1 e2 w t PK Hin Hv Inv F1 F2.
  pose proof (updateTask_succeeds e1 w t (flip t) PK Hin Hv F1) as U1.
  set (t1 := rewritten e1 (flip t) t) in *.
  set (w1 := mkWorld (auth_uid w)
               (map (fun r => if String.eqb (id r) (id t) && visible w r
                              then rewritten e1 (flip t) r else r)
                    (tasks w))) in *.
  assert (primary_key w1) as PK1
      by (unfold primary_key, w1; simpl; now rewrite update_keeps_ids).
  assert (In t1 (tasks w1)) as Hin1.
  { unfold w1; simpl. apply in_map_iff. exists t. split; auto.
    now rewrite String.eqb_refl, Hv. }
  assert (visible w1 t1 = true) as Hv1 by exact Hv.
  pose proof (updateTask_succeeds e2 w1 t1 (flip t1) PK1 Hin1 Hv1 F2) as U2.
  change (id t1) with (id t) in U2.
  exists t1, w1, (rewritten e2 (flip t1) t1). eexists.
  split; [exact U1|]. split; [exact U2|].
  unfold completed_at_matches in Inv.
  split; [reflexivity|].
  split; [|split; [|split; [|split]]].
  - unfold same_but_timestamps; simpl. repeat split; auto.
    now rewrite negb_involutive.
  - simpl. apply in_map_iff. exists t1. split; auto.
    change (id t1) with (id t). rewrite String.eqb_refl.
    change (visible w1 t1) with (visible w t). now rewrite Hv.
  - simpl. destruct (completed t) eqn:C; simpl.
    + split; [discriminate|]. intros N. exfalso.
      destruct Inv as [_ Inv]. now apply Inv.
    + split; auto. intros _.
      destruct (completed_at t) as [ts|]; auto.
      destruct Inv as [Inv _]. discriminate Inv. discriminate.
  - intros C. simpl. rewrite C; simpl.
    destruct (completed_at t) as [ts|]; auto.
    destruct Inv as [Inv _]. rewrite C in Inv. discriminate Inv. discriminate.
  - intros C. simpl. now rewrite C.
Qed.

Lemma toggling_twice_restores_completion_sample :
  exists t1 w1 t2 w2,
    updateTask Samples.monday Samples.world "b" (flip Samples.taskB)
    = (Ok t1, w1)
    /\ updateTask Samples.tuesday w1 "b" (flip t1) = (Ok t2, w2)
    /\ completed t1 = true
    /\ same_but_timestamps Samples.taskB t2
    /\ In t2 (tasks w2)
    /\ (completed_at t2 = None <-> completed_at Samples.taskB = None)
    /\ (completed Samples.taskB = false ->
        completed_at t2 = completed_at Samples.taskB)
    /\ (completed Samples.taskB = true ->
        completed_at t2 = Some (client_now' Samples.tuesday)).
Proof.
  apply (toggling_twice_restores_completion
           Samples.monday Samples.tuesday Samples.world Samples.taskB).
  - unfold primary_key; simpl.
    repeat (constructor; [simpl; intuition discriminate|]). constructor.
  - simpl; auto.
  - reflexivity.
  - unfold completed_at_matches; simpl. split; [intros N; now elim N | discriminate].
  - reflexivity.
  - reflexivity.
Defined.

End TaskStoreProps.


(* ================================================================== *)
(** ** Properties of the session accessor *)
(* ================================================================== *)

Module SessionProps.

Import Auth.

(** The two conditions of [signOut] list the same four tests. *)
Lemma signOut_closed_form (call : Call (option Error)) :
  signOut call =
  match call with
  | Returns None => Ok tt
  | Returns (Some error) | Throws error =>
      if session_already_invalid error then Ok tt else Throw error
  end.
Proof.
  unfold signOut, session_already_invalid, try_catch, bind, await.
  destruct call as [[error|]|error]; auto;
    destruct (message_includes "session" error) eqn:T1,
             (message_includes "Session" error) eqn:T2,
             (message_includes "403" error) eqn:T3,
             (status_is 403 error) eqn:T4;
    cbv beta iota delta [orb]; rewrite ?T1, ?T2, ?T3, ?T4; reflexivity.
Qed.

(** C8.  Whenever the error the backend reports, returned or thrown, has
    "session", "Session" or "403" in its message or has status 403, signOut
    resolves; it also resolves when there is no error; for every other error
    it rejects with that error.  "Auth session missing!" and a 403 are
    swallowed, a 500 is thrown. *)
Theorem signOut_resolves_when_session_already_invalid :
  (forall error : Error,
      (session_already_invalid error = true ->
       signOut (Returns (Some error)) = Ok tt
       /\ signOut (Throws error) = Ok tt)
      /\ (session_already_invalid error = false ->
          signOut (Returns (Some error)) = Throw error
          /\ signOut (Throws error) = Throw error))
  /\ signOut (Returns None) = Ok tt
  /\ (forall call error,
        signOut call = Throw error ->
        (call = Returns (Some error) \/ call = Throws error)
        /\ session_already_invalid error = false)
  /\ signOut (Returns (Some Samples.session_missing)) = Ok tt
  /\ signOut (Returns (Some Samples.forbidden)) = Ok tt
  /\ signOut (Returns (Some Samples.server_down)) = Throw Samples.server_down.
Proof.
  split; [|split; [|split]].
  - intros error. rewrite !signOut_closed_form.
    split; intros ->; auto.
  - reflexivity.
  - intros call error. rewrite signOut_closed_form.
    destruct call as [[e|]|e]; try discriminate;
      destruct (session_already_invalid e) eqn:S; try discriminate;
      intros [= ->]; auto.
  - repeat split.
Qed.

End SessionProps.

(* ================================================================== *)
(** ** Properties of the profile store *)
(* ================================================================== *)

Module ProfileProps.

Import Profiles.

(** [getProfile] in closed form: what it makes of every outcome of its two
    calls. *)
Lemma getProfile_closed_form (b : Backend) :
  getProfile b =
  match auth_getUser b with
  | Throws error => if table_missing error then Ok None else Throw error
  | Returns (Some uid, None) =>
      match select_single b uid with
      | Throws error => if table_missing error then Ok None else Throw error
      | Returns (_, Some error) =>
          if row_not_found error || table_missing error then Ok None
          else Throw error
      | Returns (data, None) => Ok data
      end
  | Returns _ => Throw (new_Error "User not authenticated")
  end.
Proof.
  unfold getProfile, table_missing, row_not_found, try_catch, bind, await.
  destruct (auth_getUser b) as [[[uid|] [uerr|]]|error]; try reflexivity.
  - destruct (select_single b uid) as [[data [error|]]|error]; try reflexivity;
      destruct (code_is "PGRST116" error) eqn:T0,
               (code_is "42P01" error) eqn:T1,
               (message_includes "does not exist" error) eqn:T2;
      cbv beta iota delta [orb]; rewrite ?T0, ?T1, ?T2; reflexivity.
  - destruct (code_is "42P01" error) eqn:T1,
             (message_includes "does not exist" error) eqn:T2;
      cbv beta iota delta [orb]; rewrite ?T1, ?T2; reflexivity.
Qed.

(** C7 as the specification words it fails: an error that reports neither a
    missing row nor a missing table, PostgreSQL's undefined_column 42703
    "column profiles.user_id does not exist", does not propagate; getProfile
    returns null, because the message contains "does not exist". *)
Lemma getProfile_swallows_an_undefined_column :
  code_is "PGRST116" Samples.undefined_column = false
  /\ code_is "42P01" Samples.undefined_column = false
  /\ auth_getUser Samples.schema_drift = Returns (Some Samples.alice, None)
  /\ select_single Samples.schema_drift Samples.alice
     = Returns (None, Some Samples.undefined_column)
  /\ getProfile Samples.schema_drift = Ok None.
Proof. repeat split. Qed.

(** C7, amended.  When the query for the caller's row answers with an
    error, getProfile returns null if the error has PostgREST's row-not-found
    code PGRST116, or PostgreSQL's undefined-table code 42P01, or "does not
    exist" anywhere in its message, and rejects with that same error
    otherwise.  An error thrown by
    either call is treated alike, except that only the undefined-table test
    applies to it.  An auth error or a missing user rejects with "User not
    authenticated". *)
Theorem getProfile_absent_or_propagates :
  forall (b : Backend),
    (forall uid data error,
        auth_getUser b = Returns (Some uid, None) ->
        select_single b uid = Returns (data, Some error) ->
        (row_not_found error = true \/ table_missing error = true ->
         getProfile b = Ok None)
        /\ (row_not_found error = false /\ table_missing error = false ->
            getProfile b = Throw error))
    /\ (forall uid error,
          auth_getUser b = Returns (Some uid, None) ->
          select_single b uid = Throws error ->
          (table_missing error = true -> getProfile b = Ok None)
          /\ (table_missing error = false -> getProfile b = Throw error))
    /\ (forall error,
          auth_getUser b = Throws error ->
          (table_missing error = true -> getProfile b = Ok None)
          /\ (table_missing error = false -> getProfile b = Throw error))
    /\ (forall user error,
          auth_getUser b = Returns (user, Some error) ->
          getProfile b = Throw (new_Error "User not authenticated"))
    /\ (auth_getUser b = Returns (None, None) ->
        getProfile b = Throw (new_Error "User not authenticated")).
Proof.
  intros b. rewrite getProfile_closed_form.
  split; [|split; [|split; [|split]]].
  - intros uid data error -> ->. split.
    + intros [-> | ->]; auto. now rewrite orb_true_r.
    + now intros [-> ->].
  - intros uid error -> ->. split; now intros ->.
  - intros error ->. split; now intros ->.
  - intros user error ->. now destruct user.
  - now intros ->.
Qed.

Lemma getProfile_absent_or_propagates_sample :
  getProfile Samples.not_migrated = Ok None
  /\ getProfile Samples.locked_out = Throw Samples.permission_denied
  /\ getProfile (healthy (Some Samples.bob) [Samples.alice_profile]) = Ok None
  /\ getProfile Samples.unreachable = Throw Samples.failed_to_fetch.
Proof.
  split; [|split; [|split]].
  - apply (proj1 (getProfile_absent_or_propagates Samples.not_migrated)
             Samples.alice None Samples.undefined_table eq_refl eq_refl).
    right. reflexivity.
  - apply (proj1 (getProfile_absent_or_propagates Samples.locked_out)
             Samples.alice None Samples.permission_denied eq_refl eq_refl).
    split; reflexivity.
  - apply (proj1 (getProfile_absent_or_propagates
                    (healthy (Some Samples.bob) [Samples.alice_profile]))
             Samples.bob None not_a_single_row eq_refl eq_refl).
    left. reflexivity.
  - apply (proj1 (proj2 (proj2
             (getProfile_absent_or_propagates Samples.unreachable)))
             Samples.failed_to_fetch eq_refl).
    reflexivity.
Defined.

(** On a backend that answers: no row for the signed-in user is an absent
    profile, and the one row there is, is the profile. *)
Lemma getProfile_of_a_healthy_backend (u : string) (profiles : list Profile) :
  (filter (fun p => String.eqb u (user_id p) && String.eqb (user_id p) u)
          profiles = [] ->
   getProfile (healthy (Some u) profiles) = Ok None)
  /\ (forall p,
        filter (fun p => String.eqb u (user_id p) && String.eqb (user_id p) u)
               profiles = [p] ->
        getProfile (healthy (Some u) profiles) = Ok (Some p)
        /\ hasProfile (healthy (Some u) profiles) = Ok true).
Proof.
  split.
  - intros F. rewrite getProfile_closed_form. simpl.
    unfold select_single_from. now rewrite F.
  - intros p F.
    assert (getProfile (healthy (Some u) profiles) = Ok (Some p)) as G.
    { rewrite getProfile_closed_form. simpl.
      unfold select_single_from. now rewrite F. }
    split; [exact G|]. unfold hasProfile. now rewrite G.
Qed.

(** C10.  hasProfile resolves to a boolean whatever getProfile does: false
    when getProfile rejects (no session, a backend or transport failure) or
    finds no profile, true when it finds one.  It never rejects. *)
Theorem hasProfile_never_throws :
  forall (b : Backend),
    (exists r : bool, hasProfile b = Ok r)
    /\ (forall error, getProfile b = Throw error -> hasProfile b = Ok false)
    /\ (getProfile b = Ok None -> hasProfile b = Ok false)
    /\ (forall p, getProfile b = Ok (Some p) -> hasProfile b = Ok true)
    /\ (forall error, hasProfile b = Throw error -> False).
Proof.
  intros b. unfold hasProfile, try_catch, bind.
  destruct (getProfile b) as [[p|]|error]; repeat split;
    try discriminate; eauto.
Qed.

Lemma hasProfile_never_throws_sample :
  hasProfile Samples.unreachable = Ok false
  /\ hasProfile (healthy None [Samples.alice_profile]) = Ok false
  /\ hasProfile Samples.locked_out = Ok false
  /\ hasProfile Samples.not_migrated = Ok false
  /\ hasProfile (healthy (Some Samples.alice) [Samples.alice_profile]) = Ok true.
Proof.
  split; [|split; [|split; [|split]]].
  - apply (proj1 (proj2 (hasProfile_never_throws Samples.unreachable))
             Samples.failed_to_fetch).
    reflexivity.
  - apply (proj1 (proj2 (hasProfile_never_throws
                           (healthy None [Samples.alice_profile])))
             (new_Error "User not authenticated")).
    reflexivity.
  - apply (proj1 (proj2 (hasProfile_never_throws Samples.locked_out))
             Samples.permission_denied).
    reflexivity.
  - apply (proj1 (proj2 (proj2 (hasProfile_never_throws Samples.not_migrated)))).
    reflexivity.
  - apply (proj1 (proj2 (proj2 (proj2
             (hasProfile_never_throws
                (healthy (Some Samples.alice) [Samples.alice_profile])))))
             Samples.alice_profile).
    reflexivity.
Defined.

End ProfileProps.

(* ================================================================== *)
(** ** Properties of the route POST /api/ai *)
(* ================================================================== *)

Module AiRouteProps.

Import AiRoute.

(** [getServerUser] never throws: it names the user of a well-formed header
    the provider accepts, on a configured deployment, and nobody otherwise. *)
Lemma getServerUser_closed_form (srv : Server) (req : Request) :
  getServerUser srv req =
  Ok (match authorization req with
      | Some header =>
          if startsWith "Bearer " header && supabase_configured srv then
            match auth_getUser srv header with
            | Returns (Some user, None) => Some user
            | _ => None
            end
          else None
      | None => None
      end).
Proof.
  unfold getServerUser, createServerClient, supabase_configured, try_catch,
    bind, await.
  destruct (authorization req) as [header|]; [|reflexivity].
  destruct (truthy_string (Some header)) eqn:T.
  - cbv beta iota delta [negb orb].
    destruct (startsWith "Bearer " header); [|reflexivity].
    destruct (truthy_string (NEXT_PUBLIC_SUPABASE_URL srv)),
             (truthy_string (NEXT_PUBLIC_SUPABASE_ANON_KEY srv));
      try reflexivity.
    cbv beta iota delta [negb orb andb].
    destruct (auth_getUser srv header) as [[[user|] [error|]]|error];
      reflexivity.
  - destruct header; [|discriminate]. reflexivity.
Qed.


Lemma valid_token_names_user (srv : Server) (req : Request) :
  valid_bearer_token srv req = true -> supabase_configured srv = true ->
  exists user, getServerUser srv req = Ok (Some user).
Proof.
  rewrite getServerUser_closed_form.
  unfold valid_bearer_token, provider_accepts.
  destruct (authorization req) as [header|]; [|discriminate].
  destruct (startsWith "Bearer " header); [|discriminate].
  intros V ->. simpl in *.
  destruct (auth_getUser srv header) as [[[user|] [error|]]|error];
    try discriminate.
  eauto.
Qed.


Lemma user_means_configured (srv : Server) (req : Request) user :
  getServerUser srv req = Ok (Some user) -> createServerClient srv = Ok tt.
Proof.
  rewrite getServerUser_closed_form.
  destruct (authorization req) as [header|]; [|discriminate].
  destruct (startsWith "Bearer " header); [|discriminate].
  unfold createServerClient, supabase_configured.
  destruct (truthy_string (NEXT_PUBLIC_SUPABASE_URL srv)),
           (truthy_string (NEXT_PUBLIC_SUPABASE_ANON_KEY srv));
    try discriminate.
  reflexivity.
Qed.

(** The route once a user is named and the key is set. *)
Lemma POST_of_user (srv : Server) (req : Request) (user : string) :
  getServerUser srv req = Ok (Some user) ->
  truthy_string (OPENAI_API_KEY srv) = true ->
  POST srv req =
  match body req with
  | WithMessage message =>
      if falsy message || not_a_string message || blank message then
        message_required
      else
        match select_tasks srv user with
        | Throws _ => generic_failure
        | Returns _ =>
            match chat_completions_create srv with
            | Throws _ => generic_failure
            | Returns aiReply =>
                if negb (truthy_string aiReply) then
                  json 500 (ErrorPayload "Failed to get response from AI")
                else
                  json 200 (ReplyPayload
                              (match aiReply with Some r => r | None => EmptyString end))
            end
        end
  | _ => generic_failure
  end.
Proof.
  intros U K. unfold POST. rewrite U. cbv beta iota delta [bind].
  rewrite K. cbv beta iota delta [negb].
  unfold read_message.
  destruct (body req) as [| |message]; try reflexivity.
  destruct (falsy message || not_a_string message || blank message);
    [reflexivity|].
  rewrite (user_means_configured srv req user U).
  unfold await.
  destruct (select_tasks srv user); [|reflexivity].
  destruct (chat_completions_create srv) as [aiReply|]; [|reflexivity].
  now destruct (truthy_string aiReply).
Qed.



(** The route answers alice's question with the upstream's reply. *)
Lemma POST_replies :
  POST Samples.server Samples.ask
  = json 200 (ReplyPayload "You have two tasks.").
Proof. reflexivity. Qed.

End AiRouteProps.

(* ================================================================== *)
(** ** Properties of the page controller *)
(* ================================================================== *)

Module AppPageProps.

Import AppPage.

(** An updateTask call that throws has written nothing. *)
Lemma updateTask_throw_writes_nothing e w target updates error w' :
  Tasks.updateTask e w target updates = (Throw error, w') -> w' = w.
Proof.
  destruct (TaskStoreProps.updateTask_cases e w target updates)
    as [(err & ->) | (_ & t0 & _ & ->)]; [|discriminate].
  now intros [= _ <-].
Qed.

(** While the data request fails in transit, updateTask throws. *)
Lemma updateTask_throws_when_backend_fails e w target updates err :
  Tasks.fault e = Some err ->
  Tasks.updateTask e w target updates =
  (Throw (new_Error ("Failed to update task: " ++ message_text err
                     ++ " (Code: " ++ Tasks.code_text err ++ ")")),
   w).
Proof.
  intros F. rewrite TaskStoreProps.updateTask_sends.
  unfold Tasks.update_single. now rewrite F.
Qed.

(** C9.  When the task is in the visible list and the updateTask call of
    the toggle throws, toggleTask shows one alert carrying the error's
    message and leaves the visible list, the animating set, the
    completed-history buffer, the pending timeouts and the other cells as
    they were; the store is untouched as well. *)
Theorem failed_toggle_leaves_view_unchanged :
  forall (e : Tasks.Env) (v : View) (w : Tasks.World) (target : string)
         (task : Task) (error : Error) (w' : Tasks.World),
    find (fun t => String.eqb (id t) target) (tasks v) = Some task ->
    Tasks.updateTask e w target
      (Tasks.mkUpdates None None None None (Some (not_completed task)))
    = (Throw error, w') ->
    tasks (fst (toggleTask e v w target)) = tasks v
    /\ animatingTasks (fst (toggleTask e v w target)) = animatingTasks v
    /\ completedTasksHistory (fst (toggleTask e v w target))
       = completedTasksHistory v
    /\ timeouts (fst (toggleTask e v w target)) = timeouts v
    /\ loading (fst (toggleTask e v w target)) = loading v
    /\ connectionStatus (fst (toggleTask e v w target)) = connectionStatus v
    /\ alerts (fst (toggleTask e v w target))
       = (alerts v ++ [("Failed to update task: " ++ message_or_unknown error
                        ++ ". Check console for details.")%string])%list
    /\ snd (toggleTask e v w target) = w.
Proof.
  intros e v w target task error w' Found Thrown.
  pose proof (updateTask_throw_writes_nothing _ _ _ _ _ _ Thrown) as ->.
  unfold toggleTask. rewrite Found, Thrown. simpl. repeat split.
Qed.

Lemma failed_toggle_leaves_view_unchanged_sample :
  tasks (fst (toggleTask Samples.offline Samples.view Samples.world "b"))
  = tasks Samples.view
  /\ animatingTasks (fst (toggleTask Samples.offline Samples.view
                            Samples.world "b")) = []
  /\ completedTasksHistory (fst (toggleTask Samples.offline Samples.view
                                   Samples.world "b")) = []
  /\ timeouts (fst (toggleTask Samples.offline Samples.view
                      Samples.world "b")) = []
  /\ loading (fst (toggleTask Samples.offline Samples.view
                     Samples.world "b")) = false
  /\ connectionStatus (fst (toggleTask Samples.offline Samples.view
                              Samples.world "b")) = NoBanner
  /\ alerts (fst (toggleTask Samples.offline Samples.view Samples.world "b"))
     = ["Failed to update task: Failed to update task: TypeError: Failed to fetch (Code: undefined). Check console for details."]
  /\ snd (toggleTask Samples.offline Samples.view Samples.world "b")
     = Samples.world.
Proof.
  exact (failed_toggle_leaves_view_unchanged
           Samples.offline Samples.view Samples.world "b"
           (dbTaskToUITask Samples.taskB) _ Samples.world
           eq_refl eq_refl).
Defined.

(** For comparison, the toggle that goes through: the row stays in the list,
    now completed, joins the animating set and the history, and a timeout is
    pending; when it fires the row leaves and the list is reloaded. *)
Lemma successful_toggle_animates :
  animatingTasks (fst (toggleTask Samples.monday Samples.view
                         Samples.world "b")) = ["b"]
  /\ map id (tasks (fst (toggleTask Samples.monday Samples.view
                           Samples.world "b"))) = ["b"; "c"; "a"]
  /\ map id (completedTasksHistory
               (fst (toggleTask Samples.monday Samples.view
                       Samples.world "b"))) = ["b"]
  /\ timeouts (fst (toggleTask Samples.monday Samples.view
                      Samples.world "b")) = ["b"]
  /\ map id (tasks (animation_done Samples.tuesday false
                      (fst (toggleTask Samples.monday Samples.view
                              Samples.world "b"))
                      (snd (toggleTask Samples.monday Samples.view
                              Samples.world "b"))
                      "b")) = ["c"; "a"].
Proof. repeat split. Qed.

(** A reload that goes through replaces the visible list by what getTasks
    returns; one that fails or times out keeps the list and raises the
    banner. *)
Lemma loadTasks_replaces_or_keeps e (timed_out : bool) v w :
  match (if timed_out
         then @Throw (list Tasks.Task)
                (new_Error "Request timeout: Database connection took too long")
         else Tasks.getTasks e w) with
  | Ok dbTasks =>
      tasks (loadTasks e timed_out v w) = map dbTaskToUITask dbTasks
      /\ connectionStatus (loadTasks e timed_out v w) = connectionStatus v
  | Throw error =>
      tasks (loadTasks e timed_out v w) = tasks v
      /\ connectionStatus (loadTasks e timed_out v w)
         = FailedToLoad (message_or_unknown error)
  end
  /\ loading (loadTasks e timed_out v w) = false
  /\ animatingTasks (loadTasks e timed_out v w) = animatingTasks v
  /\ completedTasksHistory (loadTasks e timed_out v w)
     = completedTasksHistory v.
Proof.
  unfold loadTasks.
  destruct (if timed_out then _ else _) as [dbTasks|error]; simpl; auto.
Qed.

(** Toggling B twice on the page, the second time while the row is still
    animating: the store holds B as before, but for [updated_at]; the visible
    row is not completed again and the history is empty again. *)
Lemma toggling_twice_on_the_page :
  Tasks.tasks
    (snd (toggleTask Samples.tuesday
            (fst (toggleTask Samples.monday Samples.view Samples.world "b"))
            (snd (toggleTask Samples.monday Samples.view Samples.world "b"))
            "b"))
  = [Samples.taskA;
     Tasks.mkTask "b" Samples.alice "B" None Tasks.High "2024-01-01" false None
                  "2023-12-30T09:00:00.000Z" "2024-01-09T10:00:00.120Z";
     Samples.taskC; Samples.taskD; Samples.taskE]
  /\ map completed
       (tasks
          (fst (toggleTask Samples.tuesday
                  (fst (toggleTask Samples.monday Samples.view
                          Samples.world "b"))
                  (snd (toggleTask Samples.monday Samples.view
                          Samples.world "b"))
                  "b")))
     = [Some false; Some false; Some false]
  /\ completedTasksHistory
       (fst (toggleTask Samples.tuesday
               (fst (toggleTask Samples.monday Samples.view Samples.world "b"))
               (snd (toggleTask Samples.monday Samples.view Samples.world "b"))
               "b"))
     = [].
Proof. repeat split. Qed.

End AppPageProps.

(* ================================================================== *)
(** ** More properties of the task store *)
(* ================================================================== *)

Module TaskStoreMore.

Import Tasks TaskQueries.

(** *** The list queries *)

Lemma created_asc_total a b : created_asc a b = true \/ created_asc b a = true.
Proof. apply String.leb_total. Qed.

Lemma created_asc_trans a b c :
  created_asc a b = true -> created_asc b c = true -> created_asc a c = true.
Proof. apply TaskStoreProps.string_leb_trans. Qed.

Lemma created_desc_total a b :
  created_desc a b = true \/ created_desc b a = true.
Proof. apply String.leb_total. Qed.

Lemma created_desc_trans a b c :
  created_desc a b = true -> created_desc b c = true -> created_desc a c = true.
Proof.
  unfold created_desc. intros H1 H2.
  exact (TaskStoreProps.string_leb_trans _ _ _ H2 H1).
Qed.

Lemma completed_at_desc_total a b :
  completed_at_desc a b = true \/ completed_at_desc b a = true.
Proof.
  unfold completed_at_desc.
  destruct (completed_at a) as [x|], (completed_at b) as [y|]; auto.
  destruct (String.leb_total x y); auto.
Qed.

Lemma completed_at_desc_trans a b c :
  completed_at_desc a b = true -> completed_at_desc b c = true ->
  completed_at_desc a c = true.
Proof.
  unfold completed_at_desc.
  destruct (completed_at a) as [x|], (completed_at b) as [y|],
           (completed_at c) as [z|]; auto; try discriminate.
  intros H1 H2. exact (TaskStoreProps.string_leb_trans _ _ _ H2 H1).
Qed.

(** What a filtered, ordered select returns. *)
Lemma select_where_answers keep le e w :
  (forall a b, le a b = true \/ le b a = true) ->
  (forall a b c, le a b = true -> le b c = true -> le a c = true) ->
  match fault e with
  | Some err => rows_or_throw (select_where keep le e w) = Throw err
  | None =>
      exists l,
        rows_or_throw (select_where keep le e w) = Ok l
        /\ Permutation l (filter (fun t => visible w t && keep t) (tasks w))
        /\ StronglySorted (fun a b => le a b = true) l
  end.
Proof.
  intros Total Trans. unfold rows_or_throw, select_where.
  destruct (fault e) as [err|]; [reflexivity|].
  eexists. split; [reflexivity|]. split.
  - apply Permutation_sym, TaskStoreProps.order_by_perm.
  - now apply TaskStoreProps.order_by_sorted.
Qed.

Lemma select_where_returns keep le e w l :
  rows_or_throw (select_where keep le e w) = Ok l ->
  Permutation l (filter (fun t => visible w t && keep t) (tasks w)).
Proof.
  unfold rows_or_throw, select_where.
  destruct (fault e) as [err|]; [discriminate|].
  intros [= <-]. apply Permutation_sym, TaskStoreProps.order_by_perm.
Qed.

Lemma getTasks_as_select e w :
  getTasks e w =
  rows_or_throw
    (select_where (fun t => Bool.eqb (completed t) false)
                  date_then_created e w).
Proof. reflexivity. Qed.

Lemma completed_at_desc_in_order a b :
  completed_at_desc a b = true -> latest_completed_first a b.
Proof.
  unfold completed_at_desc, latest_completed_first.
  destruct (completed_at a) as [x|], (completed_at b) as [y|];
    try discriminate; try reflexivity.
  intros H x' E. now injection E as <-.
Qed.

(** X1.  While the backend answers, getCompletedTasks returns exactly the
    rows the caller may read whose [completed] is true, the most recently
    completed first: of two rows of the list, the one standing first has a
    completion time that is not earlier (a row without completion time would
    stand before all).  Otherwise it throws the backend's error.  On a table
    where D, completed on January 1st, stands before G, completed on January
    3rd, the list is [G, D]. *)
Theorem getCompletedTasks_latest_first :
  (forall (e : Env) (w : World),
      match fault e with
      | Some err => getCompletedTasks e w = Throw err
      | None =>
          exists l,
            getCompletedTasks e w = Ok l
            /\ Permutation l
                 (filter (fun t => visible w t && completed t) (tasks w))
            /\ Forall (fun t => completed t = true) l
            /\ StronglySorted latest_completed_first l
      end)
  /\ getCompletedTasks Samples.monday MoreSamples.two_done
     = Ok [MoreSamples.taskG; Samples.taskD].
Proof.
  split; [|vm_compute; reflexivity].
  intros e w. unfold getCompletedTasks.
  pose proof (select_where_answers (fun t => Bool.eqb (completed t) true)
                completed_at_desc e w completed_at_desc_total
                completed_at_desc_trans) as H.
  destruct (fault e) as [err|]; [exact H|].
  destruct H as (l & E & P & S). exists l.
  assert (forall t, visible w t && Bool.eqb (completed t) true
                    = visible w t && completed t) as Same
      by (intros t; now destruct (completed t)).
  rewrite (filter_ext _ _ Same) in P.
  split; [exact E|]. split; [exact P|]. split.
  - rewrite Forall_forall. intros t Ht.
    apply (Permutation_in _ P) in Ht. apply filter_In in Ht.
    destruct Ht as [_ Ht]. apply andb_true_iff in Ht. tauto.
  - exact (TaskStoreProps.StronglySorted_weaken _ _ l
             completed_at_desc_in_order S).
Qed.

(** X2.  While the backend answers, getAllTasks returns exactly the rows the
    caller may read, newest first: of two rows of the list, the one standing
    first was not created earlier.  For a text that writes a date,
    getTasksByDate returns exactly those of the rows whose date is that date,
    however the text spells it, oldest first.  When the request fails, both
    throw the backend's error.  On the sample table getAllTasks gives
    [C, B, A, D]; with C standing before B in the table, getTasksByDate gives
    [B, C] for "2024-01-01" and for "2024-1-1". *)
Theorem getAllTasks_and_getTasksByDate :
  (forall (e : Env) (w : World),
      match fault e with
      | Some err =>
          getAllTasks e w = Throw err
          /\ (forall d, getTasksByDate e w d = Throw err)
      | None =>
          (exists l,
              getAllTasks e w = Ok l
              /\ Permutation l (filter (visible w) (tasks w))
              /\ StronglySorted
                   (fun a b => String.leb (created_at b) (created_at a) = true)
                   l)
          /\ (forall d x,
                 date_in d = Some x ->
                 exists l,
                   getTasksByDate e w d = Ok l
                   /\ Permutation l
                        (filter (fun t => visible w t
                                          && match date_in (date t) with
                                             | Some y => Z.eqb y x
                                             | None => false
                                             end)
                                (tasks w))
                   /\ Forall (fun t => date_in (date t) = Some x) l
                   /\ StronglySorted
                        (fun a b =>
                           String.leb (created_at a) (created_at b) = true)
                        l)
      end)
  /\ getAllTasks Samples.monday Samples.world
     = Ok [Samples.taskC; Samples.taskB; Samples.taskA; Samples.taskD]
  /\ getTasksByDate Samples.monday Samples.shuffled "2024-01-01"
     = Ok [Samples.taskB; Samples.taskC]
  /\ getTasksByDate Samples.monday Samples.shuffled "2024-1-1"
     = Ok [Samples.taskB; Samples.taskC].
Proof.
  split; [|repeat split; vm_compute; reflexivity].
  intros e w. unfold getAllTasks, getTasksByDate.
  pose proof (select_where_answers (fun _ => true) created_desc e w
                created_desc_total created_desc_trans) as H1.
  pose proof (fun d => select_where_answers (on_date d)
                created_asc e w created_asc_total created_asc_trans) as H2.
  destruct (fault e) as [err|]; [split; assumption|].
  destruct H1 as (l1 & E1 & P1 & S1).
  split.
  - exists l1. split; [exact E1|]. split; [|exact S1].
    assert (forall t, visible w t && true = visible w t) as Same
        by (intros t; apply andb_true_r).
    now rewrite (filter_ext _ _ Same) in P1.
  - intros d x D. destruct (H2 d) as (l2 & E2 & P2 & S2).
    exists l2.
    assert (forall t, visible w t && on_date d t
                      = visible w t && match date_in (date t) with
                                       | Some y => Z.eqb y x
                                       | None => false
                                       end) as Same.
    { intros t. unfold on_date. rewrite D.
      destruct (date_in (date t)) as [y|]; [|reflexivity].
      now rewrite Z.eqb_sym. }
    rewrite (filter_ext _ _ Same) in P2.
    split; [exact E2|]. split; [exact P2|]. split; [|exact S2].
    rewrite Forall_forall. intros t Ht.
    apply (Permutation_in _ P2) in Ht. apply filter_In in Ht.
    destruct Ht as [_ Ht]. apply andb_true_iff in Ht. destruct Ht as [_ Ht].
    destruct (date_in (date t)) as [y|]; [|discriminate].
    apply Z.eqb_eq in Ht. now subst y.
Qed.

Lemma filter_split {A} (f g : A -> bool) (l : list A) :
  Permutation (filter (fun x => f x && negb (g x)) l
               ++ filter (fun x => f x && g x) l)
              (filter f l).
Proof.
  induction l as [|x l IH]; simpl; auto.
  destruct (f x), (g x); simpl; auto.
  apply Permutation_sym, Permutation_cons_app, Permutation_sym, IH.
Qed.

(** X3.  Whenever getTasks and getCompletedTasks both return on the same
    store, their two lists together hold every row the caller may read,
    each once: the rows getAllTasks returns. *)
Theorem incomplete_and_completed_make_all :
  forall (e1 e2 e3 : Env) (w : World) (l1 l2 l3 : list Task),
    getTasks e1 w = Ok l1 ->
    getCompletedTasks e2 w = Ok l2 ->
    getAllTasks e3 w = Ok l3 ->
    Permutation (l1 ++ l2) l3
    /\ Permutation (l1 ++ l2) (filter (visible w) (tasks w)).
Proof.
  intros e1 e2 e3 w l1 l2 l3 H1 H2 H3.
  rewrite getTasks_as_select in H1.
  apply select_where_returns in H1, H2, H3.
  assert (Permutation (l1 ++ l2) (filter (visible w) (tasks w))) as P.
  { rewrite H1, H2. rewrite <- (filter_split (visible w) completed).
    apply Permutation_app; apply Permutation_refl';
      apply filter_ext; intros t; now destruct (completed t). }
  split; [|exact P]. rewrite P, H3.
  apply Permutation_refl', filter_ext. intros t. symmetry. apply andb_true_r.
Qed.

Lemma incomplete_and_completed_make_all_sample :
  Permutation ([Samples.taskB; Samples.taskC; Samples.taskA] ++ [Samples.taskD])
              [Samples.taskC; Samples.taskB; Samples.taskA; Samples.taskD]
  /\ Permutation
       ([Samples.taskB; Samples.taskC; Samples.taskA] ++ [Samples.taskD])
       (filter (visible Samples.world) (tasks Samples.world)).
Proof.
  exact (incomplete_and_completed_make_all
           Samples.monday Samples.monday Samples.monday Samples.world
           _ _ _ eq_refl eq_refl eq_refl).
Defined.

(** *** Writes *)

(** X4.  For an id the UUID column accepts: while the backend answers,
    deleteTask resolves and removes exactly the rows of that id the caller
    owns: no such row is left, every other row stays, and when there was no
    such row (an id no row has, or the id of somebody else's task) nothing
    changes and nothing is reported.  When the request fails, deleteTask
    throws "Failed to delete task: ..." with the backend's message and
    code. *)
Theorem deleteTask_removes_the_callers_row_only :
  forall (e : Env) (w : World) (target : string),
    uuid_text target = true ->
    match fault e with
    | Some err =>
        fst (deleteTask e w target) =
        Throw (new_Error ("Failed to delete task: " ++ message_text err
                          ++ " (Code: " ++ code_text err ++ ")"))
    | None =>
        exists w',
          deleteTask e w target = (Ok tt, w')
          /\ auth_uid w' = auth_uid w
          /\ tasks w' =
             filter (fun t => negb (String.eqb (id t) target && visible w t))
                    (tasks w)
          /\ (forall t, In t (tasks w') ->
                        id t = target -> visible w t = false)
          /\ (forall t, In t (tasks w) ->
                        id t <> target \/ visible w t = false ->
                        In t (tasks w'))
          /\ ((forall t, In t (tasks w) -> visible w t = true ->
                         id t <> target) ->
              tasks w' = tasks w)
    end.
Proof.
  intros e w target _. unfold deleteTask, delete_eq_id.
  destruct (fault e) as [err|]; [reflexivity|].
  eexists. split; [reflexivity|]. simpl. unfold visible. repeat split.
  - intros t Ht E. apply filter_In in Ht. destruct Ht as [_ Ht].
    apply negb_true_iff, andb_false_iff in Ht.
    destruct Ht as [Ht | Ht]; [|exact Ht].
    apply String.eqb_neq in Ht. contradiction.
  - intros t Ht Other. apply filter_In. split; [exact Ht|].
    apply negb_true_iff, andb_false_iff.
    destruct Other as [N | V]; [left; now apply String.eqb_neq | now right].
  - intros None_. induction (tasks w) as [|x l IH]; simpl; auto.
    assert (String.eqb (id x) target && owned_by (auth_uid w) x = false) as ->.
    { destruct (owned_by (auth_uid w) x) eqn:V; [|apply andb_false_r].
      rewrite andb_true_r. apply String.eqb_neq.
      apply None_; [now left | exact V]. }
    simpl. f_equal. apply IH. intros t Ht. apply None_. now right.
Qed.

(** Alice deletes her task B; bob's task E and an id no row has are out of
    her reach. *)
Lemma deleteTask_removes_the_callers_row_only_sample :
  deleteTask Samples.monday MoreSamples.registry MoreSamples.id_b
  = (Ok tt,
     mkWorld (Some Samples.alice)
             [MoreSamples.with_id MoreSamples.id_a Samples.taskA;
              MoreSamples.with_id MoreSamples.id_e Samples.taskE])
  /\ deleteTask Samples.monday MoreSamples.registry MoreSamples.id_e
     = (Ok tt, MoreSamples.registry)
  /\ deleteTask Samples.monday MoreSamples.registry MoreSamples.id_unknown
     = (Ok tt, MoreSamples.registry).
Proof.
  split; [|split].
  - destruct (deleteTask_removes_the_callers_row_only
                Samples.monday MoreSamples.registry MoreSamples.id_b eq_refl)
      as (w' & E & U & T & _).
    rewrite E. destruct w' as [u l]. simpl in U, T. now rewrite U, T.
  - destruct (deleteTask_removes_the_callers_row_only
                Samples.monday MoreSamples.registry MoreSamples.id_e eq_refl)
      as (w' & E & U & T & _).
    rewrite E. destruct w' as [u l]. simpl in U, T. now rewrite U, T.
  - destruct (deleteTask_removes_the_callers_row_only
                Samples.monday MoreSamples.registry MoreSamples.id_unknown
                eq_refl)
      as (w' & E & U & T & _).
    rewrite E. destruct w' as [u l]. simpl in U, T. now rewrite U, T.
Defined.

(** X5.  For an id the UUID column accepts: while the backend answers,
    updateTask on an id under which the caller owns no row (an id no row has,
    or the id of somebody else's task) throws "Failed to update task: ...
    (Code: PGRST116)", carrying the message of the error [.single()] reports
    when no row comes back, and writes nothing. *)
Theorem updateTask_of_unknown_task_throws :
  forall (e : Env) (w : World) (target : string) (updates : Updates),
    uuid_text target = true ->
    fault e = None ->
    (forall t, In t (tasks w) -> visible w t = true -> id t <> target) ->
    updateTask e w target updates =
    (Throw (new_Error ("Failed to update task: "
                       ++ message_text not_a_single_row
                       ++ " (Code: PGRST116)")),
     w).
Proof.
  intros e w target updates _ F None_.
  rewrite TaskStoreProps.updateTask_sends. unfold update_single. rewrite F.
  rewrite TaskStoreProps.filter_nothing; [reflexivity|].
  intros x Hx. destruct (visible w x) eqn:V.
  - change (owned_by (auth_uid w) x) with (visible w x). rewrite V, andb_true_r.
    apply String.eqb_neq. now apply None_.
  - change (owned_by (auth_uid w) x) with (visible w x). rewrite V.
    apply andb_false_r.
Qed.

(** Alice cannot rename bob's task E, nor a task that is not there. *)
Lemma updateTask_of_unknown_task_throws_sample :
  updateTask Samples.monday MoreSamples.registry MoreSamples.id_e
             (mkUpdates (Some "mine now") None None None None) =
  (Throw (new_Error ("Failed to update task: "
                     ++ message_text not_a_single_row
                     ++ " (Code: PGRST116)")),
   MoreSamples.registry)
  /\ updateTask Samples.monday MoreSamples.registry MoreSamples.id_unknown
                (mkUpdates None None None None (Some true)) =
     (Throw (new_Error ("Failed to update task: "
                        ++ message_text not_a_single_row
                        ++ " (Code: PGRST116)")),
      MoreSamples.registry).
Proof.
  split.
  - apply (updateTask_of_unknown_task_throws
             Samples.monday MoreSamples.registry MoreSamples.id_e).
    + reflexivity.
    + reflexivity.
    + intros t Ht V. simpl in Ht.
      repeat (destruct Ht as [<- | Ht]; [try discriminate V; discriminate|]).
      destruct Ht.
  - apply (updateTask_of_unknown_task_throws
             Samples.monday MoreSamples.registry MoreSamples.id_unknown).
    + reflexivity.
    + reflexivity.
    + intros t Ht V. simpl in Ht.
      repeat (destruct Ht as [<- | Ht]; [try discriminate V; discriminate|]).
      destruct Ht.
Defined.

Lemma filter_map_fixed {A} (p : A -> bool) (g : A -> A) (l : list A) :
  (forall x, In x l -> p x = true -> g x = x) ->
  (forall x, In x l -> p (g x) = p x) ->
  filter p (map g l) = filter p l.
Proof.
  induction l as [|x l IH]; simpl; auto.
  intros Fix Same. rewrite (Same x) by now left.
  destruct (p x) eqn:P.
  - rewrite (Fix x) by (auto; now left). f_equal.
    apply IH; intros y Hy; [apply Fix | apply Same]; now right.
  - apply IH; intros y Hy; [apply Fix | apply Same]; now right.
Qed.

(** X6.  No call of this module made under a session changes, adds or
    removes a row that the session's user does not own: after any step the
    rows of the other users are those before it, in the same order. *)
Theorem other_users_rows_are_untouched :
  forall (w : World) (o : Op),
    filter (fun t => negb (visible w t)) (tasks (step w o))
    = filter (fun t => negb (visible w t)) (tasks w).
Proof.
  intros w o. destruct o as [e task | e target updates | e target | uid | ];
    simpl; auto.
  - destruct (TaskStoreProps.createTask_cases e w task)
      as [(err & ->) | (u & _ & U & _ & _ & ->)]; simpl; auto.
    rewrite filter_app; simpl. unfold visible at 2, owned_by; simpl.
    rewrite U, String.eqb_refl; simpl. apply app_nil_r.
  - destruct (TaskStoreProps.updateTask_cases e w target updates)
      as [(err & ->) | (_ & t0 & _ & ->)]; simpl; auto.
    apply filter_map_fixed.
    + intros x _ V. apply negb_true_iff in V. rewrite V.
      now rewrite andb_false_r.
    + intros x _. now destruct (String.eqb (id x) target && visible w x).
  - destruct (TaskStoreProps.deleteTask_tasks e w target) as [-> | ->]; auto.
    clear. induction (tasks w) as [|x l IH]; simpl; auto.
    change (owned_by (auth_uid w) x) with (visible w x).
    destruct (visible w x) eqn:V; simpl.
    + destruct (String.eqb (id x) target); simpl; [exact IH|].
      rewrite V; simpl. exact IH.
    + rewrite andb_false_r; simpl. rewrite V; simpl. now rewrite IH.
Qed.

(** X7.  The task a successful updateTask call returns is the caller's row
    of that id with only the columns named in the update replaced: id, owner
    and creation time are kept, a column the update does not carry keeps its
    value (so a description cannot be cleared by leaving it out), and
    [updated_at] is the server's time, the trigger overriding the client's
    timestamp.  The table keeps its length and every row of another id. *)
Theorem updateTask_rewrites_named_columns_only :
  forall (e : Env) (w : World) (target : string) (updates : Updates)
         (t : Task) (w' : World),
    updateTask e w target updates = (Ok t, w') ->
    exists t0,
      In t0 (tasks w) /\ id t0 = target /\ visible w t0 = true
      /\ id t = id t0 /\ user_id t = user_id t0
      /\ created_at t = created_at t0
      /\ updated_at t = server_now e
      /\ title t = match p_title updates with
                   | Some s => s
                   | None => title t0
                   end
      /\ description t = match p_description updates with
                         | Some s => Some s
                         | None => description t0
                         end
      /\ priority t = match p_priority updates with
                      | Some p => p
                      | None => priority t0
                      end
      /\ date t = match p_date updates with
                  | Some d => d
                  | None => date t0
                  end
      /\ length (tasks w') = length (tasks w)
      /\ auth_uid w' = auth_uid w
      /\ (forall r, In r (tasks w) -> id r <> target -> In r (tasks w')).
Proof.
  intros e w target updates t w' H.
  destruct (TaskStoreProps.updateTask_cases e w target updates)
    as [(err & E) | (_ & t0 & F & E)]; rewrite E in H; [discriminate|].
  injection H as <- <-.
  assert (In t0 [t0]) as Hin by now left.
  rewrite <- F in Hin. apply filter_In in Hin. destruct Hin as [Hin Hit].
  apply andb_true_iff in Hit. destruct Hit as [Hid Hv].
  apply String.eqb_eq in Hid.
  exists t0. repeat split; auto.
  - simpl. apply length_map.
  - intros r Hr N. simpl. apply in_map_iff. exists r. split; [|exact Hr].
    apply String.eqb_neq in N. now rewrite N.
Qed.

Lemma updateTask_rewrites_named_columns_only_sample :
  exists t0,
    In t0 (tasks Samples.world) /\ id t0 = "c" /\ visible Samples.world t0 = true
    /\ "c" = id t0 /\ Samples.alice = user_id t0
    /\ "2023-12-30T10:00:00.000Z" = created_at t0
    /\ "2024-01-08T10:00:00.120Z" = server_now Samples.monday
    /\ "Third" = "Third"
    /\ Some "third" = description t0
    /\ Low = priority t0
    /\ "2024-01-05" = "2024-01-05"
    /\ 5 = length (tasks Samples.world)
    /\ Some Samples.alice = auth_uid Samples.world
    /\ (forall r, In r (tasks Samples.world) -> id r <> "c" ->
                  In r (tasks (snd (updateTask Samples.monday Samples.world "c"
                                      (mkUpdates (Some "Third") None None
                                                 (Some "2024-01-05") None))))).
Proof.
  exact (updateTask_rewrites_named_columns_only
           Samples.monday Samples.world "c"
           (mkUpdates (Some "Third") None None (Some "2024-01-05") None)
           _ _ eq_refl).
Defined.

(** X8.  A task createTask returns is appended to the table as returned,
    with the title, priority and date given, an empty description stored as
    null, the id and time the server assigned; and the next getTasks of the
    same session that goes through lists it. *)
Theorem created_task_is_listed :
  forall (e e' : Env) (w : World) (task : NewTask) (t : Task) (w' : World),
    createTask e w task = (Ok t, w') ->
    fault e' = None ->
    tasks w' = (tasks w ++ [t])%list
    /\ auth_uid w' = auth_uid w
    /\ id t = new_uuid e
    /\ title t = n_title task
    /\ priority t = n_priority task
    /\ date t = n_date task
    /\ description t = match n_description task with
                       | Some EmptyString | None => None
                       | Some s => Some s
                       end
    /\ created_at t = server_now e /\ updated_at t = server_now e
    /\ exists l, getTasks e' w' = Ok l /\ In t l.
Proof.
  intros e e' w task t w' H F.
  destruct (TaskStoreProps.createTask_cases e w task)
    as [(err & E) | (u & _ & U & _ & _ & E)]; rewrite E in H; [discriminate|].
  injection H as <- <-. simpl. repeat split; auto.
  - now destruct (n_description task) as [[|c s]|].
  - match goal with
    | |- context [getTasks e' ?W] =>
        pose proof (select_where_answers
                      (fun t => Bool.eqb (completed t) false)
                      date_then_created e' W
                      TaskStoreProps.date_then_created_total
                      TaskStoreProps.date_then_created_trans) as S
    end.
    rewrite getTasks_as_select. rewrite F in S. destruct S as (l & El & P & _).
    exists l. split; [exact El|].
    apply (Permutation_in _ (Permutation_sym P)).
    apply filter_In. split.
    + simpl. apply in_or_app. right. now left.
    + unfold visible, owned_by; simpl. now rewrite U, String.eqb_refl.
Qed.

Lemma created_task_is_listed_sample :
  tasks (snd (createTask Samples.monday Samples.world Samples.buy_milk))
  = (tasks Samples.world
     ++ [mkTask "f" Samples.alice "Buy milk" None High "2024-01-08" false None
                "2024-01-08T10:00:00.120Z" "2024-01-08T10:00:00.120Z"])%list
  /\ Some Samples.alice = auth_uid Samples.world
  /\ "f" = new_uuid Samples.monday
  /\ "Buy milk" = n_title Samples.buy_milk
  /\ High = n_priority Samples.buy_milk
  /\ "2024-01-08" = n_date Samples.buy_milk
  /\ None = (None : option string)
  /\ "2024-01-08T10:00:00.120Z" = server_now Samples.monday
  /\ "2024-01-08T10:00:00.120Z" = server_now Samples.monday
  /\ exists l,
      getTasks Samples.tuesday
               (snd (createTask Samples.monday Samples.world Samples.buy_milk))
      = Ok l
      /\ In (mkTask "f" Samples.alice "Buy milk" None High "2024-01-08" false
                    None "2024-01-08T10:00:00.120Z" "2024-01-08T10:00:00.120Z")
            l.
Proof.
  exact (created_task_is_listed
           Samples.monday Samples.tuesday Samples.world Samples.buy_milk
           _ _ eq_refl eq_refl).
Defined.

(** X9.  Once an updateTask call carrying [completed = true] has returned a
    task, that session's getTasks no longer lists a task of that id and its
    getCompletedTasks lists the returned task, whenever the two go through. *)
Theorem completed_task_moves_to_the_completed_list :
  forall (e e1 e2 : Env) (w : World) (target : string) (updates : Updates)
         (t : Task) (w' : World),
    p_completed updates = Some true ->
    updateTask e w target updates = (Ok t, w') ->
    fault e1 = None ->
    fault e2 = None ->
    exists l1 l2,
      getTasks e1 w' = Ok l1
      /\ getCompletedTasks e2 w' = Ok l2
      /\ Forall (fun r => id r <> target) l1
      /\ In t l2.
Proof.
  intros e e1 e2 w target updates t w' C H F1 F2.
  destruct (TaskStoreProps.updateTask_cases e w target updates)
    as [(err & E) | (_ & t0 & F & E)]; rewrite E in H; [discriminate|].
  injection H as <- <-.
  assert (In t0 [t0]) as Hin by now left.
  rewrite <- F in Hin. apply filter_In in Hin. destruct Hin as [Hin Hit].
  set (w' := mkWorld (auth_uid w)
               (map (fun r => if String.eqb (id r) target && visible w r
                              then rewritten e updates r else r)
                    (tasks w))).
  pose proof (select_where_answers
                (fun t => Bool.eqb (completed t) false) date_then_created e1 w'
                TaskStoreProps.date_then_created_total
                TaskStoreProps.date_then_created_trans) as S1.
  pose proof (select_where_answers
                (fun t => Bool.eqb (completed t) true) completed_at_desc e2 w'
                completed_at_desc_total completed_at_desc_trans) as S2.
  rewrite F1 in S1. rewrite F2 in S2.
  destruct S1 as (l1 & E1 & P1 & _). destruct S2 as (l2 & E2 & P2 & _).
  assert (completed (rewritten e updates t0) = true) as Done
      by (unfold rewritten, sent_by_updateTask, or_keep; simpl; now rewrite C).
  exists l1, l2. split; [exact E1|]. split; [exact E2|]. split.
  - rewrite Forall_forall. intros r Hr E'.
    apply (Permutation_in _ P1) in Hr. apply filter_In in Hr.
    destruct Hr as [Hr Keep]. apply andb_true_iff in Keep.
    destruct Keep as [V Inc].
    simpl in Hr. apply in_map_iff in Hr. destruct Hr as (r0 & Er & Hr0).
    destruct (String.eqb (id r0) target && visible w r0) eqn:Hit0.
    + subst r.
      assert (completed (rewritten e updates r0) = true) as Done0
          by (unfold rewritten, sent_by_updateTask, or_keep; simpl;
              now rewrite C).
      rewrite Done0 in Inc. discriminate.
    + subst r0. change (visible w' r) with (visible w r) in V.
      rewrite V, andb_true_r in Hit0. apply String.eqb_neq in Hit0.
      contradiction.
  - apply (Permutation_in _ (Permutation_sym P2)). apply filter_In. split.
    + simpl. apply in_map_iff. exists t0. split; [|exact Hin].
      now rewrite Hit.
    + rewrite Done. apply andb_true_iff in Hit. destruct Hit as [_ V].
      change (visible w' (rewritten e updates t0)) with (visible w t0).
      now rewrite V.
Qed.

Lemma completed_task_moves_to_the_completed_list_sample :
  exists l1 l2,
    getTasks Samples.tuesday
             (snd (updateTask Samples.monday Samples.world "b"
                              (flip Samples.taskB))) = Ok l1
    /\ getCompletedTasks Samples.tuesday
                         (snd (updateTask Samples.monday Samples.world "b"
                                          (flip Samples.taskB))) = Ok l2
    /\ Forall (fun r => id r <> "b") l1
    /\ In (rewritten Samples.monday (flip Samples.taskB) Samples.taskB) l2.
Proof.
  exact (completed_task_moves_to_the_completed_list
           Samples.monday Samples.tuesday Samples.tuesday Samples.world "b"
           (flip Samples.taskB) _ _ eq_refl eq_refl eq_refl eq_refl).
Defined.

(** X10.  Once deleteTask has resolved, no list query of that session
    returns a task of the deleted id. *)
Theorem deleted_task_is_not_listed :
  forall (e e' : Env) (w : World) (target : string) (w' : World),
    deleteTask e w target = (Ok tt, w') ->
    (forall l, getAllTasks e' w' = Ok l -> Forall (fun r => id r <> target) l)
    /\ (forall l, getTasks e' w' = Ok l -> Forall (fun r => id r <> target) l)
    /\ (forall l, getCompletedTasks e' w' = Ok l ->
                  Forall (fun r => id r <> target) l)
    /\ (forall l d, getTasksByDate e' w' d = Ok l ->
                    Forall (fun r => id r <> target) l).
Proof.
  intros e e' w target w' H.
  assert (forall keep le l,
             rows_or_throw (select_where keep le e' w') = Ok l ->
             Forall (fun r => id r <> target) l) as Gone.
  { intros keep le l Hl. apply select_where_returns in Hl.
    rewrite Forall_forall. intros r Hr E.
    apply (Permutation_in _ Hl) in Hr. apply filter_In in Hr.
    destruct Hr as [Hr Keep]. apply andb_true_iff in Keep.
    destruct Keep as [V _].
    revert H Hr V. unfold deleteTask, delete_eq_id.
    destruct (fault e); [discriminate|]. intros [= <-]. simpl.
    intros Hr V. apply filter_In in Hr. destruct Hr as [_ Hr].
    unfold visible in V. simpl in V.
    rewrite V, E, String.eqb_refl in Hr. discriminate. }
  split; [|split; [|split]].
  - intros l Hl. unfold getAllTasks in Hl. exact (Gone _ _ _ Hl).
  - intros l Hl. rewrite getTasks_as_select in Hl. exact (Gone _ _ _ Hl).
  - intros l Hl. unfold getCompletedTasks in Hl. exact (Gone _ _ _ Hl).
  - intros l d Hl. unfold getTasksByDate in Hl. exact (Gone _ _ _ Hl).
Qed.

Lemma deleted_task_is_not_listed_sample :
  (forall l,
      getAllTasks Samples.tuesday
                  (snd (deleteTask Samples.monday Samples.world "b")) = Ok l ->
      Forall (fun r => id r <> "b") l)
  /\ (forall l,
        getTasks Samples.tuesday
                 (snd (deleteTask Samples.monday Samples.world "b")) = Ok l ->
        Forall (fun r => id r <> "b") l)
  /\ (forall l,
        getCompletedTasks Samples.tuesday
                          (snd (deleteTask Samples.monday Samples.world "b"))
        = Ok l ->
        Forall (fun r => id r <> "b") l)
  /\ (forall l d,
        getTasksByDate Samples.tuesday
                       (snd (deleteTask Samples.monday Samples.world "b")) d
        = Ok l ->
        Forall (fun r => id r <> "b") l).
Proof.
  exact (deleted_task_is_not_listed
           Samples.monday Samples.tuesday Samples.world "b" _ eq_refl).
Defined.

(** *** The connection test *)

Lemma fresh_id_rows x (p : Task -> bool) (g : Task -> Task) l :
  existsb (fun t => String.eqb (id t) x) l = false ->
  filter (fun t => String.eqb (id t) x && p t) l = []
  /\ map (fun r => if String.eqb (id r) x && p r then g r else r) l = l
  /\ filter (fun t => negb (String.eqb (id t) x && p t)) l = l.
Proof.
  induction l as [|y l IH]; simpl; auto.
  rewrite orb_false_iff. intros [N R]. rewrite N; simpl.
  destruct (IH R) as (-> & -> & ->). auto.
Qed.

(** X11.  testSupabaseConnection leaves the table as it found it whenever it
    reports success, and also when it stops before or at the insert; the
    only trace it can leave is its own test row, appended as the caller's,
    and only when a delete request failed.  With a session, an unused id and
    every request answered, it reports success.  Signed out, it reports
    "User not authenticated: Auth session missing!" and writes nothing. *)
Theorem connection_test_cleans_up :
  forall (te : TestEnv) (w : World),
    (success (fst (testSupabaseConnection te w)) = true ->
     tasks (snd (testSupabaseConnection te w)) = tasks w)
    /\ (tasks (snd (testSupabaseConnection te w)) = tasks w
        \/ exists row,
            tasks (snd (testSupabaseConnection te w)) = (tasks w ++ [row])%list
            /\ visible w row = true
            /\ id row = new_uuid (at_insert te)
            /\ (title row = "Test Connection Task"
                \/ title row = "Updated Test Task")
            /\ success (fst (testSupabaseConnection te w)) = false
            /\ (fault (at_cleanup te) <> None \/ fault (at_delete te) <> None))
    /\ auth_uid (snd (testSupabaseConnection te w)) = auth_uid w
    /\ (forall u,
          all_answer te -> auth_uid w = Some u ->
          existsb (fun t => String.eqb (id t) (new_uuid (at_insert te)))
                  (tasks w) = false ->
          fst (testSupabaseConnection te w)
          = mkTestResult true "All database operations are working correctly!"
                         None)
    /\ (fault (at_read te) = None -> auth_fault (at_getUser te) = None ->
        auth_uid w = None ->
        testSupabaseConnection te w
        = (mkTestResult false "User not authenticated: Auth session missing!"
                        (Some auth_session_missing),
           w)).
Proof.
  intros te w.
  unfold testSupabaseConnection, select_id_limit_1, all_answer.
  destruct (fault (at_read te)) as [err|] eqn:FR.
  { simpl. repeat split; auto; try discriminate.
    intros u (F & _). discriminate F. }
  unfold auth_getUser.
  destruct (auth_fault (at_getUser te)) as [err|] eqn:FU.
  { simpl. repeat split; auto; try discriminate.
    intros u (_ & F & _). discriminate F. }
  destruct (auth_uid w) as [u|] eqn:U.
  2:{ simpl. repeat split; auto; discriminate. }
  unfold insert_single.
  destruct (fault (at_insert te)) as [err|] eqn:FI.
  { simpl. repeat split; auto; try discriminate.
    intros u' (_ & _ & F & _). discriminate F. }
  rewrite U. cbn [owned_by user_id negb]. rewrite String.eqb_refl.
  cbn [negb].
  destruct (existsb _ (tasks w)) eqn:X.
  { simpl. repeat split; auto; try discriminate. }
  cbn [id].
  set (row := mkTask (new_uuid (at_insert te)) u "Test Connection Task"
                (Some "This is a test task to verify database connection")
                Low (split_T_0 (client_now (at_insert te))) false None
                (server_now (at_insert te)) (server_now (at_insert te))).
  assert (visible w row = true) as Vrow
      by (unfold visible, owned_by; rewrite U; simpl; apply String.eqb_refl).
  unfold update_single.
  destruct (fault (at_update te)) as [err|] eqn:FUp.
  { (* the update fails: clean up *)
    unfold delete_eq_id.
    destruct (fault (at_cleanup te)) as [err'|] eqn:FC; simpl.
    - split; [discriminate|]. split; [|split; [auto|split]].
      + right. exists row. repeat split; auto. left. discriminate.
      + intros u' (_ & _ & _ & F & _). discriminate F.
      + discriminate.
    - destruct (fresh_id_rows (new_uuid (at_insert te))
                  (fun t => String.eqb u (user_id t)) (fun r => r)
                  (tasks w) X)
        as (_ & _ & Keep).
      rewrite filter_app, Keep; simpl.
      rewrite !String.eqb_refl; simpl.
      rewrite app_nil_r.
      split; [discriminate|]. split; [auto|]. split; [auto|]. split.
      + intros u' (_ & _ & _ & F & _). discriminate F.
      + discriminate. }
  cbn [auth_uid tasks owned_by].
  destruct (fresh_id_rows (new_uuid (at_insert te))
              (fun t => String.eqb u (user_id t))
              (fun r => update_updated_at_column (at_update te)
                          (set_columns
                             (mkUpdateData (Some "Updated Test Task")
                                           None None None None None None) r))
              (tasks w) X) as (Nothing & Same & Keep).
  rewrite filter_app, Nothing. subst row. cbn [filter app id user_id].
  rewrite !String.eqb_refl. cbn [andb].
  rewrite map_app, Same. cbn [map id user_id].
  rewrite !String.eqb_refl. cbn [andb].
  unfold delete_eq_id.
  destruct (fault (at_delete te)) as [err|] eqn:FD.
  - cbn [fst snd success auth_uid tasks].
    split; [discriminate|]. split; [|split; [auto|split]].
    + right. eexists. split; [reflexivity|]. repeat split; auto.
      right. discriminate.
    + intros u' (_ & _ & _ & _ & F). discriminate F.
    + discriminate.
  - cbn [fst snd success auth_uid tasks owned_by].
    rewrite filter_app, Keep.
    cbn [filter id user_id set_columns update_updated_at_column].
    rewrite !String.eqb_refl. cbn [andb negb]. rewrite app_nil_r.
    repeat split; auto. discriminate.
Qed.

Lemma connection_test_cleans_up_sample :
  fst (testSupabaseConnection
         (mkTestEnv Samples.monday Samples.monday Samples.monday
                    Samples.tuesday Samples.tuesday Samples.tuesday)
         Samples.world)
  = mkTestResult true "All database operations are working correctly!" None
  /\ tasks (snd (testSupabaseConnection
                   (mkTestEnv Samples.monday Samples.monday Samples.monday
                              Samples.tuesday Samples.tuesday Samples.tuesday)
                   Samples.world))
     = tasks Samples.world.
Proof.
  split.
  - apply (proj1 (proj2 (proj2 (proj2
             (connection_test_cleans_up
                (mkTestEnv Samples.monday Samples.monday Samples.monday
                           Samples.tuesday Samples.tuesday Samples.tuesday)
                Samples.world))))
             Samples.alice);
      repeat split.
  - apply (proj1 (connection_test_cleans_up
                    (mkTestEnv Samples.monday Samples.monday Samples.monday
                               Samples.tuesday Samples.tuesday Samples.tuesday)
                    Samples.world)).
    reflexivity.
Defined.

End TaskStoreMore.

(* ================================================================== *)
(** ** Properties of the profile writes and the setup page *)
(* ================================================================== *)

Module ProfileWriteProps.

Import Profiles ProfileWrites.

(** *** [trim] *)

Lemma trimEnd_idempotent s : trimEnd (trimEnd s) = trimEnd s.
Proof.
  induction s as [|c s IH]; simpl; auto.
  destruct (trimEnd s) as [|d r] eqn:T.
  - destruct (is_white_space c) eqn:W; simpl; auto. now rewrite W.
  - simpl in *. now rewrite IH.
Qed.

Lemma trimStart_starts_clean s : starts_clean (trimStart s).
Proof.
  induction s as [|c s IH]; simpl; auto.
  destruct (is_white_space c) eqn:W; simpl; auto.
Qed.

Lemma trimStart_of_clean s : starts_clean s -> trimStart s = s.
Proof. destruct s as [|c s]; simpl; auto. now intros ->. Qed.

Lemma trimEnd_starts_clean s : starts_clean s -> starts_clean (trimEnd s).
Proof.
  destruct s as [|c s]; simpl; auto. intros W.
  destruct (trimEnd s); simpl; auto. now rewrite W.
Qed.

Lemma trim_idempotent s : trim (trim s) = trim s.
Proof.
  unfold trim.
  rewrite (trimStart_of_clean (trimEnd (trimStart s))).
  - apply trimEnd_idempotent.
  - apply trimEnd_starts_clean, trimStart_starts_clean.
Qed.

(** *** [upsertProfile] *)

Lemma filter_replace_single {A} (f : A -> bool) (row : A) (l : list A) old :
  filter f l = [old] -> f row = true ->
  filter f (map (fun p => if f p then row else p) l) = [row].
Proof.
  intros F R. revert old F.
  induction l as [|x l IH]; simpl; [discriminate|]. intros old.
  destruct (f x) eqn:X; simpl.
  - rewrite R. intros [= _ F]. f_equal.
    clear IH. induction l as [|y l IHl]; simpl in *; auto.
    destruct (f y) eqn:Y; [discriminate|]. simpl. rewrite Y. now apply IHl.
  - rewrite X. apply IH.
Qed.

Lemma filter_append_single {A} (f : A -> bool) (row : A) (l : list A) :
  filter f l = [] -> f row = true -> filter f (l ++ [row]) = [row].
Proof. intros F R. rewrite filter_app, F. simpl. now rewrite R. Qed.

Lemma getProfile_reads s u p :
  auth_uid s = Some u ->
  filter (fun q => String.eqb (user_id q) u) (profiles s) = [p] ->
  getProfile (reads s) = Ok (Some p).
Proof.
  intros U F. unfold reads. rewrite U.
  apply (proj2 (ProfileProps.getProfile_of_a_healthy_backend u (profiles s))).
  rewrite <- F. apply filter_ext. intros q. rewrite (String.eqb_sym u).
  now destruct (String.eqb (user_id q) u).
Qed.

(** What [upsertProfile] does, case by case: it throws and writes nothing,
    it inserts, or it overwrites the one row of the user. *)
Lemma upsertProfile_cases e s fullName avatarId :
  (exists err, upsertProfile e s fullName avatarId = (Throw err, s))
  \/ (exists u,
        auth_uid s = Some u
        /\ filter (fun p => String.eqb (user_id p) u) (profiles s) = []
        /\ let row :=
             mkProfile (Tasks.new_uuid e) u (trim fullName)
                       (Some (avatar_or_1 avatarId)) (Tasks.server_now e)
                       (Tasks.client_now e) in
           upsertProfile e s fullName avatarId
           = (Ok row, mkStore (auth_uid s) (profiles s ++ [row])))
  \/ (exists u old,
        auth_uid s = Some u
        /\ filter (fun p => String.eqb (user_id p) u) (profiles s) = [old]
        /\ let row :=
             mkProfile (id old) (user_id old) (trim fullName)
                       (Some (avatar_or_1 avatarId)) (created_at old)
                       (Tasks.server_now e) in
           upsertProfile e s fullName avatarId
           = (Ok row,
              mkStore (auth_uid s)
                      (map (fun p => if String.eqb (user_id p) u
                                     then row else p)
                           (profiles s)))).
Proof.
  unfold upsertProfile, auth_getUser.
  destruct (Tasks.auth_fault e) as [err|]; [left; eauto|].
  destruct (auth_uid s) as [u|] eqn:U; [|left; eauto].
  unfold upsert_single.
  destruct (Tasks.fault e) as [err|]; [left; eauto|].
  rewrite U. cbn [d_user_id d_full_name d_avatar_id d_updated_at].
  rewrite String.eqb_refl. cbn [negb].
  destruct (filter _ (profiles s)) as [|old [|old' l]] eqn:F.
  - destruct (existsb _ (profiles s)); [left; eauto|].
    right; left. exists u. auto.
  - right; right. exists u, old. auto.
  - left; eauto.
Qed.

(** X12.  A profile upsertProfile returns is the caller's: it carries the
    session's user id, the trimmed name and the avatar (1 when none or 0 was
    given); a getProfile that follows and goes through returns exactly it, and
    hasProfile is true.  The other users' profiles stay, and a table with at
    most one profile per user still has at most one per user: a user's second
    upsert overwrites the first, keeping its id and creation time. *)
Theorem upsertProfile_then_getProfile :
  forall (e : Tasks.Env) (s : Store) (fullName : string)
         (avatarId : option nat) (p : Profile) (s' : Store),
    upsertProfile e s fullName avatarId = (Ok p, s') ->
    getProfile (reads s') = Ok (Some p)
    /\ hasProfile (reads s') = Ok true
    /\ auth_uid s = Some (user_id p) /\ auth_uid s' = auth_uid s
    /\ full_name p = trim fullName
    /\ avatar_id p = Some (avatar_or_1 avatarId)
    /\ (forall q, In q (profiles s) -> user_id q <> user_id p ->
                  In q (profiles s'))
    /\ (one_profile_per_user s -> one_profile_per_user s')
    /\ (forall old, In old (profiles s) -> user_id old = user_id p ->
                    length (profiles s') = length (profiles s)
                    /\ id p = id old /\ created_at p = created_at old).
Proof.
  intros e s fullName avatarId p s' H.
  destruct (upsertProfile_cases e s fullName avatarId)
    as [(err & E) | [(u & U & F & E) | (u & old & U & F & E)]];
    rewrite E in H; [discriminate| |]; injection H as <- <-.
  - (* inserted *)
    match goal with
    | |- getProfile (reads ?S) = Ok (Some ?R) /\ _ =>
        assert (getProfile (reads S) = Ok (Some R)) as G
    end.
    { apply (getProfile_reads _ u); [exact U|].
      apply filter_append_single; [exact F|]. simpl. apply String.eqb_refl. }
    split; [exact G|]. split; [unfold hasProfile; now rewrite G|].
    simpl.
    split; [exact U|]. do 3 (split; [reflexivity|]).
    split; [|split].
    + intros q Hq _. apply in_or_app. now left.
    + unfold one_profile_per_user; simpl. intros ND.
      rewrite map_app; simpl.
      apply Permutation_NoDup with (l := u :: map user_id (profiles s)).
      * apply Permutation_cons_append.
      * constructor; auto. intros Hin.
        apply in_map_iff in Hin. destruct Hin as (q & Eq & Hq).
        assert (In q (filter (fun p => String.eqb (user_id p) u) (profiles s)))
          as Hf by (apply filter_In; split; auto; rewrite Eq;
                    apply String.eqb_refl).
        rewrite F in Hf. destruct Hf.
    + intros old Hold Eq. exfalso.
      assert (In old (filter (fun p => String.eqb (user_id p) u) (profiles s)))
        as Hf by (apply filter_In; split; auto; rewrite Eq;
                  apply String.eqb_refl).
      rewrite F in Hf. destruct Hf.
  - (* overwritten *)
    assert (In old [old]) as Hold by now left.
    rewrite <- F in Hold. apply filter_In in Hold.
    destruct Hold as [Hold Uold]. apply String.eqb_eq in Uold.
    set (row := mkProfile (id old) (user_id old) (trim fullName)
                  (Some (avatar_or_1 avatarId)) (created_at old)
                  (Tasks.server_now e)).
    assert (getProfile (reads
              (mkStore (auth_uid s)
                 (map (fun p => if String.eqb (user_id p) u then row else p)
                      (profiles s))))
            = Ok (Some row)) as G.
    { apply (getProfile_reads _ u); [exact U|].
      apply (filter_replace_single _ row (profiles s) old F).
      simpl. rewrite Uold. apply String.eqb_refl. }
    split; [exact G|]. split; [unfold hasProfile; now rewrite G|].
    simpl.
    split; [now rewrite Uold|]. do 3 (split; [reflexivity|]).
    split; [|split].
    + intros q Hq N. apply in_map_iff. exists q. split; [|exact Hq].
      rewrite Uold in N. apply String.eqb_neq in N. now rewrite N.
    + unfold one_profile_per_user; simpl. intros ND.
      rewrite map_map.
      erewrite map_ext; [exact ND|].
      intros q. simpl.
      destruct (String.eqb_spec (user_id q) u) as [Eq|_]; simpl; congruence.
    + intros old0 Hold0 Eq.
      assert (In old0 (filter (fun p => String.eqb (user_id p) u) (profiles s)))
        as Hf by (apply filter_In; split; auto; rewrite Eq, Uold;
                  apply String.eqb_refl).
      rewrite F in Hf. destruct Hf as [<- | []].
      split; [apply length_map | split; reflexivity].
Qed.

Lemma upsertProfile_overwrites_on_sample :
  upsertProfile Samples.monday MoreSamples.alice_store "  Alice Liddell "
                (Some 0)
  = (Ok (mkProfile "p1" Samples.alice "Alice Liddell" (Some 1)
                   "2023-12-01T10:00:00.000Z" "2024-01-08T10:00:00.120Z"),
     mkStore (Some Samples.alice)
             [mkProfile "p1" Samples.alice "Alice Liddell" (Some 1)
                        "2023-12-01T10:00:00.000Z" "2024-01-08T10:00:00.120Z"]).
Proof. reflexivity. Qed.

Lemma upsertProfile_then_getProfile_sample :
  getProfile (reads (snd (upsertProfile Samples.monday MoreSamples.alice_store
                            "  Alice Liddell " (Some 0))))
  = Ok (Some (mkProfile "p1" Samples.alice "Alice Liddell" (Some 1)
                        "2023-12-01T10:00:00.000Z" "2024-01-08T10:00:00.120Z"))
  /\ hasProfile (reads (snd (upsertProfile Samples.monday
                               MoreSamples.alice_store
                               "  Alice Liddell " (Some 0))))
     = Ok true
  /\ Some Samples.alice = Some Samples.alice
  /\ Some Samples.alice = Some Samples.alice
  /\ "Alice Liddell" = trim "  Alice Liddell "
  /\ Some 1 = Some (avatar_or_1 (Some 0))
  /\ (forall q, In q (profiles MoreSamples.alice_store) ->
                user_id q <> Samples.alice ->
                In q (profiles (snd (upsertProfile Samples.monday
                                       MoreSamples.alice_store
                                       "  Alice Liddell " (Some 0)))))
  /\ (one_profile_per_user MoreSamples.alice_store ->
      one_profile_per_user (snd (upsertProfile Samples.monday
                                   MoreSamples.alice_store
                                   "  Alice Liddell " (Some 0))))
  /\ (forall old, In old (profiles MoreSamples.alice_store) ->
                  user_id old = Samples.alice ->
                  1 = length (profiles MoreSamples.alice_store)
                  /\ "p1" = id old
                  /\ "2023-12-01T10:00:00.000Z" = created_at old).
Proof.
  exact (upsertProfile_then_getProfile
           Samples.monday MoreSamples.alice_store "  Alice Liddell " (Some 0)
           _ _ eq_refl).
Defined.

Lemma at_most_one_conflict u l :
  NoDup (map user_id l) ->
  filter (fun p => String.eqb (user_id p) u) l = []
  \/ exists old, filter (fun p => String.eqb (user_id p) u) l = [old].
Proof.
  induction l as [|x l IH]; simpl; auto.
  intros ND. inversion ND as [|? ? Hx ND']; subst.
  destruct (String.eqb_spec (user_id x) u) as [E|_]; [|auto].
  right. exists x. f_equal.
  apply TaskStoreProps.filter_nothing. intros y Hy.
  apply String.eqb_neq. intros Ey. apply Hx. rewrite E, <- Ey.
  now apply in_map.
Qed.

(** X13.  upsertProfile writes nothing when it throws.  Signed out it throws
    "User not authenticated"; when the request fails it throws "Failed to
    save profile: <message>".  Signed in, with the backend answering, at most
    one profile per user in the table and an unused id at hand, it returns a
    profile. *)
Theorem upsertProfile_fails_without_writing :
  forall (e : Tasks.Env) (s : Store) (fullName : string)
         (avatarId : option nat),
    (forall err s',
        upsertProfile e s fullName avatarId = (Throw err, s') -> s' = s)
    /\ (auth_uid s = None ->
        upsertProfile e s fullName avatarId
        = (Throw (new_Error "User not authenticated"), s))
    /\ (forall u err,
          auth_uid s = Some u -> Tasks.auth_fault e = None ->
          Tasks.fault e = Some err ->
          upsertProfile e s fullName avatarId
          = (Throw (new_Error ("Failed to save profile: " ++ message_text err)),
             s))
    /\ (forall u,
          auth_uid s = Some u -> Tasks.auth_fault e = None ->
          Tasks.fault e = None -> one_profile_per_user s ->
          existsb (fun p => String.eqb (id p) (Tasks.new_uuid e)) (profiles s)
          = false ->
          exists p s', upsertProfile e s fullName avatarId = (Ok p, s')).
Proof.
  intros e s fullName avatarId. split; [|split; [|split]].
  - intros err s' H.
    destruct (upsertProfile_cases e s fullName avatarId)
      as [(err' & E) | [(u & _ & _ & E) | (u & old & _ & _ & E)]];
      rewrite E in H; try discriminate.
    now injection H.
  - intros U. unfold upsertProfile, auth_getUser. rewrite U.
    now destruct (Tasks.auth_fault e).
  - intros u err U AF F. unfold upsertProfile, auth_getUser, upsert_single.
    now rewrite AF, U, F.
  - intros u U AF F ND X.
    unfold upsertProfile, auth_getUser, upsert_single.
    rewrite AF, U, F. cbn [d_user_id]. rewrite String.eqb_refl. cbn [negb].
    destruct (at_most_one_conflict u (profiles s) ND) as [-> | (old & ->)].
    + rewrite X. eauto.
    + eauto.
Qed.

Lemma upsertProfile_fails_without_writing_sample :
  upsertProfile Samples.monday MoreSamples.nobody_store "Carol" None
  = (Throw (new_Error "User not authenticated"), MoreSamples.nobody_store)
  /\ upsertProfile Samples.offline MoreSamples.bob_store "Bob" None
     = (Throw (new_Error "Failed to save profile: TypeError: Failed to fetch"),
        MoreSamples.bob_store)
  /\ exists p s',
      upsertProfile Samples.monday MoreSamples.bob_store "Bob" None = (Ok p, s').
Proof.
  split; [|split].
  - apply (proj1 (proj2 (upsertProfile_fails_without_writing
                           Samples.monday MoreSamples.nobody_store "Carol" None))).
    reflexivity.
  - apply (proj1 (proj2 (proj2 (upsertProfile_fails_without_writing
                                  Samples.offline MoreSamples.bob_store
                                  "Bob" None)))
             Samples.bob Samples.failed_to_fetch); reflexivity.
  - apply (proj2 (proj2 (proj2 (upsertProfile_fails_without_writing
                                  Samples.monday MoreSamples.bob_store
                                  "Bob" None)))
             Samples.bob); try reflexivity.
    unfold one_profile_per_user; simpl. repeat constructor. simpl. tauto.
Defined.

(** *** The setup page *)

Import SetupProfilePage.





(** The page on the samples: one letter is turned away, "Bob Builder" is
    stored without the blanks around it. *)
Lemma setup_page_on_samples :
  error (handleNameSubmit MoreSamples.typed_b)
  = Some "Name must be at least 2 characters"
  /\ step (handleNameSubmit MoreSamples.typed_b) = NameStep
  /\ step (handleNameSubmit MoreSamples.typed_bob) = AvatarStep
  /\ map full_name
         (profiles (snd (handleFinalSubmit Samples.monday
                           (handleNameSubmit MoreSamples.typed_bob)
                           MoreSamples.bob_store)))
     = ["Alice"; "Bob Builder"]
  /\ navigation (fst (handleFinalSubmit Samples.monday
                        (handleNameSubmit MoreSamples.typed_bob)
                        MoreSamples.bob_store))
     = [Push App; Refresh].
Proof. repeat split. Qed.

End ProfileWriteProps.

(* ================================================================== *)
(** ** More properties of the route POST /api/ai *)
(* ================================================================== *)

Module AiRouteMore.

Import AiRoute.

(** The route before a user is named, and for a user without the key. *)
Lemma POST_without_user srv req :
  getServerUser srv req = Ok None -> POST srv req = unauthorized.
Proof. intros U. unfold POST. now rewrite U. Qed.

Lemma POST_without_key srv req user :
  getServerUser srv req = Ok (Some user) ->
  truthy_string (OPENAI_API_KEY srv) = false ->
  POST srv req
  = json 500 (ErrorPayload "Server configuration error. Please contact support.").
Proof.
  intros U K. unfold POST. rewrite U. cbv beta iota delta [bind]. now rewrite K.
Qed.

Lemma getServerUser_resolves srv req :
  exists r, getServerUser srv req = Ok r.
Proof. rewrite AiRouteProps.getServerUser_closed_form. eauto. Qed.

(** X15.  The route answers 200 only to a request with a Bearer header the
    auth provider accepts, on a deployment with its Supabase variables and
    its OpenAI key set, whose message is a string that is not blank, when the
    upstream returned a non-empty text; the body is then that text.  Every
    other answer is 400, 401 or 500 and carries an error message. *)
Theorem POST_answers_200_only_with_the_upstream_reply :
  forall (srv : Server) (req : Request),
    (status (POST srv req) = 200 ->
     exists message reply,
       valid_bearer_token srv req = true
       /\ supabase_configured srv = true
       /\ truthy_string (OPENAI_API_KEY srv) = true
       /\ body req = WithMessage (Str message)
       /\ String.length (trim message) <> 0
       /\ chat_completions_create srv = Returns (Some reply)
       /\ String.length reply <> 0
       /\ POST srv req = json 200 (ReplyPayload reply))
    /\ (status (POST srv req) = 200 \/ status (POST srv req) = 400
        \/ status (POST srv req) = 401 \/ status (POST srv req) = 500)
    /\ (status (POST srv req) = 200
        \/ exists text, payload (POST srv req) = ErrorPayload text).
Proof.
  intros srv req.
  destruct (getServerUser srv req) as [[user|]|err] eqn:U.
  2:{ rewrite (POST_without_user srv req U). simpl.
      split; [discriminate|]. split; [auto|]. right. eauto. }
  2:{ destruct (getServerUser_resolves srv req) as (r & E).
      rewrite E in U. discriminate. }
  destruct (truthy_string (OPENAI_API_KEY srv)) eqn:K.
  2:{ rewrite (POST_without_key srv req user U K). simpl.
      split; [discriminate|]. split; [auto|]. right. eauto. }
  assert (valid_bearer_token srv req = true /\ supabase_configured srv = true)
    as [V C].
  { revert U. rewrite AiRouteProps.getServerUser_closed_form.
    unfold valid_bearer_token, provider_accepts.
    destruct (authorization req) as [h|]; [|discriminate].
    destruct (startsWith "Bearer " h); [|discriminate].
    destruct (supabase_configured srv); [|discriminate]. simpl.
    destruct (auth_getUser srv h) as [[[u|] [e|]]|e]; try discriminate. auto. }
  rewrite (AiRouteProps.POST_of_user srv req user U K).
  destruct (body req) as [| |message] eqn:B;
    try (simpl; split; [discriminate|]; split; [auto|]; right; eauto).
  destruct (falsy message || not_a_string message || blank message) eqn:M.
  { simpl. split; [discriminate|]. split; [auto|]. right. eauto. }
  destruct (select_tasks srv user);
    [|simpl; split; [discriminate|]; split; [auto|]; right; eauto].
  destruct (chat_completions_create srv) as [aiReply|e] eqn:R;
    [|simpl; split; [discriminate|]; split; [auto|]; right; eauto].
  destruct (truthy_string aiReply) eqn:T; simpl;
    [|split; [discriminate|]; split; [auto|]; right; eauto].
  split; [|split; auto].
  intros _.
  destruct message as [| |b|n|m|];
    try (exfalso; clear - M;
         repeat match goal with x : bool |- _ => destruct x end;
         discriminate M).
  destruct aiReply as [[|c reply]|]; try discriminate T.
  exists m, (String c reply). repeat split; auto.
  - apply orb_false_iff in M. destruct M as [_ M]. simpl in M.
    now apply Nat.eqb_neq.
  - discriminate.
Qed.

(** X16.  For a caller the route has authenticated, two failures come before
    the message is looked at: without the OpenAI key the answer is 500
    "Server configuration error", whatever the body; with the key, a body
    that is not JSON, or is the JSON [null], gets the generic 500, not 400. *)
Theorem POST_500_before_validation :
  forall (srv : Server) (req : Request),
    valid_bearer_token srv req = true ->
    supabase_configured srv = true ->
    (truthy_string (OPENAI_API_KEY srv) = false ->
     POST srv req
     = json 500 (ErrorPayload
                   "Server configuration error. Please contact support."))
    /\ (truthy_string (OPENAI_API_KEY srv) = true ->
        body req = Malformed \/ body req = JsonNull ->
        POST srv req = generic_failure).
Proof.
  intros srv req V C.
  destruct (AiRouteProps.valid_token_names_user srv req V C) as [user U].
  split.
  - intros K. exact (POST_without_key srv req user U K).
  - intros K B. rewrite (AiRouteProps.POST_of_user srv req user U K).
    destruct B as [-> | ->]; reflexivity.
Qed.

Lemma POST_500_before_validation_sample :
  POST Samples.server_without_key Samples.ask
  = json 500 (ErrorPayload "Server configuration error. Please contact support.")
  /\ POST Samples.server
          (mkRequest (Some "Bearer alice-token") Malformed)
     = generic_failure.
Proof.
  split.
  - apply (proj1 (POST_500_before_validation
                    Samples.server_without_key Samples.ask eq_refl eq_refl)).
    reflexivity.
  - apply (proj2 (POST_500_before_validation
                    Samples.server
                    (mkRequest (Some "Bearer alice-token") Malformed)
                    eq_refl eq_refl)).
    + reflexivity.
    + now left.
Defined.

(** X17.  getServerUser never throws.  The user it returns is the one the
    auth provider names, without error, for the request's own Authorization
    header; that header starts with "Bearer " and the deployment has both
    Supabase variables.  In every other case, a provider that throws
    included, it returns null. *)
Theorem getServerUser_returns_the_providers_user :
  forall (srv : Server) (req : Request),
    (exists r, getServerUser srv req = Ok r)
    /\ (forall user,
          getServerUser srv req = Ok (Some user) ->
          exists header,
            authorization req = Some header
            /\ startsWith "Bearer " header = true
            /\ supabase_configured srv = true
            /\ auth_getUser srv header = Returns (Some user, None))
    /\ (forall header user,
          authorization req = Some header ->
          startsWith "Bearer " header = true ->
          supabase_configured srv = true ->
          auth_getUser srv header = Returns (Some user, None) ->
          getServerUser srv req = Ok (Some user)).
Proof.
  intros srv req. split; [apply getServerUser_resolves|].
  rewrite AiRouteProps.getServerUser_closed_form. split.
  - intros user.
    destruct (authorization req) as [h|]; [|discriminate].
    destruct (startsWith "Bearer " h) eqn:B; [|discriminate].
    destruct (supabase_configured srv); [|discriminate]. simpl.
    destruct (auth_getUser srv h) as [[[u|] [e|]]|e] eqn:A; try discriminate.
    intros [= ->]. exists h. repeat split; auto.
  - intros h user -> -> -> ->. reflexivity.
Qed.

(** Every answer of the route: the upstream's non-empty reply with 200, or
    one of five fixed error responses, the 400 only for an empty message. *)
Lemma POST_cases (srv : Server) (req : Request) :
  (exists c reply,
      chat_completions_create srv = Returns (Some (String c reply))
      /\ POST srv req = json 200 (ReplyPayload (String c reply)))
  \/ POST srv req = unauthorized
  \/ POST srv req
     = json 500 (ErrorPayload
                   "Server configuration error. Please contact support.")
  \/ (POST srv req = message_required /\ empty_message req = true)
  \/ POST srv req = generic_failure
  \/ POST srv req = json 500 (ErrorPayload "Failed to get response from AI").
Proof.
  destruct (getServerUser srv req) as [[user|]|err] eqn:U.
  2:{ right; left. exact (POST_without_user srv req U). }
  2:{ destruct (getServerUser_resolves srv req) as (r & E).
      rewrite E in U. discriminate. }
  destruct (truthy_string (OPENAI_API_KEY srv)) eqn:K.
  2:{ right; right; left. exact (POST_without_key srv req user U K). }
  rewrite (AiRouteProps.POST_of_user srv req user U K). unfold empty_message.
  destruct (body req) as [| |message]; try (do 4 right; left; reflexivity).
  destruct (falsy message || not_a_string message || blank message).
  { do 3 right; left. auto. }
  destruct (select_tasks srv user); [|do 4 right; left; reflexivity].
  destruct (chat_completions_create srv) as [[[|c reply]|]|e];
    try (do 5 right; reflexivity); try (do 4 right; left; reflexivity).
  left. exists c, reply. auto.
Qed.

End AiRouteMore.

(* ================================================================== *)
(** ** Properties of the chat panel *)
(* ================================================================== *)

Module AiChatProps.

Import AiChat.

(** X18.  A message sent from the chat to the route of this repository: the
    panel adds the trimmed question and exactly one answer, clears the input
    and stops loading.  The answer is the upstream's reply, or "Error: "
    followed by one of four fixed texts of the route; the route's 400 text
    never shows, since the panel does not send a blank message, and no text
    of an upstream failure does either. *)
Theorem chat_shows_the_reply_or_a_fixed_error :
  forall (srv : AiRoute.Server) (token : string) (t1 t2 t3 t4 : nat)
         (st : State),
    String.length (trim (input st)) <> 0 ->
    isLoading st = false ->
    exists text,
      sendMessage (talking_to srv token t1 t2 t3 t4) st
      = mkState (messages st
                 ++ [mkMessage (toString t1) User (trim (input st)) t2;
                     mkMessage (toString (t3 + 1)) Ai text t4])
                EmptyString false
      /\ ((exists reply,
              AiRoute.chat_completions_create srv = Returns (Some reply)
              /\ text = reply)
          \/ text = "Error: Unauthorized. Please log in."
          \/ text = "Error: Server configuration error. Please contact support."
          \/ text = "Error: An error occurred while processing your request. Please try again."
          \/ text = "Error: Failed to get response from AI").
Proof.
  intros srv token t1 t2 t3 t4 st N L.
  unfold sendMessage. rewrite L.
  apply Nat.eqb_neq in N. rewrite N. cbn [orb].
  unfold answer, exchange, talking_to.
  cbn [getSession fetch_api_ai now_id_sent now_sent now_id_answered
       now_answered await bind access_token].
  unfold served_by.
  destruct (AiRouteMore.POST_cases srv
              (AiRoute.mkRequest (Some ("Bearer " ++ token))
                 (AiRoute.WithMessage (AiRoute.Str (trim (input st))))))
    as [(c & reply & R & ->) | [-> | [-> | [(-> & E) | [-> | ->]]]]].
  - eexists. split; [reflexivity|]. left. exists (String c reply). auto.
  - eexists. split; [reflexivity|]. right; left. reflexivity.
  - eexists. split; [reflexivity|]. right; right; left. reflexivity.
  - exfalso. unfold AiRoute.empty_message in E. simpl in E.
    rewrite N in E. simpl in E.
    rewrite ProfileWriteProps.trim_idempotent, N in E. discriminate.
  - eexists. split; [reflexivity|]. right; right; right; left. reflexivity.
  - eexists. split; [reflexivity|]. right; right; right; right. reflexivity.
Qed.

Lemma chat_shows_the_reply_or_a_fixed_error_sample :
  exists text,
    sendMessage (ChatSamples.alice_chat Samples.server_upstream_down)
                ChatSamples.typing
    = mkState [mkMessage "1000" User "What is due today?" 1001;
               mkMessage "3001" Ai text 3001]
              EmptyString false
    /\ ((exists reply,
            AiRoute.chat_completions_create Samples.server_upstream_down
            = Returns (Some reply)
            /\ text = reply)
        \/ text = "Error: Unauthorized. Please log in."
        \/ text = "Error: Server configuration error. Please contact support."
        \/ text = "Error: An error occurred while processing your request. Please try again."
        \/ text = "Error: Failed to get response from AI").
Proof.
  apply (chat_shows_the_reply_or_a_fixed_error
           Samples.server_upstream_down "alice-token" 1000 1001 3000 3001
           ChatSamples.typing).
  - discriminate.
  - reflexivity.
Defined.

(** X19.  What the panel makes of the outcomes of its two calls, whatever
    server is behind them.  Without a session the answer is "Error: Not
    authenticated. Please log in." and depends on nothing the fetch does.  A
    response outside 200-299 is reported with its [error] text, with "Unknown
    error" when its body is not JSON, and with "API error: <status>" when the
    JSON has no error text.  A response inside 200-299 without reply text
    becomes "Sorry, I could not generate a response.".  A blank input, or a
    panel still loading, sends nothing and changes nothing. *)
Theorem chat_reports_every_failure :
  forall (env : Env) (messageText : string),
    (getSession env = Returns None ->
     content (answer env messageText)
     = "Error: Not authenticated. Please log in.")
    /\ (forall session response,
          getSession env = Returns (Some session) ->
          fetch_api_ai env ("Bearer " ++ access_token session) messageText
          = Returns response ->
          content (answer env messageText)
          = if ok response then
              match f_json response with
              | Returns data =>
                  or_else (j_reply data)
                          "Sorry, I could not generate a response."
              | Throws error =>
                  "Error: " ++
                  (if instance_of_Error error then message_text error
                   else "Failed to get response. Please try again.")
              end
            else
              match f_json response with
              | Returns data =>
                  "Error: " ++
                  or_else (j_error data)
                          ("API error: " ++ toString (f_status response))
              | Throws _ => "Error: Unknown error"
              end)
    /\ (forall st,
          String.length (trim (input st)) = 0 \/ isLoading st = true ->
          sendMessage env st = st)
    /\ role (answer env messageText) = Ai.
Proof.
  intros env messageText. unfold answer, exchange.
  split; [|split; [|split]].
  - intros ->. reflexivity.
  - intros session response -> F. cbn [await bind]. rewrite F.
    cbn [await bind].
    destruct (ok response); cbn [negb].
    + destruct (f_json response) as [data|error]; reflexivity.
    + destruct (f_json response) as [data|error]; reflexivity.
  - intros st [E | L]; unfold sendMessage.
    + now rewrite E.
    + rewrite L. now rewrite orb_true_r.
  - destruct (getSession env) as [[session|]|e]; cbn [await bind];
      try reflexivity.
    destruct (fetch_api_ai env _ messageText) as [response|e];
      cbn [await bind]; try reflexivity.
    destruct (ok response); cbn [negb]; [|reflexivity].
    destruct (f_json response); reflexivity.
Qed.

Lemma chat_reports_every_failure_sample :
  content (answer ChatSamples.gateway_down "What is due today?")
  = "Error: Unknown error".
Proof.
  exact (proj1 (proj2 (chat_reports_every_failure
                         ChatSamples.gateway_down "What is due today?"))
           (mkSession "alice-token") _ eq_refl eq_refl).
Defined.

End AiChatProps.

(* ================================================================== *)
(** ** Properties of the form and the other page handlers *)
(* ================================================================== *)

Module AppPageMore.

Import AppPage AppPageHandlers.

(** *** Reloading *)

Lemma loadTasks_tasks e (timed_out : bool) v w :
  tasks (loadTasks e timed_out v w) =
  if timed_out then tasks v
  else match Tasks.getTasks e w with
       | Ok l => map dbTaskToUITask l
       | Throw _ => tasks v
       end.
Proof.
  unfold loadTasks. destruct timed_out; [reflexivity|].
  now destruct (Tasks.getTasks e w).
Qed.

Lemma loadTasks_rest e (timed_out : bool) v w :
  animatingTasks (loadTasks e timed_out v w) = animatingTasks v
  /\ completedTasksHistory (loadTasks e timed_out v w) = completedTasksHistory v
  /\ alerts (loadTasks e timed_out v w) = alerts v
  /\ timeouts (loadTasks e timed_out v w) = timeouts v
  /\ loading (loadTasks e timed_out v w) = false.
Proof.
  unfold loadTasks. destruct timed_out; simpl; auto.
  destruct (Tasks.getTasks e w); simpl; auto.
Qed.

(** What getTasks returns, as a set. *)
Lemma getTasks_lists e w l t :
  Tasks.getTasks e w = Ok l ->
  In t l <->
  In t (Tasks.tasks w) /\ Tasks.visible w t = true /\ Tasks.completed t = false.
Proof.
  intros H. rewrite TaskStoreMore.getTasks_as_select in H.
  apply TaskStoreMore.select_where_returns in H.
  split.
  - intros Hin. apply (Permutation_in _ H) in Hin. apply filter_In in Hin.
    destruct Hin as [Hin K]. apply andb_true_iff in K. destruct K as [V C].
    repeat split; auto. now destruct (Tasks.completed t).
  - intros (Hin & V & C).
    apply (Permutation_in _ (Permutation_sym H)). apply filter_In.
    split; [exact Hin|]. now rewrite V, C.
Qed.



(** *** Saving from the form *)

Lemma save_click_submits form data form' :
  save_click form = (Some data, form') ->
  f_title data = trim (title_field form)
  /\ String.length (f_title data) <> 0
  /\ f_description data = or_undefined_string (trim (description_field form))
  /\ f_date data = or_undefined_string (date_field form)
  /\ f_badge data = badge_field form
  /\ form' = mkForm EmptyString EmptyString Tasks.Medium EmptyString.
Proof.
  unfold save_click.
  destruct (Nat.eqb (String.length (trim (title_field form))) 0) eqn:E;
    [discriminate|].
  intros [= <- <-]. simpl. repeat split; auto.
  now apply Nat.eqb_neq.
Qed.

Lemma date_or_today_of_form ae form data form' :
  save_click form = (Some data, form') ->
  date_or_today ae data
  = match date_field form with
    | EmptyString => today ae
    | d => d
    end.
Proof.
  intros H. destruct (save_click_submits form data form' H)
    as (_ & _ & _ & D & _).
  unfold date_or_today. rewrite D.
  now destruct (date_field form).
Qed.

(** X21.  Saving a new task from the form.  A blank title sends nothing and
    leaves the form as typed.  Otherwise the form is cleared and createTask
    gets the trimmed title, the trimmed description (none when blank), and
    the picked date or, when none was picked, today.  When createTask returns
    a task, that task is in the visible list afterwards whether or not the
    reload went through, the form is closed, and the menu switches to "All
    Tasks" exactly when the task is not for today.  When createTask throws,
    addTask asks nothing more of the store, an alert shows the error, and
    the form stays open with the list as it was. *)
Theorem task_saved_from_the_form :
  forall (ae : AddEnv) (pg : Page) (w : Tasks.World) (form : Form),
    (String.length (trim (title_field form)) = 0 ->
     save_click form = (None, form))
    /\ (forall data form',
          save_click form = (Some data, form') ->
          editingTask pg = None ->
          (forall t w1,
              Tasks.createTask (at_save ae) w
                (Tasks.mkNewTask (f_title data) (f_description data)
                                 (f_badge data) (date_or_today ae data))
              = (Ok t, w1) ->
              snd (addTask ae pg w data) = w1
              /\ Tasks.title t = trim (title_field form)
              /\ Tasks.description t
                 = or_undefined_string (trim (description_field form))
              /\ Tasks.date t = match date_field form with
                                | EmptyString => today ae
                                | d => d
                                end
              /\ Tasks.priority t = badge_field form
              /\ In (dbTaskToUITask t)
                    (tasks (view (fst (addTask ae pg w data))))
              /\ showAdd (fst (addTask ae pg w data)) = false
              /\ editingTask (fst (addTask ae pg w data)) = None
              /\ activeMenu (fst (addTask ae pg w data))
                 = (if String.eqb (Tasks.date t) (todayDate ae)
                    then activeMenu pg else "All Tasks")
              /\ alerts (view (fst (addTask ae pg w data)))
                 = alerts (view pg))
          /\ (forall err w1,
                Tasks.createTask (at_save ae) w
                  (Tasks.mkNewTask (f_title data) (f_description data)
                                   (f_badge data) (date_or_today ae data))
                = (Throw err, w1) ->
                addTask ae pg w data
                = (with_view pg
                     (alert ("Failed to save task: " ++ message_or_unknown err
                             ++ ". Check console for details.")
                            (view pg)),
                   w1))).
Proof.
  intros ae pg w form. split.
  - intros E. unfold save_click. now rewrite E.
  - intros data form' S Ed.
    destruct (save_click_submits form data form' S)
      as (Ti & _ & De & _ & Ba & _).
    pose proof (date_or_today_of_form ae form data form' S) as Da.
    split.
    + intros t w1 C. unfold addTask. rewrite Ed, C.
      destruct (TaskStoreProps.createTask_cases (at_save ae) w
                  (Tasks.mkNewTask (f_title data) (f_description data)
                                   (f_badge data) (date_or_today ae data)))
        as [(err & E) | (u & _ & U & _ & _ & E)]; rewrite E in C;
        [discriminate|].
      injection C as <- <-.
      cbn [fst snd close_form view showAdd editingTask activeMenu
           Tasks.title Tasks.description Tasks.date Tasks.priority
           Tasks.n_title Tasks.n_description Tasks.n_priority Tasks.n_date].
      split; [reflexivity|]. split; [exact Ti|].
      split; [rewrite De; now destruct (trim (description_field form))|].
      split; [exact Da|]. split; [exact Ba|].
      split; [|split; [reflexivity|split; [reflexivity|split]]].
      * rewrite loadTasks_tasks.
        match goal with
        | |- In ?x (if _ then ?old else _) =>
            assert (In x old) as Kept
                by (simpl; apply in_or_app; right; now left)
        end.
        destruct (reload_timed_out ae); [exact Kept|].
        match goal with
        | |- context [Tasks.getTasks ?E ?W] =>
            destruct (Tasks.getTasks E W) as [l|err] eqn:G; [|exact Kept]
        end.
        apply in_map. apply (getTasks_lists _ _ _ _ G).
        cbn [Tasks.tasks Tasks.completed].
        split; [apply in_or_app; right; now left|]. split; [|reflexivity].
        unfold Tasks.visible, Tasks.owned_by. cbn [Tasks.auth_uid Tasks.user_id].
        rewrite U. apply String.eqb_refl.
      * now destruct (String.eqb (date_or_today ae data) (todayDate ae)).
      * match goal with
        | |- alerts (loadTasks ?E ?T ?V ?W) = _ =>
            destruct (loadTasks_rest E T V W) as (_ & _ & -> & _)
        end.
        reflexivity.
    + intros err w1 C. unfold addTask. now rewrite Ed, C.
Qed.

(** On the samples: a blank title sends nothing; alice's form creates the
    plumber task, shown in the list with the form closed; with the store out
    of reach she is told and nothing changes. *)
Lemma task_saved_from_the_form_sample :
  save_click PageSamples.blank_form = (None, PageSamples.blank_form)
  /\ (snd (addTask PageSamples.monday PageSamples.page Samples.world
             PageSamples.call_the_plumber)
      = Tasks.mkWorld (Some Samples.alice)
          [Samples.taskA; Samples.taskB; Samples.taskC; Samples.taskD;
           Samples.taskE; PageSamples.plumber]
      /\ Tasks.title PageSamples.plumber = trim (title_field PageSamples.form)
      /\ Tasks.description PageSamples.plumber
         = or_undefined_string (trim (description_field PageSamples.form))
      /\ Tasks.date PageSamples.plumber = today PageSamples.monday
      /\ Tasks.priority PageSamples.plumber = badge_field PageSamples.form
      /\ In (dbTaskToUITask PageSamples.plumber)
            (tasks (view (fst (addTask PageSamples.monday PageSamples.page
                                 Samples.world PageSamples.call_the_plumber))))
      /\ showAdd (fst (addTask PageSamples.monday PageSamples.page
                         Samples.world PageSamples.call_the_plumber)) = false
      /\ editingTask (fst (addTask PageSamples.monday PageSamples.page
                             Samples.world PageSamples.call_the_plumber))
         = None
      /\ activeMenu (fst (addTask PageSamples.monday PageSamples.page
                            Samples.world PageSamples.call_the_plumber))
         = "Today"
      /\ alerts (view (fst (addTask PageSamples.monday PageSamples.page
                              Samples.world PageSamples.call_the_plumber)))
         = [])
  /\ addTask PageSamples.monday_offline PageSamples.page Samples.world
             PageSamples.call_the_plumber
     = (with_view PageSamples.page
          (alert "Failed to save task: Failed to create task: TypeError: Failed to fetch (Code: unknown). Check console for details."
                 (view PageSamples.page)),
        Samples.world).
Proof.
  split; [|split].
  - apply (proj1 (task_saved_from_the_form
                    PageSamples.monday PageSamples.page Samples.world
                    PageSamples.blank_form)).
    reflexivity.
  - exact (proj1 (proj2 (task_saved_from_the_form
                           PageSamples.monday PageSamples.page Samples.world
                           PageSamples.form)
                    PageSamples.call_the_plumber
                    (mkForm EmptyString EmptyString Tasks.Medium EmptyString)
                    eq_refl eq_refl)
             PageSamples.plumber
             (Tasks.mkWorld (Some Samples.alice)
                [Samples.taskA; Samples.taskB; Samples.taskC; Samples.taskD;
                 Samples.taskE; PageSamples.plumber])
             eq_refl).
  - exact (proj2 (proj2 (task_saved_from_the_form
                           PageSamples.monday_offline PageSamples.page
                           Samples.world PageSamples.form)
                    PageSamples.call_the_plumber
                    (mkForm EmptyString EmptyString Tasks.Medium EmptyString)
                    eq_refl eq_refl)
             (new_Error "Failed to create task: TypeError: Failed to fetch (Code: unknown)")
             Samples.world
             eq_refl).
Defined.

(** The form on the samples: the plumber is called today, listed after the
    reload, and also when the reload times out; offline, alice is told. *)
Lemma form_on_samples :
  map title
      (tasks (view (fst (addTask PageSamples.monday PageSamples.page
                           Samples.world
                           (mkFormData "Call the plumber" None Tasks.High
                                       None)))))
  = ["B"; "C"; "A"; "Call the plumber"]
  /\ map title
         (tasks (view (fst (addTask PageSamples.monday_slow PageSamples.page
                              Samples.world
                              (mkFormData "Call the plumber" None Tasks.High
                                          None)))))
     = ["B"; "C"; "A"; "Call the plumber"]
  /\ fst (save_click PageSamples.form)
     = Some (mkFormData "Call the plumber" None Tasks.High None)
  /\ showAdd (fst (addTask PageSamples.monday_offline
                     (mkPage Samples.view "Today" true false None [])
                     Samples.world
                     (mkFormData "Call the plumber" None Tasks.High None)))
     = true.
Proof. repeat split. Qed.

(** *** Editing *)

(** X22.  Saving an edit.  updateTask gets the title, priority and date of
    the form and the description only when there is one.  The task it
    returns keeps the completion flag and completion time of the stored row,
    and keeps the stored description when the form's is blank, so an edit
    cannot clear a description.  The form is then closed, and after a reload
    that goes through the list is getTasks' list.  When updateTask throws,
    the store is untouched, an alert shows the error and the form stays
    open on the same task. *)
Theorem edit_saved_from_the_form :
  forall (ae : AddEnv) (pg : Page) (w : Tasks.World) (editing : Task)
         (data : FormData),
    editingTask pg = Some editing ->
    (forall t w1,
        Tasks.updateTask (at_save ae) w (id editing)
          (Tasks.mkUpdates (Some (f_title data)) (f_description data)
                           (Some (f_badge data)) (Some (date_or_today ae data))
                           None)
        = (Ok t, w1) ->
        exists t0,
          In t0 (Tasks.tasks w) /\ Tasks.id t0 = id editing
          /\ Tasks.visible w t0 = true
          /\ Tasks.completed t = Tasks.completed t0
          /\ Tasks.completed_at t = Tasks.completed_at t0
          /\ Tasks.title t = f_title data
          /\ Tasks.priority t = f_badge data
          /\ Tasks.date t = date_or_today ae data
          /\ Tasks.description t = match f_description data with
                                   | Some s => Some s
                                   | None => Tasks.description t0
                                   end
          /\ snd (addTask ae pg w data) = w1
          /\ showAdd (fst (addTask ae pg w data)) = false
          /\ editingTask (fst (addTask ae pg w data)) = None
          /\ (forall l,
                reload_timed_out ae = false ->
                Tasks.getTasks (at_reload ae) w1 = Ok l ->
                tasks (view (fst (addTask ae pg w data)))
                = map dbTaskToUITask l))
    /\ (forall err w1,
          Tasks.updateTask (at_save ae) w (id editing)
            (Tasks.mkUpdates (Some (f_title data)) (f_description data)
                             (Some (f_badge data))
                             (Some (date_or_today ae data)) None)
          = (Throw err, w1) ->
          addTask ae pg w data
          = (with_view pg
               (alert ("Failed to save task: " ++ message_or_unknown err
                       ++ ". Check console for details.")
                      (view pg)),
             w)).
Proof.
  intros ae pg w editing data Ed. split.
  - intros t w1 H. unfold addTask. rewrite Ed, H.
    destruct (TaskStoreProps.updateTask_cases (at_save ae) w (id editing)
                (Tasks.mkUpdates (Some (f_title data)) (f_description data)
                                 (Some (f_badge data))
                                 (Some (date_or_today ae data)) None))
      as [(err & E) | (_ & t0 & F & E)]; rewrite E in H; [discriminate|].
    injection H as <- <-.
    assert (In t0 [t0]) as Hin by now left.
    rewrite <- F in Hin. apply filter_In in Hin. destruct Hin as [Hin Hit].
    apply andb_true_iff in Hit. destruct Hit as [Hid Hv].
    apply String.eqb_eq in Hid.
    exists t0. repeat split; auto.
    intros l T G. cbn [fst close_form view].
    rewrite loadTasks_tasks, T. cbn [snd] in G. now rewrite G.
  - intros err w1 H. unfold addTask. rewrite Ed, H.
    destruct (TaskStoreProps.updateTask_cases (at_save ae) w (id editing)
                (Tasks.mkUpdates (Some (f_title data)) (f_description data)
                                 (Some (f_badge data))
                                 (Some (date_or_today ae data)) None))
      as [(err' & E) | (_ & t0 & F & E)]; rewrite E in H; [|discriminate].
    now injection H as <- <-.
Qed.

Lemma edit_saved_from_the_form_sample :
  exists t0,
    In t0 (Tasks.tasks Samples.world) /\ Tasks.id t0 = "c"
    /\ Tasks.visible Samples.world t0 = true
    /\ false = Tasks.completed t0
    /\ None = Tasks.completed_at t0
    /\ "C, revised" = "C, revised"
    /\ Tasks.Low = Tasks.Low
    /\ "2024-01-08" = "2024-01-08"
    /\ Some "third" = Tasks.description t0
    /\ snd (addTask PageSamples.monday
              (mkPage Samples.view "Today" true false
                      (Some (dbTaskToUITask Samples.taskC)) [])
              Samples.world
              (mkFormData "C, revised" None Tasks.Low None))
       = snd (Tasks.updateTask Samples.monday Samples.world "c"
                (Tasks.mkUpdates (Some "C, revised") None (Some Tasks.Low)
                                 (Some "2024-01-08") None))
    /\ showAdd (fst (addTask PageSamples.monday
                       (mkPage Samples.view "Today" true false
                               (Some (dbTaskToUITask Samples.taskC)) [])
                       Samples.world
                       (mkFormData "C, revised" None Tasks.Low None)))
       = false
    /\ editingTask (fst (addTask PageSamples.monday
                           (mkPage Samples.view "Today" true false
                                   (Some (dbTaskToUITask Samples.taskC)) [])
                           Samples.world
                           (mkFormData "C, revised" None Tasks.Low None)))
       = None
    /\ (forall l,
          reload_timed_out PageSamples.monday = false ->
          Tasks.getTasks (at_reload PageSamples.monday)
            (snd (Tasks.updateTask Samples.monday Samples.world "c"
                    (Tasks.mkUpdates (Some "C, revised") None (Some Tasks.Low)
                                     (Some "2024-01-08") None)))
          = Ok l ->
          tasks (view (fst (addTask PageSamples.monday
                              (mkPage Samples.view "Today" true false
                                      (Some (dbTaskToUITask Samples.taskC)) [])
                              Samples.world
                              (mkFormData "C, revised" None Tasks.Low None))))
          = map dbTaskToUITask l).
Proof.
  exact (proj1 (edit_saved_from_the_form
                  PageSamples.monday
                  (mkPage Samples.view "Today" true false
                          (Some (dbTaskToUITask Samples.taskC)) [])
                  Samples.world (dbTaskToUITask Samples.taskC)
                  (mkFormData "C, revised" None Tasks.Low None)
                  eq_refl)
           _ _ eq_refl).
Defined.

(** *** Deleting, history, signing out *)

(** X23.  Deleting from the page.  When the store call resolves, no row of
    that id is left in the visible list or in the history, every other row
    of both stays in place, and nothing is alerted.  When it throws, the
    store, the list and the history are as before and one alert shows the
    error. *)
Theorem page_delete_removes_the_row_everywhere :
  forall (e : Tasks.Env) (pg : Page) (w : Tasks.World) (target : string),
    match Tasks.fault e with
    | None =>
        snd (deleteTask e pg w target) = snd (Tasks.deleteTask e w target)
        /\ tasks (view (fst (deleteTask e pg w target)))
           = filter (fun t => negb (String.eqb (id t) target))
                    (tasks (view pg))
        /\ completedTasksHistory (view (fst (deleteTask e pg w target)))
           = filter (fun t => negb (String.eqb (id t) target))
                    (completedTasksHistory (view pg))
        /\ Forall (fun t => id t <> target)
                  (tasks (view (fst (deleteTask e pg w target))))
        /\ Forall (fun t => id t <> target)
                  (completedTasksHistory (view (fst (deleteTask e pg w target))))
        /\ alerts (view (fst (deleteTask e pg w target))) = alerts (view pg)
    | Some err =>
        deleteTask e pg w target
        = (with_view pg
             (alert ("Failed to delete task: "
                     ++ ("Failed to delete task: " ++ message_text err
                         ++ " (Code: " ++ Tasks.code_text err ++ ")")
                     ++ ". Check console for details.")
                    (view pg)),
           w)
    end.
Proof.
  intros e pg w target.
  unfold deleteTask, Tasks.deleteTask, Tasks.delete_eq_id.
  destruct (Tasks.fault e) as [err|].
  - reflexivity.
  - cbn [fst snd view with_view set_history set_tasks tasks
         completedTasksHistory alerts].
    repeat split; auto.
    + rewrite Forall_forall. intros t Ht E. apply filter_In in Ht.
      destruct Ht as [_ Ht]. rewrite E, String.eqb_refl in Ht. discriminate.
    + rewrite Forall_forall. intros t Ht E. apply filter_In in Ht.
      destruct Ht as [_ Ht]. rewrite E, String.eqb_refl in Ht. discriminate.
Qed.

(** X24.  Opening the history.  The panel is shown either way.  When
    getCompletedTasks returns, the history is its list, row for row, every
    entry completed; when it throws, the history is left as it was and
    nothing is alerted.  The visible list is never touched. *)
Theorem history_shows_the_completed_tasks :
  forall (e : Tasks.Env) (pg : Page) (w : Tasks.World),
    showHistory (handleShowHistory e pg w) = true
    /\ tasks (view (handleShowHistory e pg w)) = tasks (view pg)
    /\ alerts (view (handleShowHistory e pg w)) = alerts (view pg)
    /\ match Tasks.fault e with
       | None =>
           exists l,
             TaskQueries.getCompletedTasks e w = Ok l
             /\ completedTasksHistory (view (handleShowHistory e pg w))
                = map dbTaskToUITask l
             /\ Forall (fun t => completed t = Some true)
                       (completedTasksHistory (view (handleShowHistory e pg w)))
             /\ Permutation l
                  (filter (fun t => Tasks.visible w t && Tasks.completed t)
                          (Tasks.tasks w))
       | Some _ =>
           completedTasksHistory (view (handleShowHistory e pg w))
           = completedTasksHistory (view pg)
       end.
Proof.
  intros e pg w. unfold handleShowHistory.
  pose proof (TaskStoreMore.select_where_answers
                (fun t => Bool.eqb (Tasks.completed t) true)
                TaskQueries.completed_at_desc e w
                TaskStoreMore.completed_at_desc_total
                TaskStoreMore.completed_at_desc_trans) as S.
  fold (TaskQueries.getCompletedTasks e w) in S.
  destruct (Tasks.fault e) as [err|].
  - rewrite S. simpl. auto.
  - destruct S as (l & -> & P & _). simpl.
    assert (Permutation l
              (filter (fun t => Tasks.visible w t && Tasks.completed t)
                      (Tasks.tasks w))) as P'.
    { rewrite P. apply Permutation_refl', filter_ext.
      intros t. now destruct (Tasks.completed t). }
    repeat split; auto. exists l. repeat split; auto.
    rewrite Forall_forall. intros t Ht.
    apply in_map_iff in Ht. destruct Ht as (r & <- & Hr).
    apply (Permutation_in _ P') in Hr. apply filter_In in Hr.
    destruct Hr as [_ Hr]. apply andb_true_iff in Hr. simpl.
    now destruct Hr as [_ ->].
Qed.

(** X25.  Signing out from the page.  When the sign-out call reports no
    error, or an error that says the session is already gone (returned or
    thrown), the browser is sent to /auth/login and refreshed and nothing is
    alerted.  For any other error the browser stays and "Failed to sign out.
    Please try again." is alerted.  The task list is never touched. *)
Theorem page_sign_out_goes_to_login :
  forall (call : Call (option Error)) (pg : Page),
    tasks (view (handleSignOut call pg)) = tasks (view pg)
    /\ (call = Returns None
        \/ (exists error,
               (call = Returns (Some error) \/ call = Throws error)
               /\ Auth.session_already_invalid error = true) ->
        navigation (handleSignOut call pg)
        = (navigation pg
           ++ [SetupProfilePage.Push (SetupProfilePage.Login None);
               SetupProfilePage.Refresh])%list
        /\ alerts (view (handleSignOut call pg)) = alerts (view pg))
    /\ ((exists error,
            (call = Returns (Some error) \/ call = Throws error)
            /\ Auth.session_already_invalid error = false) ->
        navigation (handleSignOut call pg) = navigation pg
        /\ alerts (view (handleSignOut call pg))
           = (alerts (view pg)
              ++ ["Failed to sign out. Please try again."])%list).
Proof.
  intros call pg. unfold handleSignOut.
  rewrite SessionProps.signOut_closed_form.
  split; [|split].
  - destruct call as [[error|]|error]; try reflexivity;
      now destruct (Auth.session_already_invalid error).
  - intros [-> | (error & [-> | ->] & ->)]; auto.
  - intros (error & [-> | ->] & ->); auto.
Qed.

Lemma page_sign_out_goes_to_login_sample :
  navigation (handleSignOut (Returns (Some Samples.session_missing))
                PageSamples.page)
  = [SetupProfilePage.Push (SetupProfilePage.Login None);
     SetupProfilePage.Refresh]
  /\ alerts (view (handleSignOut (Returns (Some Samples.session_missing))
                     PageSamples.page))
     = [].
Proof.
  apply (proj1 (proj2 (page_sign_out_goes_to_login
                         (Returns (Some Samples.session_missing))
                         PageSamples.page))).
  right. exists Samples.session_missing. split; [now left | reflexivity].
Defined.

(** *** Completing a task *)

(** After a completing update the store holds no incomplete row of that id
    the caller may read. *)
Lemma completing_leaves_no_incomplete_row e w target updates t w1 :
  Tasks.p_completed updates = Some true ->
  Tasks.updateTask e w target updates = (Ok t, w1) ->
  forall r, In r (Tasks.tasks w1) -> Tasks.visible w1 r = true ->
            Tasks.completed r = false -> Tasks.id r <> target.
Proof.
  intros C H r Hr V Inc Eid.
  destruct (TaskStoreProps.updateTask_cases e w target updates)
    as [(err & E) | (_ & t0 & F & E)]; rewrite E in H; [discriminate|].
  injection H as <- <-.
  simpl in Hr. apply in_map_iff in Hr. destruct Hr as (r0 & Er & _).
  destruct (String.eqb (Tasks.id r0) target && Tasks.visible w r0) eqn:Hit.
  - subst r. revert Inc.
    unfold Tasks.rewritten, Tasks.sent_by_updateTask, Tasks.or_keep; simpl.
    rewrite C. discriminate.
  - subst r0. change (Tasks.visible w r = true) in V.
    rewrite V, andb_true_r in Hit. apply String.eqb_neq in Hit. contradiction.
Qed.

(** What the callback of the timeout leaves, on any view and store. *)
Lemma animation_done_leaves e (timed_out : bool) v w target :
  Forall (fun x => x <> target)
         (animatingTasks (animation_done e timed_out v w target))
  /\ completedTasksHistory (animation_done e timed_out v w target)
     = completedTasksHistory v
  /\ alerts (animation_done e timed_out v w target) = alerts v
  /\ tasks (animation_done e timed_out v w target)
     = if timed_out
       then filter (fun r => negb (String.eqb (id r) target)) (tasks v)
       else match Tasks.getTasks e w with
            | Ok l => map dbTaskToUITask l
            | Throw _ =>
                filter (fun r => negb (String.eqb (id r) target)) (tasks v)
            end.
Proof.
  unfold animation_done.
  match goal with
  | |- context [loadTasks e timed_out ?V w] =>
      destruct (loadTasks_rest e timed_out V w) as (A & H & L & _);
      pose proof (loadTasks_tasks e timed_out V w) as T
  end.
  rewrite T, A, H, L. cbn [tasks animatingTasks completedTasksHistory alerts].
  repeat split.
  unfold set_delete. rewrite Forall_forall. intros x Hx E.
  apply filter_In in Hx. destruct Hx as [_ Hx].
  rewrite E, String.eqb_refl in Hx. discriminate.
Qed.

Lemma filter_drops_the_id target (l : list Task) :
  Forall (fun r => id r <> target)
         (filter (fun r => negb (String.eqb (id r) target)) l).
Proof.
  rewrite Forall_forall. intros r Hr E. apply filter_In in Hr.
  destruct Hr as [_ Hr]. rewrite E, String.eqb_refl in Hr. discriminate.
Qed.

(** X26.  Completing a task from the list.  When the task is in the visible
    list, not completed, and updateTask returns, the row stays in the list
    (which keeps its length) in its updated form, its id joins the animating
    set, the updated row is appended to the history, one timeout is pending
    and nothing is alerted.  The timeout is never cancelled.  When it fires,
    on whatever the page shows and the store holds by then, the id leaves the
    animating set, history and alerts are not touched, and a row of that id
    is in the list afterwards only if the reload went through and returned
    it, the store holding an incomplete row of that id again.  So with the
    store as the completing update left it, no row of that id is left in the
    list, whatever the page shows and whatever the reload does; and fired on
    the view the toggle left, the history still holds the row. *)
Theorem completed_task_animates_then_leaves :
  forall (e e' : Tasks.Env) (timed_out : bool) (v : View) (w : Tasks.World)
         (target : string) (task : Task) (t : Tasks.Task) (w1 : Tasks.World),
    find (fun r => String.eqb (id r) target) (tasks v) = Some task ->
    not_completed task = true ->
    Tasks.updateTask e w target
      (Tasks.mkUpdates None None None None (Some true)) = (Ok t, w1) ->
    snd (toggleTask e v w target) = w1
    /\ length (tasks (fst (toggleTask e v w target))) = length (tasks v)
    /\ In (dbTaskToUITask t) (tasks (fst (toggleTask e v w target)))
    /\ In target (animatingTasks (fst (toggleTask e v w target)))
    /\ completedTasksHistory (fst (toggleTask e v w target))
       = (completedTasksHistory v ++ [dbTaskToUITask t])%list
    /\ timeouts (fst (toggleTask e v w target))
       = (timeouts v ++ [target])%list
    /\ alerts (fst (toggleTask e v w target)) = alerts v
    /\ (forall (v2 : View) (w2 : Tasks.World),
          Forall (fun x => x <> target)
                 (animatingTasks (animation_done e' timed_out v2 w2 target))
          /\ completedTasksHistory (animation_done e' timed_out v2 w2 target)
             = completedTasksHistory v2
          /\ alerts (animation_done e' timed_out v2 w2 target) = alerts v2
          /\ (forall r,
                In r (tasks (animation_done e' timed_out v2 w2 target)) ->
                id r = target ->
                timed_out = false
                /\ exists t2,
                     r = dbTaskToUITask t2
                     /\ In t2 (Tasks.tasks w2)
                     /\ Tasks.visible w2 t2 = true
                     /\ Tasks.completed t2 = false))
    /\ (forall v2 : View,
          Forall (fun r => id r <> target)
                 (tasks (animation_done e' timed_out v2 w1 target)))
    /\ In (dbTaskToUITask t)
          (completedTasksHistory (animation_done e' timed_out
                                    (fst (toggleTask e v w target)) w1 target)).
Proof.
  intros e e' timed_out v w target task t w1 Found NC U.
  assert (forall v2 w2 r,
             In r (tasks (animation_done e' timed_out v2 w2 target)) ->
             id r = target ->
             timed_out = false
             /\ exists t2,
                  r = dbTaskToUITask t2
                  /\ In t2 (Tasks.tasks w2)
                  /\ Tasks.visible w2 t2 = true
                  /\ Tasks.completed t2 = false) as Back.
  { intros v2 w2 r Hr E.
    destruct (animation_done_leaves e' timed_out v2 w2 target)
      as (_ & _ & _ & T).
    rewrite T in Hr. clear T.
    pose proof (filter_drops_the_id target (tasks v2)) as Gone.
    rewrite Forall_forall in Gone.
    destruct timed_out; [now elim (Gone r Hr)|].
    split; [reflexivity|].
    destruct (Tasks.getTasks e' w2) as [l|err] eqn:G;
      [|now elim (Gone r Hr)].
    apply in_map_iff in Hr. destruct Hr as (t2 & <- & Ht2).
    exists t2. split; [reflexivity|].
    now apply (getTasks_lists e' w2 l t2 G). }
  unfold toggleTask. rewrite Found, NC, U.
  cbn [fst snd tasks animatingTasks completedTasksHistory timeouts alerts].
  split; [reflexivity|]. split; [apply length_map|].
  split.
  { apply find_some in Found. destruct Found as [Hin Hid].
    apply in_map_iff. exists task. now rewrite Hid. }
  split.
  { unfold set_add. destruct (existsb (String.eqb target) (animatingTasks v)) eqn:X.
    - apply existsb_exists in X. destruct X as (x & Hx & Ex).
      apply String.eqb_eq in Ex. now subst x.
    - apply in_or_app. right. now left. }
  split; [reflexivity|]. split; [reflexivity|]. split; [reflexivity|].
  split; [|split].
  - intros v2 w2.
    destruct (animation_done_leaves e' timed_out v2 w2 target)
      as (A & H & L & _).
    split; [exact A|]. split; [exact H|]. split; [exact L|].
    exact (Back v2 w2).
  - intros v2. rewrite Forall_forall. intros r Hr E.
    destruct (Back v2 w1 r Hr E) as (_ & t2 & -> & Hin & V & Inc).
    exact (completing_leaves_no_incomplete_row e w target
             (Tasks.mkUpdates None None None None (Some true)) t w1
             eq_refl U t2 Hin V Inc E).
  - destruct (animation_done_leaves e' timed_out
                (mkView
                   (map (fun t0 => if String.eqb (id t0) target
                                   then dbTaskToUITask t else t0) (tasks v))
                   (set_add target (animatingTasks v))
                   (completedTasksHistory v ++ [dbTaskToUITask t])
                   (loading v) (connectionStatus v) (alerts v)
                   (timeouts v ++ [target]))
                w1 target) as (_ & H & _).
    rewrite H. cbn [completedTasksHistory].
    apply in_or_app. right. now left.
Qed.

(** B is completed on the sample page; a second later the timeout fires and
    the reload goes through. *)
Lemma completed_task_animates_then_leaves_sample :
  snd (toggleTask Samples.monday Samples.view Samples.world "b")
  = snd (Tasks.updateTask Samples.monday Samples.world "b"
           (Tasks.mkUpdates None None None None (Some true)))
  /\ length (tasks (fst (toggleTask Samples.monday Samples.view
                           Samples.world "b"))) = 3
  /\ In (dbTaskToUITask
           (Tasks.rewritten Samples.monday (Tasks.flip Samples.taskB)
                            Samples.taskB))
        (tasks (fst (toggleTask Samples.monday Samples.view Samples.world "b")))
  /\ In "b" (animatingTasks (fst (toggleTask Samples.monday Samples.view
                                    Samples.world "b")))
  /\ completedTasksHistory (fst (toggleTask Samples.monday Samples.view
                                   Samples.world "b"))
     = [dbTaskToUITask
          (Tasks.rewritten Samples.monday (Tasks.flip Samples.taskB)
                           Samples.taskB)]
  /\ timeouts (fst (toggleTask Samples.monday Samples.view Samples.world "b"))
     = ["b"]
  /\ alerts (fst (toggleTask Samples.monday Samples.view Samples.world "b"))
     = []
  /\ Forall (fun r => id r <> "b")
            (tasks (animation_done Samples.tuesday false
                      (fst (toggleTask Samples.monday Samples.view
                              Samples.world "b"))
                      (snd (Tasks.updateTask Samples.monday Samples.world "b"
                              (Tasks.mkUpdates None None None None
                                               (Some true))))
                      "b"))
  /\ In (dbTaskToUITask
           (Tasks.rewritten Samples.monday (Tasks.flip Samples.taskB)
                            Samples.taskB))
        (completedTasksHistory
           (animation_done Samples.tuesday false
              (fst (toggleTask Samples.monday Samples.view Samples.world "b"))
              (snd (Tasks.updateTask Samples.monday Samples.world "b"
                      (Tasks.mkUpdates None None None None (Some true))))
              "b")).
Proof.
  destruct (completed_task_animates_then_leaves
              Samples.monday Samples.tuesday false Samples.view Samples.world
              "b" (dbTaskToUITask Samples.taskB) _ _ eq_refl eq_refl eq_refl)
    as (H1 & H2 & H3 & H4 & H5 & H6 & H7 & _ & H9 & H10).
  repeat (split; [assumption|]).
  split; [|exact H10].
  exact (H9 (fst (toggleTask Samples.monday Samples.view Samples.world "b"))).
Defined.

(** B is completed and, within the second, toggled back: the timeout fires
    all the same, and the reload that follows puts B back into the list. *)
Lemma toggled_back_before_the_timeout :
  let '(v1, w1) :=
    toggleTask Samples.monday Samples.view Samples.world "b" in
  let '(v2, w2) := toggleTask Samples.tuesday v1 w1 "b" in
  timeouts v2 = ["b"]
  /\ completedTasksHistory v2 = []
  /\ map id (tasks (animation_done Samples.tuesday false v2 w2 "b"))
     = ["b"; "c"; "a"]
  /\ map id (tasks (animation_done Samples.tuesday true v2 w2 "b"))
     = ["c"; "a"].
Proof. vm_compute. repeat split. Qed.

End AppPageMore.

(* ================================================================== *)
(** ** Properties of the pages that gate on the session *)
(* ================================================================== *)

Module AuthPagesProps.

Import SetupProfilePage AuthPages.

Lemma hasProfile_resolves b : exists r, Profiles.hasProfile b = Ok r.
Proof.
  unfold Profiles.hasProfile, try_catch, bind.
  destruct (Profiles.getProfile b) as [[p|]|e]; eauto.
Qed.

Lemma route_by_profile_cases env :
  (Profiles.hasProfile (profiles_backend env) = Ok true
   /\ route_by_profile env = [Push App; Refresh])
  \/ (Profiles.hasProfile (profiles_backend env) = Ok false
      /\ route_by_profile env = [Push SetupProfile; Refresh]).
Proof.
  unfold route_by_profile.
  destruct (hasProfile_resolves (profiles_backend env)) as ([|] & ->); auto.
Qed.

(** X27.  The OAuth callback page sends the browser to exactly one place,
    and refreshes only after sending it to the app or to the profile setup.
    It goes to the app only when the URL carries no error, a session exists
    (from exchanging the URL's code without error, or already there when the
    URL has no code) and hasProfile is true.  A URL with an error parameter
    goes to the login page with the error's description (or the error) as
    message, and nothing else is consulted: the outcome is the same whatever
    the auth and profile calls would do. *)
Theorem auth_callback_routes :
  forall (env : CallbackEnv) (params : SearchParams),
    ((exists text, handleAuthCallback env params = [Push (Login (Some text))])
     \/ handleAuthCallback env params = [Push App; Refresh]
     \/ handleAuthCallback env params = [Push SetupProfile; Refresh])
    /\ (handleAuthCallback env params = [Push App; Refresh] ->
        truthy_string (error params) = false
        /\ Profiles.hasProfile (profiles_backend env) = Ok true
        /\ ((exists c s,
                code params = Some c
                /\ exchangeCodeForSession env c = Returns (Some s, None))
            \/ (truthy_string (code params) = false
                /\ exists s, auth_getSession env = Returns (Some s))))
    /\ (truthy_string (error params) = true ->
        handleAuthCallback env params
        = [Push (Login (Some (first_truthy (error_description params)
                                           (error params))))]
        /\ forall env', handleAuthCallback env' params
                        = handleAuthCallback env params).
Proof.
  intros env params. unfold handleAuthCallback.
  destruct (truthy_string (error params)) eqn:E.
  { split; [left; eauto|]. split; [discriminate|]. auto. }
  destruct (truthy_string (code params)) eqn:C.
  - destruct (code params) as [c|] eqn:Cd; [|discriminate].
    destruct (exchangeCodeForSession env c) as [[[s|] [err|]]|err] eqn:X;
      try (split; [left; eauto|]; split; [discriminate|]; discriminate).
    destruct (route_by_profile_cases env) as [(H & ->) | (H & ->)].
    + split; [auto|]. split; [|discriminate].
      intros _. repeat split; auto. left. eauto.
    + split; [auto|]. split; discriminate.
  - destruct (auth_getSession env) as [[s|]|err] eqn:G;
      try (split; [left; eauto|]; split; [discriminate|]; discriminate).
    destruct (route_by_profile_cases env) as [(H & ->) | (H & ->)].
    + split; [auto|]. split; [|discriminate].
      intros _. repeat split; auto. right. eauto.
    + split; [auto|]. split; discriminate.
Qed.

Lemma auth_callback_routes_sample :
  truthy_string (error (mkSearchParams (Some "4/0Ab" ) None None)) = false
  /\ Profiles.hasProfile (profiles_backend GateSamples.alice_returns) = Ok true
  /\ ((exists c s,
          code (mkSearchParams (Some "4/0Ab") None None) = Some c
          /\ exchangeCodeForSession GateSamples.alice_returns c
             = Returns (Some s, None))
      \/ (truthy_string (code (mkSearchParams (Some "4/0Ab") None None)) = false
          /\ exists s, auth_getSession GateSamples.alice_returns
                       = Returns (Some s))).
Proof.
  apply (proj1 (proj2 (auth_callback_routes
                         GateSamples.alice_returns
                         (mkSearchParams (Some "4/0Ab") None None)))).
  reflexivity.
Defined.

(** X28.  getSession of lib/auth.ts resolves to null whenever the auth call
    returns an error, even next to a session.  The app page stops checking,
    and shows itself, exactly when getSession resolves to a session and
    hasProfile is true, and it has then asked nothing of the router; without
    a session it sends the browser to the login page, with a session but no
    profile to the profile setup.  Once shown, it takes name and avatar
    (1 for none or 0) from the profile when getProfile returns one, and a
    getProfile that throws leaves the page shown, without a name.  The home
    page sends a visitor without session to the login page and one with a
    session to the app. *)
Theorem app_page_opens_with_session_and_profile :
  forall (env : CheckEnv),
    (forall session err,
        getSession (Returns (session, Some err)) = Ok None)
    /\ (checkingAuth (checkAuth env mounted) = false
        <-> (exists s, getSession (session_call env) = Ok (Some s))
            /\ Profiles.hasProfile (at_hasProfile env) = Ok true)
    /\ (checkingAuth (checkAuth env mounted) = false ->
        navigation (checkAuth env mounted) = [])
    /\ (getSession (session_call env) = Ok None ->
        checkAuth env mounted = mkShell true None None 1 [Push (Login None)]
        /\ home_checkAuthAndRedirect (session_call env) = [Push (Login None)])
    /\ (forall s,
          getSession (session_call env) = Ok (Some s) ->
          home_checkAuthAndRedirect (session_call env) = [Push App]
          /\ (Profiles.hasProfile (at_hasProfile env) = Ok false ->
              checkAuth env mounted
              = mkShell true None None 1 [Push SetupProfile])
          /\ (Profiles.hasProfile (at_hasProfile env) = Ok true ->
              (forall p,
                  Profiles.getProfile (at_getProfile env) = Ok (Some p) ->
                  userName (checkAuth env mounted)
                  = Some (Profiles.full_name p)
                  /\ userAvatarId (checkAuth env mounted)
                     = avatar_id_or_1 (Profiles.avatar_id p))
              /\ (forall err,
                    Profiles.getProfile (at_getProfile env) = Throw err ->
                    checkAuth env mounted = mkShell false None None 1 []))).
Proof.
  intros env. split; [reflexivity|].
  unfold checkAuth, home_checkAuthAndRedirect.
  destruct (getSession (session_call env)) as [[s|]|err] eqn:S.
  - destruct (hasProfile_resolves (at_hasProfile env)) as ([|] & H);
      rewrite H.
    + assert (forall sh,
                 checkingAuth (load_profile env sh) = checkingAuth sh
                 /\ navigation (load_profile env sh) = navigation sh) as Keeps.
      { intros sh. unfold load_profile.
        destruct (Profiles.getProfile (at_getProfile env)) as [[p|]|e]; auto;
          destruct (getUser (user_call env)) as [[u|]|e]; auto;
          destruct (truthy_string (email u)); auto. }
      change (mkShell false (userName mounted) (userEmail mounted)
                      (userAvatarId mounted) (navigation mounted))
        with (mkShell false None None 1 []).
      split; [|split; [|split; [|intros s' _; split; [|split]]]].
      * destruct (Keeps (mkShell false None None 1 [])) as [-> _]. simpl.
        split; [eauto | reflexivity].
      * intros _. destruct (Keeps (mkShell false None None 1 [])) as [_ ->].
        reflexivity.
      * discriminate.
      * reflexivity.
      * discriminate.
      * intros _. split.
        -- intros p G. unfold load_profile. rewrite G. simpl.
           destruct (getUser (user_call env)) as [[u|]|e]; auto.
           destruct (truthy_string (email u)); auto.
        -- intros e G. unfold load_profile. now rewrite G.
    + split; [|split; [|split; [|intros s' _; split; [|split]]]];
        try discriminate; try reflexivity.
      * simpl. split; [discriminate|]. intros [_ F]. discriminate.
  - split; [|split; [|split; [|intros s' F; discriminate]]];
      try discriminate; auto.
    simpl. split; [discriminate|]. intros [(s' & F) _]. discriminate.
  - split; [|split; [|split; [|intros s' F; discriminate]]];
      try discriminate.
    simpl. split; [discriminate|]. intros [(s' & F) _]. discriminate.
Qed.

Lemma app_page_opens_with_session_and_profile_sample :
  checkAuth GateSamples.alice_arrives mounted
  = mkShell false (Some "Alice") (Some "alice@example.org") 3 []
  /\ checkAuth GateSamples.alice_arrives_flaky mounted
     = mkShell false None None 1 [].
Proof.
  split.
  - reflexivity.
  - apply (proj2 (proj2 (proj2
             (proj2 (proj2 (proj2 (proj2
                (app_page_opens_with_session_and_profile
                   GateSamples.alice_arrives_flaky))))
                GateSamples.alice_session eq_refl))
             eq_refl)
             Samples.permission_denied).
    reflexivity.
Defined.

End AuthPagesProps.
